(** * foodie-hub: the inventory-safe cart / order procedures

    A shallow embedding of the PL/pgSQL stored procedures of
    [supabase/migrations/20250713120623_winter_spire.sql].  That file carries
    two revisions of the same four procedures:

    - lines 1-346, "Fix Cart Operations" (module [FixOps]): returns [json],
      no row locks, every write sits in an inner [BEGIN .. EXCEPTION] block;
    - lines 347-681, "Cart Quantity Management Functions" (module [QtyMgmt]):
      returns [jsonb], checks [auth.uid()], locks rows with [FOR UPDATE], one
      [EXCEPTION] clause on the whole function body.

    Tables are lists of rows, a procedure is a state-passing computation
    that may raise an SQL error, [integer] is the 32-bit type of PostgreSQL
    (arithmetic out of range raises, it never wraps), and an [EXCEPTION]
    block rolls the database back to the state at the entry of the block.

    The [CREATE TABLE] migrations are not among the sources.  The columns
    are the ones the procedures name; [quantity_available] and [quantity]
    are [integer] and not NULL, as the variables that receive them; [id] and
    [created_at] have defaults.  Constraints of the schema are never
    enforced by the model: where a property needs one (a primary key, the
    unique pair of [ON CONFLICT], a foreign key) it is a hypothesis, shown
    preserved by every call.  Row locks ([FOR UPDATE]) have no effect on a
    call that runs alone, and calls are taken one after the other.

    The first revision of the three cart procedures
    ([supabase/migrations/20250713120102_holy_portal.sql], module
    [HolyPortal]) follows the two later ones. *)

From Stdlib Require Import ZArith List String Lia Bool DecimalString.
Import ListNotations.
Local Open Scope string_scope.
Local Open Scope list_scope.
Local Open Scope Z_scope.

(** ** PostgreSQL values *)

Definition uuid := nat.
Definition timestamptz := Z.

(** [numeric] prices and totals, counted in hundredths: the procedures only
    multiply a price by an integer and add, which is exact on decimals. *)
Definition numeric := Z.

Definition int4_min : Z := -2147483648.
Definition int4_max : Z := 2147483647.

Definition in_int4 (z : Z) : bool := (int4_min <=? z) && (z <=? int4_max).

Inductive res (A : Type) : Type :=
| Ok (a : A)
| Err (sqlerrm : string).
Arguments Ok {A} a.
Arguments Err {A} sqlerrm.

Definition res_map {A B : Type} (f : A -> B) (r : res A) : res B :=
  match r with
  | Ok a => Ok (f a)
  | Err e => Err e
  end.

Definition int4 (z : Z) : res Z :=
  if in_int4 z then Ok z else Err "integer out of range".

(** [integer + integer] and [integer - integer]. *)
Definition int4pl (a b : Z) : res Z := int4 (a + b).
Definition int4mi (a b : Z) : res Z := int4 (a - b).

(** [integer || text]: the decimal rendering of an integer. *)
Definition text_of_int (z : Z) : string := NilZero.string_of_int (Z.to_int z).

(** ** JSON results, as [json_build_object] builds them *)

Inductive jval : Type :=
| JNull
| JBool (b : bool)
| JInt (z : Z)
| JText (s : string)
| JUuid (u : uuid).

Definition json := list (string * jval).

Fixpoint json_get (k : string) (j : json) : option jval :=
  match j with
  | [] => None
  | (k', v) :: j' => if String.eqb k k' then Some v else json_get k j'
  end.

(** ** Tables: the columns the procedures read or write *)

Record menu_item : Type := mk_menu_item {
  mi_id : uuid;
  mi_name : string;
  mi_price : numeric;
  mi_quantity_available : Z;
  mi_updated_at : timestamptz
}.

Record cart_item : Type := mk_cart_item {
  ci_id : uuid;
  ci_user_id : uuid;
  ci_menu_item_id : uuid;
  ci_quantity : Z;
  ci_created_at : timestamptz
}.

Record order : Type := mk_order {
  o_id : uuid;
  o_user_id : uuid;
  o_total_amount : numeric;
  o_status : string;
  o_payment_status : string
}.

Record order_item : Type := mk_order_item {
  oi_order_id : uuid;
  oi_menu_item_id : uuid;
  oi_quantity : Z;
  oi_price : numeric
}.

(** [next_uuid] stands for the generator behind the [id] defaults: the
    identifier the next inserted row receives. *)
Record db : Type := mk_db {
  menu_items : list menu_item;
  cart_items : list cart_item;
  orders : list order;
  order_items : list order_item;
  next_uuid : uuid
}.

Definition with_menu_items (t : list menu_item) (st : db) : db :=
  mk_db t (cart_items st) (orders st) (order_items st) (next_uuid st).

Definition with_cart_items (t : list cart_item) (st : db) : db :=
  mk_db (menu_items st) t (orders st) (order_items st) (next_uuid st).

(** ** Procedures: state passing with SQL errors *)

Definition exec (A : Type) : Type := db -> res (A * db).

Definition ret {A : Type} (a : A) : exec A := fun st => Ok (a, st).

Definition bind {A B : Type} (m : exec A) (k : A -> exec B) : exec B :=
  fun st =>
    match m st with
    | Ok (a, st') => k a st'
    | Err e => Err e
    end.

Definition lift {A : Type} (r : res A) : exec A :=
  fun st =>
    match r with
    | Ok a => Ok (a, st)
    | Err e => Err e
    end.

Definition query {A : Type} (q : db -> A) : exec A := fun st => Ok (q st, st).

(** [BEGIN body EXCEPTION WHEN OTHERS THEN handler END]: when the body
    raises, its writes are undone and the handler runs on the state the block
    was entered with, [SQLERRM] holding the message. *)
Definition try {A : Type} (body : exec A) (handler : string -> exec A) : exec A :=
  fun st =>
    match body st with
    | Ok r => Ok r
    | Err e => handler e st
    end.

Notation "x <- m ;; k" := (bind m (fun x => k))
  (at level 61, m at next level, right associativity).
Notation "m ;; k" := (bind m (fun _ => k))
  (at level 61, right associativity).

(** What the caller of a procedure sees: the JSON it returned, or the error
    it raised; an error that leaves the procedure aborts the transaction. *)
Inductive outcome : Type :=
| Return (j : json)
| Raise (sqlerrm : string).

Definition call (body : exec json) (st : db) : outcome * db :=
  match body st with
  | Ok (j, st') => (Return j, st')
  | Err e => (Raise e, st)
  end.

(** ** SQL statements *)

(** [SELECT .. INTO]: the first row that matches, [None] for NOT FOUND. *)
Definition select_into {R : Type} (where_ : R -> bool) (t : list R) : option R :=
  find where_ t.

(** [UPDATE t SET .. WHERE ..]: every matching row is rewritten; the
    statement raises when a [SET] expression does. *)
Fixpoint update_rows {R : Type} (where_ : R -> bool) (set_ : R -> res R)
    (t : list R) : res (list R) :=
  match t with
  | [] => Ok []
  | r :: t' =>
      match (if where_ r then set_ r else Ok r) with
      | Err e => Err e
      | Ok r' => res_map (cons r') (update_rows where_ set_ t')
      end
  end.

(** [DELETE FROM t WHERE ..]. *)
Definition delete_rows {R : Type} (where_ : R -> bool) (t : list R) : list R :=
  filter (fun r => negb (where_ r)) t.

Definition UPDATE_menu_items (set_ : menu_item -> res menu_item)
    (where_ : menu_item -> bool) : exec unit :=
  fun st =>
    match update_rows where_ set_ (menu_items st) with
    | Ok t => Ok (tt, with_menu_items t st)
    | Err e => Err e
    end.

Definition UPDATE_cart_items (set_ : cart_item -> res cart_item)
    (where_ : cart_item -> bool) : exec unit :=
  fun st =>
    match update_rows where_ set_ (cart_items st) with
    | Ok t => Ok (tt, with_cart_items t st)
    | Err e => Err e
    end.

Definition DELETE_FROM_cart_items (where_ : cart_item -> bool) : exec unit :=
  fun st => Ok (tt, with_cart_items (delete_rows where_ (cart_items st)) st).

(** [SET quantity_available = <expr>, updated_at = now()]. *)
Definition set_quantity_available (expr : Z -> res Z) (now : timestamptz)
    (mi : menu_item) : res menu_item :=
  res_map (fun q => mk_menu_item (mi_id mi) (mi_name mi) (mi_price mi) q now)
          (expr (mi_quantity_available mi)).

(** [SET quantity = <expr>, created_at = now()]. *)
Definition set_quantity (expr : Z -> res Z) (now : timestamptz)
    (ci : cart_item) : res cart_item :=
  res_map (fun q => mk_cart_item (ci_id ci) (ci_user_id ci) (ci_menu_item_id ci) q now)
          (expr (ci_quantity ci)).

Definition cart_key (user_id menu_item_id : uuid) (ci : cart_item) : bool :=
  Nat.eqb (ci_user_id ci) user_id && Nat.eqb (ci_menu_item_id ci) menu_item_id.

Definition cart_owned (cart_item_id user_id : uuid) (ci : cart_item) : bool :=
  Nat.eqb (ci_id ci) cart_item_id && Nat.eqb (ci_user_id ci) user_id.

(** [INSERT INTO cart_items (user_id, menu_item_id, quantity) VALUES (..)
    ON CONFLICT (user_id, menu_item_id) DO UPDATE SET quantity =
    cart_items.quantity + p_quantity, created_at = now() RETURNING id].
    The [VALUES] expression is evaluated first; [id] and [created_at] of a
    new row come from their column defaults. *)
Definition INSERT_INTO_cart_items_ON_CONFLICT (now : timestamptz)
    (user_id menu_item_id : uuid) (quantity : res Z) (p_quantity : Z) : exec uuid :=
  fun st =>
    match quantity with
    | Err e => Err e
    | Ok q =>
        match select_into (cart_key user_id menu_item_id) (cart_items st) with
        | Some ci =>
            match update_rows (cart_key user_id menu_item_id)
                    (set_quantity (fun old => int4pl old p_quantity) now)
                    (cart_items st) with
            | Ok t => Ok (ci_id ci, with_cart_items t st)
            | Err e => Err e
            end
        | None =>
            Ok (next_uuid st,
                mk_db (menu_items st)
                      (cart_items st
                         ++ [mk_cart_item (next_uuid st) user_id menu_item_id q now])
                      (orders st) (order_items st) (S (next_uuid st)))
        end
    end.

(** [FROM cart_items ci JOIN menu_items mi ON ci.menu_item_id = mi.id
    WHERE <where_ ci>]. *)
Definition cart_join_menu (where_ : cart_item -> bool) (st : db)
    : list (cart_item * menu_item) :=
  flat_map
    (fun ci =>
       map (pair ci)
           (filter (fun mi => Nat.eqb (mi_id mi) (ci_menu_item_id ci)) (menu_items st)))
    (filter where_ (cart_items st)).

Definition cart_of_user (user_id : uuid) (ci : cart_item) : bool :=
  Nat.eqb (ci_user_id ci) user_id.

Definition sumZ (l : list Z) : Z := fold_right Z.add 0 l.

(** [COALESCE(SUM(ci.quantity * mi.price), 0)] over the join. *)
Definition cart_total (user_id : uuid) (st : db) : numeric :=
  sumZ (map (fun row => ci_quantity (fst row) * mi_price (snd row))
            (cart_join_menu (cart_of_user user_id) st)).

(** [INSERT INTO orders (user_id, total_amount, status, payment_status)
    VALUES (..) RETURNING id]. *)
Definition INSERT_INTO_orders (user_id : uuid) (total_amount : numeric)
    (status payment_status : string) : exec uuid :=
  fun st =>
    Ok (next_uuid st,
        mk_db (menu_items st) (cart_items st)
              (orders st
                 ++ [mk_order (next_uuid st) user_id total_amount status payment_status])
              (order_items st) (S (next_uuid st))).

(** The [FOR v_cart_item IN <join> LOOP INSERT INTO order_items .. END LOOP]:
    one row per row of the join, which is read when the loop starts. *)
Definition INSERT_INTO_order_items (order_id : uuid)
    (rows : list (cart_item * menu_item)) : exec unit :=
  fun st =>
    Ok (tt,
        mk_db (menu_items st) (cart_items st) (orders st)
              (order_items st
                 ++ map (fun row =>
                           mk_order_item order_id (ci_menu_item_id (fst row))
                                         (ci_quantity (fst row)) (mi_price (snd row)))
                        rows)
              (next_uuid st)).

Definition failure (error : string) : json :=
  [("success", JBool false); ("error", JText error)].

(** ** Lines 1-346: "Fix Cart Operations" *)

Module FixOps.

Definition add_to_cart_with_quantity_check (now : timestamptz)
    (p_user_id p_menu_item_id : uuid) (p_quantity : Z) : exec json :=
  v_menu_item <- query (fun st =>
    select_into (fun mi => Nat.eqb (mi_id mi) p_menu_item_id) (menu_items st)) ;;
  match v_menu_item with
  | None => ret (failure "Menu item not found")
  | Some mi =>
      let v_available_quantity := mi_quantity_available mi in
      let v_menu_item_name := mi_name mi in
      v_cart_item <- query (fun st =>
        select_into (cart_key p_user_id p_menu_item_id) (cart_items st)) ;;
      let v_current_cart_quantity :=
        match v_cart_item with
        | Some ci => ci_quantity ci
        | None => 0
        end in
      if v_available_quantity <? p_quantity then
        ret (failure ("Not enough stock available. Only "
                        ++ text_of_int v_available_quantity ++ " items left."))
      else
        try
          (UPDATE_menu_items
             (set_quantity_available (fun old => int4mi old p_quantity) now)
             (fun mi => Nat.eqb (mi_id mi) p_menu_item_id) ;;
           INSERT_INTO_cart_items_ON_CONFLICT now p_user_id p_menu_item_id
             (int4pl v_current_cart_quantity p_quantity) p_quantity ;;
           new_quantity <- lift (int4pl v_current_cart_quantity p_quantity) ;;
           remaining_stock <- lift (int4mi v_available_quantity p_quantity) ;;
           ret [("success", JBool true);
                ("message", JText (v_menu_item_name ++ " added to cart successfully!"));
                ("new_quantity", JInt new_quantity);
                ("remaining_stock", JInt remaining_stock)])
          (fun SQLERRM => ret (failure ("Failed to add item to cart: " ++ SQLERRM)))
  end.

Definition update_cart_quantity_with_stock_check (now : timestamptz)
    (p_user_id p_cart_item_id : uuid) (p_new_quantity : Z) : exec json :=
  v_row <- query (fun st =>
    hd_error (cart_join_menu (cart_owned p_cart_item_id p_user_id) st)) ;;
  match v_row with
  | None => ret (failure "Cart item not found")
  | Some (ci, mi) =>
      let v_current_quantity := ci_quantity ci in
      let v_menu_item_id := ci_menu_item_id ci in
      let v_available_quantity := mi_quantity_available mi in
      let v_menu_item_name := mi_name mi in
      v_quantity_diff <- lift (int4mi p_new_quantity v_current_quantity) ;;
      if (0 <? v_quantity_diff) && (v_available_quantity <? v_quantity_diff) then
        ret (failure ("Not enough stock available. Only "
                        ++ text_of_int v_available_quantity ++ " items left."))
      else if p_new_quantity <=? 0 then
        try
          (DELETE_FROM_cart_items (cart_owned p_cart_item_id p_user_id) ;;
           UPDATE_menu_items
             (set_quantity_available (fun old => int4pl old v_current_quantity) now)
             (fun mi => Nat.eqb (mi_id mi) v_menu_item_id) ;;
           ret [("success", JBool true);
                ("message", JText (v_menu_item_name ++ " removed from cart"));
                ("action", JText "removed")])
          (fun SQLERRM => ret (failure ("Failed to remove item: " ++ SQLERRM)))
      else
        try
          (UPDATE_cart_items
             (set_quantity (fun _ => Ok p_new_quantity) now)
             (cart_owned p_cart_item_id p_user_id) ;;
           UPDATE_menu_items
             (set_quantity_available (fun old => int4mi old v_quantity_diff) now)
             (fun mi => Nat.eqb (mi_id mi) v_menu_item_id) ;;
           remaining_stock <- lift (int4mi v_available_quantity v_quantity_diff) ;;
           ret [("success", JBool true);
                ("message", JText (v_menu_item_name ++ " quantity updated successfully!"));
                ("new_quantity", JInt p_new_quantity);
                ("remaining_stock", JInt remaining_stock)])
          (fun SQLERRM => ret (failure ("Failed to update quantity: " ++ SQLERRM)))
  end.

Definition remove_from_cart_with_quantity_restore (now : timestamptz)
    (p_user_id p_cart_item_id : uuid) : exec json :=
  v_row <- query (fun st =>
    hd_error (cart_join_menu (cart_owned p_cart_item_id p_user_id) st)) ;;
  match v_row with
  | None => ret (failure "Cart item not found")
  | Some (ci, mi) =>
      let v_quantity := ci_quantity ci in
      let v_menu_item_id := ci_menu_item_id ci in
      let v_menu_item_name := mi_name mi in
      try
        (DELETE_FROM_cart_items (cart_owned p_cart_item_id p_user_id) ;;
         UPDATE_menu_items
           (set_quantity_available (fun old => int4pl old v_quantity) now)
           (fun mi => Nat.eqb (mi_id mi) v_menu_item_id) ;;
         ret [("success", JBool true);
              ("message", JText (v_menu_item_name ++ " removed from cart successfully!"));
              ("restored_quantity", JInt v_quantity)])
        (fun SQLERRM => ret (failure ("Failed to remove item: " ++ SQLERRM)))
  end.

Definition place_order_with_cart_clear (p_user_id : uuid) : exec json :=
  v_order_count <- query (fun st =>
    Z.of_nat (List.length (filter (cart_of_user p_user_id) (cart_items st)))) ;;
  if v_order_count =? 0 then ret (failure "Cart is empty")
  else
    v_total_amount <- query (cart_total p_user_id) ;;
    try
      (v_order_id <- INSERT_INTO_orders p_user_id v_total_amount "pending" "pending" ;;
       rows <- query (cart_join_menu (cart_of_user p_user_id)) ;;
       INSERT_INTO_order_items v_order_id rows ;;
       DELETE_FROM_cart_items (cart_of_user p_user_id) ;;
       ret [("success", JBool true);
            ("message", JText "Order placed successfully!");
            ("order_id", JUuid v_order_id);
            ("total_amount", JInt v_total_amount);
            ("item_count", JInt v_order_count)])
      (fun SQLERRM => ret (failure ("Failed to place order: " ++ SQLERRM))).

End FixOps.

(** ** Lines 347-681: "Cart Quantity Management Functions" *)

Module QtyMgmt.

(** [auth.uid() != p_user_id]; with no session [auth.uid()] is NULL, the
    comparison is NULL and the [IF] is not taken. *)
Definition unauthorized (auth_uid : option uuid) (p_user_id : uuid) : bool :=
  match auth_uid with
  | Some u => negb (Nat.eqb u p_user_id)
  | None => false
  end.

Definition database_error (SQLERRM : string) : exec json :=
  ret (failure ("Database error: " ++ SQLERRM)).

Definition add_to_cart_with_quantity_check (auth_uid : option uuid)
    (now : timestamptz) (p_user_id p_menu_item_id : uuid) (p_quantity : Z)
    : exec json :=
  try
    (if unauthorized auth_uid p_user_id then ret (failure "Unauthorized access")
     else
       v_available_quantity <- query (fun st =>
         option_map mi_quantity_available
           (select_into (fun mi => Nat.eqb (mi_id mi) p_menu_item_id) (menu_items st))) ;;
       match v_available_quantity with
       | None => ret (failure "Menu item not found")
       | Some v_available_quantity =>
           v_cart_quantity <- query (fun st =>
             option_map ci_quantity
               (select_into (cart_key p_user_id p_menu_item_id) (cart_items st))) ;;
           let v_current_cart_quantity :=
             match v_cart_quantity with
             | Some q => q
             | None => 0
             end in
           if v_available_quantity <? p_quantity then
             ret (failure ("Only " ++ text_of_int v_available_quantity
                             ++ " items available"))
           else
             UPDATE_menu_items
               (set_quantity_available (fun old => int4mi old p_quantity) now)
               (fun mi => Nat.eqb (mi_id mi) p_menu_item_id) ;;
             v_cart_item_id <-
               INSERT_INTO_cart_items_ON_CONFLICT now p_user_id p_menu_item_id
                 (int4pl v_current_cart_quantity p_quantity) p_quantity ;;
             new_quantity <- lift (int4pl v_current_cart_quantity p_quantity) ;;
             remaining_stock <- lift (int4mi v_available_quantity p_quantity) ;;
             ret [("success", JBool true);
                  ("message", JText "Item added to cart successfully");
                  ("cart_item_id", JUuid v_cart_item_id);
                  ("new_quantity", JInt new_quantity);
                  ("remaining_stock", JInt remaining_stock)]
       end)
    database_error.

Definition remove_from_cart_with_quantity_restore (auth_uid : option uuid)
    (now : timestamptz) (p_user_id p_cart_item_id : uuid) : exec json :=
  try
    (if unauthorized auth_uid p_user_id then ret (failure "Unauthorized access")
     else
       v_cart_item <- query (fun st =>
         select_into (cart_owned p_cart_item_id p_user_id) (cart_items st)) ;;
       match v_cart_item with
       | None => ret (failure "Cart item not found")
       | Some ci =>
           let v_menu_item_id := ci_menu_item_id ci in
           let v_quantity := ci_quantity ci in
           UPDATE_menu_items
             (set_quantity_available (fun old => int4pl old v_quantity) now)
             (fun mi => Nat.eqb (mi_id mi) v_menu_item_id) ;;
           DELETE_FROM_cart_items (cart_owned p_cart_item_id p_user_id) ;;
           ret [("success", JBool true);
                ("message", JText "Item removed from cart successfully");
                ("restored_quantity", JInt v_quantity)]
       end)
    database_error.

Definition update_cart_quantity_with_stock_check (auth_uid : option uuid)
    (now : timestamptz) (p_user_id p_cart_item_id : uuid) (p_new_quantity : Z)
    : exec json :=
  try
    (if unauthorized auth_uid p_user_id then ret (failure "Unauthorized access")
     else if p_new_quantity <=? 0 then
       remove_from_cart_with_quantity_restore auth_uid now p_user_id p_cart_item_id
     else
       v_cart_item <- query (fun st =>
         select_into (cart_owned p_cart_item_id p_user_id) (cart_items st)) ;;
       match v_cart_item with
       | None => ret (failure "Cart item not found")
       | Some ci =>
           let v_menu_item_id := ci_menu_item_id ci in
           let v_current_quantity := ci_quantity ci in
           v_available_quantity <- query (fun st =>
             option_map mi_quantity_available
               (select_into (fun mi => Nat.eqb (mi_id mi) v_menu_item_id)
                            (menu_items st))) ;;
           v_quantity_diff <- lift (int4mi p_new_quantity v_current_quantity) ;;
           if (0 <? v_quantity_diff)
              && match v_available_quantity with
                 | Some available => available <? v_quantity_diff
                 | None => false
                 end
           then
             ret (failure ("Only "
                             ++ match v_available_quantity with
                                | Some available => text_of_int available
                                | None => ""
                                end
                             ++ " additional items available"))
           else
             UPDATE_menu_items
               (set_quantity_available (fun old => int4mi old v_quantity_diff) now)
               (fun mi => Nat.eqb (mi_id mi) v_menu_item_id) ;;
             UPDATE_cart_items
               (set_quantity (fun _ => Ok p_new_quantity) now)
               (cart_owned p_cart_item_id p_user_id) ;;
             remaining_stock <-
               lift match v_available_quantity with
                    | Some available =>
                        res_map JInt (int4mi available v_quantity_diff)
                    | None => Ok JNull
                    end ;;
             ret [("success", JBool true);
                  ("message", JText "Cart quantity updated successfully");
                  ("old_quantity", JInt v_current_quantity);
                  ("new_quantity", JInt p_new_quantity);
                  ("remaining_stock", remaining_stock)]
       end)
    database_error.

Definition place_order_with_cart_clear (auth_uid : option uuid)
    (p_user_id : uuid) : exec json :=
  try
    (if unauthorized auth_uid p_user_id then ret (failure "Unauthorized access")
     else
       v_exists <- query (fun st => existsb (cart_of_user p_user_id) (cart_items st)) ;;
       if negb v_exists then ret (failure "Cart is empty")
       else
         v_total_amount <- query (cart_total p_user_id) ;;
         v_order_id <- INSERT_INTO_orders p_user_id v_total_amount "pending" "pending" ;;
         rows <- query (cart_join_menu (cart_of_user p_user_id)) ;;
         INSERT_INTO_order_items v_order_id rows ;;
         DELETE_FROM_cart_items (cart_of_user p_user_id) ;;
         ret [("success", JBool true);
              ("message", JText "Order placed successfully");
              ("order_id", JUuid v_order_id);
              ("total_amount", JInt v_total_amount)])
    (fun SQLERRM => ret (failure ("Failed to place order: " ++ SQLERRM))).

End QtyMgmt.

(** ** The four operations of the external interface *)

Inductive operation : Type :=
| addItem (user_id menu_item_id : uuid) (quantity : Z)
| setQuantity (user_id cart_item_id : uuid) (new_quantity : Z)
| removeItem (user_id cart_item_id : uuid)
| checkout (user_id : uuid).

Inductive revision : Type :=
| Fix
| Mgmt.

(** A call: the session's [auth.uid()], the transaction's [now()] and the
    operation with its arguments. *)
Record request : Type := mk_request {
  rq_auth_uid : option uuid;
  rq_now : timestamptz;
  rq_op : operation
}.

Definition procedure (rev : revision) (rq : request) : exec json :=
  match rev, rq_op rq with
  | Fix, addItem u i q =>
      FixOps.add_to_cart_with_quantity_check (rq_now rq) u i q
  | Fix, setQuantity u c q =>
      FixOps.update_cart_quantity_with_stock_check (rq_now rq) u c q
  | Fix, removeItem u c =>
      FixOps.remove_from_cart_with_quantity_restore (rq_now rq) u c
  | Fix, checkout u =>
      FixOps.place_order_with_cart_clear u
  | Mgmt, addItem u i q =>
      QtyMgmt.add_to_cart_with_quantity_check (rq_auth_uid rq) (rq_now rq) u i q
  | Mgmt, setQuantity u c q =>
      QtyMgmt.update_cart_quantity_with_stock_check (rq_auth_uid rq) (rq_now rq) u c q
  | Mgmt, removeItem u c =>
      QtyMgmt.remove_from_cart_with_quantity_restore (rq_auth_uid rq) (rq_now rq) u c
  | Mgmt, checkout u =>
      QtyMgmt.place_order_with_cart_clear (rq_auth_uid rq) u
  end.

Definition run (rev : revision) (rq : request) (st : db) : outcome * db :=
  call (procedure rev rq) st.

(** The state after a sequence of completed calls, oldest first. *)
Fixpoint run_all (rev : revision) (rqs : list request) (st : db) : db :=
  match rqs with
  | [] => st
  | rq :: rqs' => run_all rev rqs' (snd (run rev rq st))
  end.

(** The [success] flag of a response; a raised error is no success. *)
Definition succeeded (o : outcome) : bool :=
  match o with
  | Return j =>
      match json_get "success" j with
      | Some (JBool true) => true
      | _ => false
      end
  | Raise _ => false
  end.

(** The caller of a request is the authenticated user (or there is no
    session): the [auth.uid()] check of [QtyMgmt] lets the call through. *)
Definition caller (rq : request) : uuid :=
  match rq_op rq with
  | addItem u _ _ => u
  | setQuantity u _ _ => u
  | removeItem u _ => u
  | checkout u => u
  end.

Definition authenticated (rq : request) : bool :=
  negb (QtyMgmt.unauthorized (rq_auth_uid rq) (caller rq)).

(** The input constraint of the interface: [addItem] takes a quantity > 0;
    [setQuantity] takes any integer. *)
Definition valid_input (op : operation) : bool :=
  match op with
  | addItem _ _ q => 0 <? q
  | _ => true
  end.

(** ** The three buckets of the conservation law *)

(** [quantity_available] of an item, as a [SELECT] by [id] reads it. *)
Definition available (menu_item_id : uuid) (st : db) : option Z :=
  option_map mi_quantity_available
    (select_into (fun mi => Nat.eqb (mi_id mi) menu_item_id) (menu_items st)).

(** Reserved: the cart lines of the item, across all users. *)
Definition reserved_in (menu_item_id : uuid) (t : list cart_item) : Z :=
  sumZ (map ci_quantity
            (filter (fun ci => Nat.eqb (ci_menu_item_id ci) menu_item_id) t)).

Definition reserved (menu_item_id : uuid) (st : db) : Z :=
  reserved_in menu_item_id (cart_items st).

(** The current menu price of an item. *)
Definition menu_price (menu_item_id : uuid) (st : db) : numeric :=
  match select_into (fun mi => Nat.eqb (mi_id mi) menu_item_id) (menu_items st) with
  | Some mi => mi_price mi
  | None => 0
  end.

Definition order_status (order_id : uuid) (os : list order) : option string :=
  option_map o_status (find (fun o => Nat.eqb (o_id o) order_id) os).

Definition non_cancelled (os : list order) (oi : order_item) : bool :=
  match order_status (oi_order_id oi) os with
  | Some status => negb (String.eqb status "cancelled")
  | None => false
  end.

(** Sold: the order lines of the item in orders that are not cancelled. *)
Definition sold_in (menu_item_id : uuid) (os : list order) (ois : list order_item) : Z :=
  sumZ (map oi_quantity
            (filter (fun oi => Nat.eqb (oi_menu_item_id oi) menu_item_id
                               && non_cancelled os oi)
                    ois)).

Definition sold (menu_item_id : uuid) (st : db) : Z :=
  sold_in menu_item_id (orders st) (order_items st).

(** ** What a successful call does to the tables

    The same four table transformations, written without the 32-bit checks;
    both revisions are shown below to perform exactly these, or to leave the
    database alone. *)

Definition restock (menu_item_id : uuid) (delta : Z) (now : timestamptz)
    (mi : menu_item) : menu_item :=
  if Nat.eqb (mi_id mi) menu_item_id
  then mk_menu_item (mi_id mi) (mi_name mi) (mi_price mi)
                    (mi_quantity_available mi + delta) now
  else mi.

Definition requantify (where_ : cart_item -> bool) (expr : Z -> Z)
    (now : timestamptz) (ci : cart_item) : cart_item :=
  if where_ ci
  then mk_cart_item (ci_id ci) (ci_user_id ci) (ci_menu_item_id ci)
                    (expr (ci_quantity ci)) now
  else ci.

Definition added (now : timestamptz) (u i : uuid) (q : Z) (st : db) : db :=
  match select_into (cart_key u i) (cart_items st) with
  | Some _ =>
      mk_db (map (restock i (- q) now) (menu_items st))
            (map (requantify (cart_key u i) (fun old => old + q) now) (cart_items st))
            (orders st) (order_items st) (next_uuid st)
  | None =>
      mk_db (map (restock i (- q) now) (menu_items st))
            (cart_items st ++ [mk_cart_item (next_uuid st) u i q now])
            (orders st) (order_items st) (S (next_uuid st))
  end.

Definition quantity_set (now : timestamptz) (u c : uuid) (n : Z)
    (line : cart_item) (st : db) : db :=
  mk_db (map (restock (ci_menu_item_id line) (ci_quantity line - n) now) (menu_items st))
        (map (requantify (cart_owned c u) (fun _ => n) now) (cart_items st))
        (orders st) (order_items st) (next_uuid st).

Definition removed (now : timestamptz) (u c : uuid) (line : cart_item)
    (st : db) : db :=
  mk_db (map (restock (ci_menu_item_id line) (ci_quantity line) now) (menu_items st))
        (delete_rows (cart_owned c u) (cart_items st))
        (orders st) (order_items st) (next_uuid st).

Definition order_line (order_id : uuid) (row : cart_item * menu_item) : order_item :=
  mk_order_item order_id (ci_menu_item_id (fst row)) (ci_quantity (fst row))
                (mi_price (snd row)).

Definition checked_out (u : uuid) (st : db) : db :=
  mk_db (menu_items st)
        (delete_rows (cart_of_user u) (cart_items st))
        (orders st ++ [mk_order (next_uuid st) u (cart_total u st) "pending" "pending"])
        (order_items st
           ++ map (order_line (next_uuid st)) (cart_join_menu (cart_of_user u) st))
        (S (next_uuid st)).

(** [effect rq st st']: [st'] is what a successful [rq] makes of [st]. *)
Inductive effect (rq : request) (st : db) : db -> Prop :=
| effect_add u i q a :
    rq_op rq = addItem u i q ->
    available i st = Some a ->
    q <= a ->
    effect rq st (added (rq_now rq) u i q st)
| effect_set u c n line :
    rq_op rq = setQuantity u c n ->
    In line (cart_items st) ->
    cart_owned c u line = true ->
    0 < n ->
    (forall a, available (ci_menu_item_id line) st = Some a ->
               n - ci_quantity line <= 0 \/ n - ci_quantity line <= a) ->
    effect rq st (quantity_set (rq_now rq) u c n line st)
| effect_set_remove u c n line :
    rq_op rq = setQuantity u c n ->
    In line (cart_items st) ->
    cart_owned c u line = true ->
    n <= 0 ->
    effect rq st (removed (rq_now rq) u c line st)
| effect_remove u c line :
    rq_op rq = removeItem u c ->
    In line (cart_items st) ->
    cart_owned c u line = true ->
    effect rq st (removed (rq_now rq) u c line st)
| effect_checkout u :
    rq_op rq = checkout u ->
    existsb (cart_of_user u) (cart_items st) = true ->
    effect rq st (checked_out u st).

(** ** Consistent databases

    [db_keys]: the constraints of the schema the procedures rely on: primary
    keys, the unique pair behind [ON CONFLICT (user_id, menu_item_id)], the
    foreign key of a cart line, identifiers handed out by the generator. *)
Record db_keys (st : db) : Prop := mk_db_keys {
  keys_menu_pk : NoDup (map mi_id (menu_items st));
  keys_cart_pk : NoDup (map ci_id (cart_items st));
  keys_cart_unique :
    NoDup (map (fun ci => (ci_user_id ci, ci_menu_item_id ci)) (cart_items st));
  keys_cart_fresh : Forall (fun ci => (ci_id ci < next_uuid st)%nat) (cart_items st);
  keys_orders_fresh : Forall (fun o => (o_id o < next_uuid st)%nat) (orders st);
  keys_order_items_fresh :
    Forall (fun oi => (oi_order_id oi < next_uuid st)%nat) (order_items st);
  keys_cart_fk :
    Forall (fun ci => available (ci_menu_item_id ci) st <> None) (cart_items st)
}.

(** [db_ok]: the keys, the ranges of the data model (stock >= 0, cart
    quantity > 0) and the room the 32-bit counters need: what is on the shelf
    plus what is reserved fits in an [integer]. *)
Record db_ok (st : db) : Prop := mk_db_ok {
  ok_keys : db_keys st;
  ok_stock : forall i a, available i st = Some a -> 0 <= a;
  ok_cart_positive : Forall (fun ci => 0 < ci_quantity ci) (cart_items st);
  ok_capacity : forall i a, available i st = Some a -> a + reserved i st <= int4_max
}.

(** The same conditions as boolean checks, to evaluate on a given database. *)
Fixpoint nodupb {A : Type} (eqb : A -> A -> bool) (l : list A) : bool :=
  match l with
  | [] => true
  | x :: l' => negb (existsb (eqb x) l') && nodupb eqb l'
  end.

Definition pair_eqb (p q : uuid * uuid) : bool :=
  Nat.eqb (fst p) (fst q) && Nat.eqb (snd p) (snd q).

Definition db_keysb (st : db) : bool :=
  nodupb Nat.eqb (map mi_id (menu_items st))
  && nodupb Nat.eqb (map ci_id (cart_items st))
  && nodupb pair_eqb (map (fun ci => (ci_user_id ci, ci_menu_item_id ci)) (cart_items st))
  && forallb (fun ci => Nat.ltb (ci_id ci) (next_uuid st)) (cart_items st)
  && forallb (fun o => Nat.ltb (o_id o) (next_uuid st)) (orders st)
  && forallb (fun oi => Nat.ltb (oi_order_id oi) (next_uuid st)) (order_items st)
  && forallb (fun ci => match available (ci_menu_item_id ci) st with
                        | Some _ => true
                        | None => false
                        end) (cart_items st).

Definition db_okb (st : db) : bool :=
  db_keysb st
  && forallb (fun mi => 0 <=? mi_quantity_available mi) (menu_items st)
  && forallb (fun ci => 0 <? ci_quantity ci) (cart_items st)
  && forallb (fun mi => mi_quantity_available mi + reserved (mi_id mi) st <=? int4_max)
             (menu_items st).

(** The initial states of the conservation law: a stocked menu, no cart
    line, no order line. *)
Definition initial (st : db) : Prop :=
  cart_items st = []
  /\ order_items st = []
  /\ NoDup (map mi_id (menu_items st))
  /\ Forall (fun o => (o_id o < next_uuid st)%nat) (orders st).

(** ** The structured failures, as each revision words them *)

Definition item_not_found : json := failure "Menu item not found".
Definition cart_item_not_found : json := failure "Cart item not found".
Definition unauthorized_access : json := failure "Unauthorized access".
Definition empty_cart : json := failure "Cart is empty".

(** InsufficientStock of [addItem], carrying what is left. *)
Definition insufficient_stock (rev : revision) (left : Z) : json :=
  match rev with
  | Fix => failure ("Not enough stock available. Only " ++ text_of_int left
                      ++ " items left.")
  | Mgmt => failure ("Only " ++ text_of_int left ++ " items available")
  end.

(** InsufficientStock of [setQuantity], carrying how many more can be had. *)
Definition insufficient_increase (rev : revision) (left : Z) : json :=
  match rev with
  | Fix => failure ("Not enough stock available. Only " ++ text_of_int left
                      ++ " items left.")
  | Mgmt => failure ("Only " ++ text_of_int left ++ " additional items available")
  end.

(** The quantity of the user's cart line for an item, 0 when there is none. *)
Definition line_quantity (user_id menu_item_id : uuid) (st : db) : Z :=
  match select_into (cart_key user_id menu_item_id) (cart_items st) with
  | Some ci => ci_quantity ci
  | None => 0
  end.



(** ** The example scenario of the specification

    Item X starts with 5 in stock; user A reserves 3, user B is refused 3,
    A raises the line to 5, B is refused 1, A checks out. *)

Definition item_x : uuid := 100%nat.
Definition user_a : uuid := 1%nat.
Definition user_b : uuid := 2%nat.
Definition line_a : uuid := 1000%nat.

Definition as_user (u : uuid) (op : operation) : request :=
  mk_request (Some u) 7 op.

Definition stocked : db :=
  mk_db [mk_menu_item item_x "Dosa" 4000 5 0] [] [] [] line_a.

Definition scenario : list request :=
  [as_user user_a (addItem user_a item_x 3);
   as_user user_b (addItem user_b item_x 3);
   as_user user_a (setQuantity user_a line_a 5);
   as_user user_b (addItem user_b item_x 1);
   as_user user_a (checkout user_a)].


(** The database after the first call of the scenario. *)
Definition reserved_by_a : db :=
  mk_db [mk_menu_item item_x "Dosa" 4000 2 7]
        [mk_cart_item line_a user_a item_x 3 7] [] [] (S line_a).

(** ** Ordinary input, and the step the two revisions share *)

(** A quantity > 0 to add, a target between 0 and the largest [integer] to
    set: what the pages of the application send. *)
Definition ordinary_input (op : operation) : bool :=
  match op with
  | addItem _ _ q => 0 <? q
  | setQuantity _ _ n => (0 <=? n) && (n <=? int4_max)
  | _ => true
  end.

(** The outcome the two revisions share on ordinary input: the database
    after the call and whether the call succeeded. *)
Definition reference_step (rq : request) (st : db) : db * bool :=
  match rq_op rq with
  | addItem u i q =>
      match available i st with
      | Some a => if a <? q then (st, false) else (added (rq_now rq) u i q st, true)
      | None => (st, false)
      end
  | setQuantity u c n =>
      match select_into (cart_owned c u) (cart_items st) with
      | Some line =>
          if n <=? 0 then (removed (rq_now rq) u c line st, true)
          else
            match available (ci_menu_item_id line) st with
            | Some a =>
                if (0 <? n - ci_quantity line) && (a <? n - ci_quantity line)
                then (st, false)
                else (quantity_set (rq_now rq) u c n line st, true)
            | None => (st, false)
            end
      | None => (st, false)
      end
  | removeItem u c =>
      match select_into (cart_owned c u) (cart_items st) with
      | Some line => (removed (rq_now rq) u c line st, true)
      | None => (st, false)
      end
  | checkout u =>
      if existsb (cart_of_user u) (cart_items st)
      then (checked_out u st, true)
      else (st, false)
  end.

(** ** Views of the tables *)

(** The cart lines of the users other than [u]. *)
Definition of_others (u : uuid) (ci : cart_item) : bool := negb (cart_of_user u ci).

(** What the menu offers: id, name and price of every row. *)
Definition catalogue (st : db) : list (uuid * string * numeric) :=
  map (fun mi => (mi_id mi, mi_name mi, mi_price mi)) (menu_items st).

(** The sum of quantity times price over the lines of an order. *)
Definition order_lines_total (order_id : uuid) (ois : list order_item) : numeric :=
  sumZ (map (fun oi => oi_quantity oi * oi_price oi)
            (filter (fun oi => Nat.eqb (oi_order_id oi) order_id) ois)).

Definition orders_balanced (st : db) : Prop :=
  Forall (fun o => o_total_amount o = order_lines_total (o_id o) (order_items st))
         (orders st).

(** ** The first revision: [20250713120102_holy_portal.sql], lines 25-264

    The three cart procedures as first written: they lock the menu row,
    answer a refusal with structured fields ([available], [requested]),
    leave [created_at] and [updated_at] alone, and re-raise every error
    ([EXCEPTION WHEN OTHERS THEN RAISE]).  [place_order_with_cart_clear] of
    that file compares a [RECORD] variable with 0 and is not embedded. *)

Module HolyPortal.

(** A JSON value of this revision: a scalar, or [row_to_json] of a cart row. *)
Inductive hval : Type :=
| Scalar (v : jval)
| Row (ci : cart_item).

Definition hjson := list (string * hval).

Fixpoint hjson_get (k : string) (j : hjson) : option hval :=
  match j with
  | [] => None
  | (k', v) :: j' => if String.eqb k k' then Some v else hjson_get k j'
  end.

Inductive houtcome : Type :=
| HReturn (j : hjson)
| HRaise (sqlerrm : string).

Definition hcall (body : exec hjson) (st : db) : houtcome * db :=
  match body st with
  | Ok (j, st') => (HReturn j, st')
  | Err e => (HRaise e, st)
  end.

Definition hsucceeded (o : houtcome) : bool :=
  match o with
  | HReturn j =>
      match hjson_get "success" j with
      | Some (Scalar (JBool true)) => true
      | _ => false
      end
  | HRaise _ => false
  end.

(** [EXCEPTION WHEN OTHERS THEN RAISE]. *)
Definition RAISE {A : Type} (SQLERRM : string) : exec A := fun _ => Err SQLERRM.

(** [SET quantity_available = <expr>]. *)
Definition set_quantity_available (expr : Z -> res Z) (mi : menu_item) : res menu_item :=
  res_map (fun q => mk_menu_item (mi_id mi) (mi_name mi) (mi_price mi) q (mi_updated_at mi))
          (expr (mi_quantity_available mi)).

(** [SET quantity = <expr>]. *)
Definition set_quantity (expr : Z -> res Z) (ci : cart_item) : res cart_item :=
  res_map (fun q => mk_cart_item (ci_id ci) (ci_user_id ci) (ci_menu_item_id ci) q
                                 (ci_created_at ci))
          (expr (ci_quantity ci)).

Definition with_quantity (q : Z) (ci : cart_item) : cart_item :=
  mk_cart_item (ci_id ci) (ci_user_id ci) (ci_menu_item_id ci) q (ci_created_at ci).

(** [INSERT INTO cart_items (user_id, menu_item_id, quantity) VALUES (..)
    RETURNING *]. *)
Definition INSERT_INTO_cart_items (now : timestamptz) (user_id menu_item_id : uuid)
    (quantity : Z) : exec cart_item :=
  fun st =>
    Ok (mk_cart_item (next_uuid st) user_id menu_item_id quantity now,
        mk_db (menu_items st)
              (cart_items st
                 ++ [mk_cart_item (next_uuid st) user_id menu_item_id quantity now])
              (orders st) (order_items st) (S (next_uuid st))).

Definition has_id (cart_item_id : uuid) (ci : cart_item) : bool :=
  Nat.eqb (ci_id ci) cart_item_id.

Definition hfailure (error : string) : hjson :=
  [("success", Scalar (JBool false)); ("error", Scalar (JText error))].

Definition add_to_cart_with_quantity_check (now : timestamptz)
    (p_user_id p_menu_item_id : uuid) (p_quantity : Z) : exec hjson :=
  try
    (v_menu_item <- query (fun st =>
       select_into (fun mi => Nat.eqb (mi_id mi) p_menu_item_id) (menu_items st)) ;;
     match v_menu_item with
     | None => ret (hfailure "Menu item not found")
     | Some v_menu_item =>
         if mi_quantity_available v_menu_item <? p_quantity then
           ret [("success", Scalar (JBool false));
                ("error", Scalar (JText "Insufficient quantity available"));
                ("available", Scalar (JInt (mi_quantity_available v_menu_item)));
                ("requested", Scalar (JInt p_quantity))]
         else
           v_found <- query (fun st =>
             select_into (cart_key p_user_id p_menu_item_id) (cart_items st)) ;;
           v_cart_item <-
             match v_found with
             | Some ci =>
                 UPDATE_cart_items
                   (set_quantity (fun old => int4pl old p_quantity))
                   (has_id (ci_id ci)) ;;
                 quantity <- lift (int4pl (ci_quantity ci) p_quantity) ;;
                 ret (with_quantity quantity ci)
             | None => INSERT_INTO_cart_items now p_user_id p_menu_item_id p_quantity
             end ;;
           UPDATE_menu_items
             (set_quantity_available (fun old => int4mi old p_quantity))
             (fun mi => Nat.eqb (mi_id mi) p_menu_item_id) ;;
           new_menu_quantity <-
             lift (int4mi (mi_quantity_available v_menu_item) p_quantity) ;;
           ret [("success", Scalar (JBool true));
                ("cart_item", Row v_cart_item);
                ("new_menu_quantity", Scalar (JInt new_menu_quantity));
                ("message", Scalar (JText "Item added to cart successfully"))]
     end)
    RAISE.

Definition remove_from_cart_with_quantity_restore (now : timestamptz)
    (p_user_id p_cart_item_id : uuid) : exec hjson :=
  try
    (v_row <- query (fun st =>
       hd_error (cart_join_menu (cart_owned p_cart_item_id p_user_id) st)) ;;
     match v_row with
     | None => ret (hfailure "Cart item not found")
     | Some (v_cart_item, mi) =>
         let current_menu_quantity := mi_quantity_available mi in
         UPDATE_menu_items
           (set_quantity_available (fun old => int4pl old (ci_quantity v_cart_item)))
           (fun mi => Nat.eqb (mi_id mi) (ci_menu_item_id v_cart_item)) ;;
         DELETE_FROM_cart_items (cart_owned p_cart_item_id p_user_id) ;;
         new_menu_quantity <-
           lift (int4pl current_menu_quantity (ci_quantity v_cart_item)) ;;
         ret [("success", Scalar (JBool true));
              ("restored_quantity", Scalar (JInt (ci_quantity v_cart_item)));
              ("new_menu_quantity", Scalar (JInt new_menu_quantity));
              ("message", Scalar (JText "Item removed from cart successfully"))]
     end)
    RAISE.

(** [v_menu_item.quantity_available <op> x] when the [SELECT] may have found
    no row: NULL then. *)
Definition nullable (r : option (res Z)) : res jval :=
  match r with
  | Some r => res_map JInt r
  | None => Ok JNull
  end.

Definition update_cart_quantity_with_stock_check (now : timestamptz)
    (p_user_id p_cart_item_id : uuid) (p_new_quantity : Z) : exec hjson :=
  try
    (v_cart_item <- query (fun st =>
       select_into (cart_owned p_cart_item_id p_user_id) (cart_items st)) ;;
     match v_cart_item with
     | None => ret (hfailure "Cart item not found")
     | Some v_cart_item =>
         v_menu_item <- query (fun st =>
           select_into (fun mi => Nat.eqb (mi_id mi) (ci_menu_item_id v_cart_item))
                       (menu_items st)) ;;
         let available := option_map mi_quantity_available v_menu_item in
         v_quantity_diff <- lift (int4mi p_new_quantity (ci_quantity v_cart_item)) ;;
         if (0 <? v_quantity_diff)
            && match available with
               | Some a => a <? v_quantity_diff
               | None => false
               end
         then
           ret [("success", Scalar (JBool false));
                ("error", Scalar (JText "Insufficient quantity available"));
                ("available", Scalar match available with
                                     | Some a => JInt a
                                     | None => JNull
                                     end);
                ("requested_increase", Scalar (JInt v_quantity_diff))]
         else if p_new_quantity <=? 0 then
           UPDATE_menu_items
             (set_quantity_available (fun old => int4pl old (ci_quantity v_cart_item)))
             (fun mi => Nat.eqb (mi_id mi) (ci_menu_item_id v_cart_item)) ;;
           DELETE_FROM_cart_items (has_id p_cart_item_id) ;;
           new_menu_quantity <-
             lift (nullable (option_map (fun a => int4pl a (ci_quantity v_cart_item))
                                        available)) ;;
           ret [("success", Scalar (JBool true));
                ("action", Scalar (JText "removed"));
                ("restored_quantity", Scalar (JInt (ci_quantity v_cart_item)));
                ("new_menu_quantity", Scalar new_menu_quantity);
                ("message", Scalar (JText "Item removed from cart"))]
         else
           UPDATE_cart_items
             (set_quantity (fun _ => Ok p_new_quantity))
             (has_id p_cart_item_id) ;;
           UPDATE_menu_items
             (set_quantity_available (fun old => int4mi old v_quantity_diff))
             (fun mi => Nat.eqb (mi_id mi) (ci_menu_item_id v_cart_item)) ;;
           new_menu_quantity <-
             lift (nullable (option_map (fun a => int4mi a v_quantity_diff) available)) ;;
           ret [("success", Scalar (JBool true));
                ("action", Scalar (JText "updated"));
                ("old_quantity", Scalar (JInt (ci_quantity v_cart_item)));
                ("new_quantity", Scalar (JInt p_new_quantity));
                ("quantity_diff", Scalar (JInt v_quantity_diff));
                ("new_menu_quantity", Scalar new_menu_quantity);
                ("message", Scalar (JText "Cart quantity updated successfully"))]
     end)
    RAISE.

(** The procedure behind a request; none for [checkout]. *)
Definition procedure (rq : request) : option (exec hjson) :=
  match rq_op rq with
  | addItem u i q => Some (add_to_cart_with_quantity_check (rq_now rq) u i q)
  | setQuantity u c n => Some (update_cart_quantity_with_stock_check (rq_now rq) u c n)
  | removeItem u c => Some (remove_from_cart_with_quantity_restore (rq_now rq) u c)
  | checkout _ => None
  end.

Definition run (rq : request) (st : db) : option (houtcome * db) :=
  option_map (fun body => hcall body st) (procedure rq).

Fixpoint run_all (rqs : list request) (st : db) : option db :=
  match rqs with
  | [] => Some st
  | rq :: rqs' =>
      match run rq st with
      | Some (_, st') => run_all rqs' st'
      | None => None
      end
  end.

End HolyPortal.

(** The rows of a database with the timestamps blanked: what the first
    revision and the later ones are compared on. *)
Definition timeless_menu_item (mi : menu_item) : menu_item :=
  mk_menu_item (mi_id mi) (mi_name mi) (mi_price mi) (mi_quantity_available mi) 0.

Definition timeless_cart_item (ci : cart_item) : cart_item :=
  mk_cart_item (ci_id ci) (ci_user_id ci) (ci_menu_item_id ci) (ci_quantity ci) 0.

Definition timeless (st : db) : db :=
  mk_db (map timeless_menu_item (menu_items st)) (map timeless_cart_item (cart_items st))
        (orders st) (order_items st) (next_uuid st).

(** What a successful call of the first revision makes of the tables: the
    transformations of [added], [quantity_set] and [removed] with every
    timestamp left as it was, the cart row picked as the statement picks it. *)
Definition restock_kept (menu_item_id : uuid) (delta : Z) (mi : menu_item) : menu_item :=
  restock menu_item_id delta (mi_updated_at mi) mi.

Definition requantify_kept (where_ : cart_item -> bool) (expr : Z -> Z)
    (ci : cart_item) : cart_item :=
  requantify where_ expr (ci_created_at ci) ci.

Definition added_kept (now : timestamptz) (u i : uuid) (q : Z) (st : db) : db :=
  match select_into (cart_key u i) (cart_items st) with
  | Some ci =>
      mk_db (map (restock_kept i (- q)) (menu_items st))
            (map (requantify_kept (HolyPortal.has_id (ci_id ci)) (fun old => old + q))
                 (cart_items st))
            (orders st) (order_items st) (next_uuid st)
  | None =>
      mk_db (map (restock_kept i (- q)) (menu_items st))
            (cart_items st ++ [mk_cart_item (next_uuid st) u i q now])
            (orders st) (order_items st) (S (next_uuid st))
  end.

Definition quantity_set_kept (c : uuid) (n : Z) (line : cart_item) (st : db) : db :=
  mk_db (map (restock_kept (ci_menu_item_id line) (ci_quantity line - n)) (menu_items st))
        (map (requantify_kept (HolyPortal.has_id c) (fun _ => n)) (cart_items st))
        (orders st) (order_items st) (next_uuid st).

Definition removed_kept (where_ : cart_item -> bool) (line : cart_item) (st : db) : db :=
  mk_db (map (restock_kept (ci_menu_item_id line) (ci_quantity line)) (menu_items st))
        (delete_rows where_ (cart_items st))
        (orders st) (order_items st) (next_uuid st).

(** A cart row of the new table that was a row of the old one, with the
    [id] and the [created_at] it had. *)
Definition kept_row (old : list cart_item) (ci' : cart_item) : Prop :=
  exists ci, In ci old /\ ci_id ci = ci_id ci' /\ ci_created_at ci = ci_created_at ci'.

(** * Properties *)

(** ** Rows and statements *)

Lemma int4_Ok z v : int4 z = Ok v -> v = z /\ in_int4 z = true.
Proof.
  unfold int4. destruct (in_int4 z); intros H; inversion H; auto.
Qed.

Lemma int4_in_range z : int4_min <= z <= int4_max -> int4 z = Ok z.
Proof.
  intros H. unfold int4, in_int4.
  destruct (Z.leb_spec int4_min z), (Z.leb_spec z int4_max); simpl; auto; lia.
Qed.

Lemma update_rows_map {R : Type} (where_ : R -> bool) (set_ : R -> res R)
    (f : R -> R) (t t' : list R) :
  (forall r r', where_ r = true -> set_ r = Ok r' -> r' = f r) ->
  update_rows where_ set_ t = Ok t' ->
  t' = map (fun r => if where_ r then f r else r) t.
Proof.
  intros Hf. revert t'. induction t as [|r t IH]; simpl; intros t' H.
  - inversion H. reflexivity.
  - destruct (where_ r) eqn:Hw.
    + destruct (set_ r) as [r'|e] eqn:Hs; [|discriminate].
      destruct (update_rows where_ set_ t) as [t0|e]; simpl in H; [|discriminate].
      inversion H; subst. rewrite (Hf r r' Hw Hs), (IH t0 eq_refl). reflexivity.
    + destruct (update_rows where_ set_ t) as [t0|e]; simpl in H; [|discriminate].
      inversion H; subst. rewrite (IH t0 eq_refl). reflexivity.
Qed.

Lemma update_rows_total {R : Type} (where_ : R -> bool) (set_ : R -> res R)
    (f : R -> R) (t : list R) :
  (forall r, In r t -> where_ r = true -> set_ r = Ok (f r)) ->
  update_rows where_ set_ t = Ok (map (fun r => if where_ r then f r else r) t).
Proof.
  induction t as [|r t IH]; simpl; intros H; [reflexivity|].
  rewrite IH by (intros; apply H; auto).
  destruct (where_ r) eqn:Hw; [rewrite (H r) by auto|]; reflexivity.
Qed.

Lemma set_quantity_available_restock i g delta now mi mi' :
  (forall old, g old = old + delta) ->
  Nat.eqb (mi_id mi) i = true ->
  set_quantity_available (fun old => int4 (g old)) now mi = Ok mi' ->
  mi' = restock i delta now mi.
Proof.
  intros Hg Hi H. unfold set_quantity_available in H. unfold restock. rewrite Hi.
  destruct (int4 (g (mi_quantity_available mi))) as [v|e] eqn:Hv; simpl in H; [|discriminate].
  apply int4_Ok in Hv. destruct Hv as [-> _]. inversion H. rewrite Hg. reflexivity.
Qed.

Lemma UPDATE_menu_items_restock i g delta now st st' :
  (forall old, g old = old + delta) ->
  UPDATE_menu_items (set_quantity_available (fun old => int4 (g old)) now)
                    (fun mi => Nat.eqb (mi_id mi) i) st = Ok (tt, st') ->
  st' = with_menu_items (map (restock i delta now) (menu_items st)) st.
Proof.
  intros Hg H. unfold UPDATE_menu_items in H.
  destruct (update_rows _ _ (menu_items st)) as [t|e] eqn:Ht; [|discriminate].
  inversion H; subst. f_equal.
  apply (update_rows_map _ _ (restock i delta now)) in Ht.
  - rewrite Ht. apply map_ext. intros mi. unfold restock.
    destruct (Nat.eqb (mi_id mi) i); reflexivity.
  - intros r r' Hw Hs. apply (set_quantity_available_restock i g delta now r r' Hg Hw Hs).
Qed.

(** ** Every call either succeeds with its effect or changes nothing *)

Ltac unchanged :=
  let H := fresh in intros H; inversion H; subst; left; split; reflexivity.

Lemma INSERT_added now u i q p st id st' :
  INSERT_INTO_cart_items_ON_CONFLICT now u i (Ok q) p st = Ok (id, st') ->
  match select_into (cart_key u i) (cart_items st) with
  | Some _ => st' = with_cart_items (map (requantify (cart_key u i) (fun old => old + p) now) (cart_items st)) st
  | None => st' = mk_db (menu_items st) (cart_items st ++ [mk_cart_item (next_uuid st) u i q now])
                        (orders st) (order_items st) (S (next_uuid st))
  end.
Proof.
  unfold INSERT_INTO_cart_items_ON_CONFLICT.
  destruct (select_into (cart_key u i) (cart_items st)) as [ci|] eqn:Hf.
  - destruct (update_rows _ _ (cart_items st)) as [t|e] eqn:Ht; [|discriminate].
    intros H; inversion H; subst. f_equal.
    apply (update_rows_map _ _ (requantify (cart_key u i) (fun old => old + p) now)) in Ht.
    + rewrite Ht. apply map_ext. intros r. unfold requantify. destruct (cart_key u i r); reflexivity.
    + intros r r' Hw Hs. unfold set_quantity, int4pl in Hs. unfold requantify. rewrite Hw.
      destruct (int4 _) as [v|e] eqn:Hv; simpl in Hs; [|discriminate].
      apply int4_Ok in Hv. destruct Hv as [-> _]. inversion Hs. reflexivity.
  - intros H; inversion H; subst. reflexivity.
Qed.

Lemma add_statements now u i q st st1 st2 v id :
  UPDATE_menu_items (set_quantity_available (fun old => int4mi old q) now)
                    (fun mi => Nat.eqb (mi_id mi) i) st = Ok (tt, st1) ->
  int4pl match select_into (cart_key u i) (cart_items st) with
         | Some ci => ci_quantity ci
         | None => 0
         end q = Ok v ->
  INSERT_INTO_cart_items_ON_CONFLICT now u i (Ok v) q st1 = Ok (id, st2) ->
  st2 = added now u i q st.
Proof.
  intros H1 Hv H2.
  apply (UPDATE_menu_items_restock i (fun old => old - q) (- q)) in H1; [|intros; lia].
  apply INSERT_added in H2. subst st1. simpl in H2. unfold added.
  destruct (select_into (cart_key u i) (cart_items st)) as [ci|]; subst st2.
  - reflexivity.
  - apply int4_Ok in Hv. destruct Hv as [-> _]. reflexivity.
Qed.

Lemma FixOps_add_cases now u i q st j st' :
  FixOps.add_to_cart_with_quantity_check now u i q st = Ok (j, st') ->
  (succeeded (Return j) = false /\ st' = st) \/
  (succeeded (Return j) = true /\
   exists a, available i st = Some a /\ q <= a /\ st' = added now u i q st).
Proof.
  unfold FixOps.add_to_cart_with_quantity_check, bind, query, try, ret, lift.
  unfold available.
  destruct (select_into (fun mi => Nat.eqb (mi_id mi) i) (menu_items st)) as [mi|] eqn:Hm;
    [|unchanged].
  destruct (Z.ltb_spec (mi_quantity_available mi) q); [unchanged|].
  destruct (UPDATE_menu_items _ _ st) as [[[] st1]|e] eqn:H1; [|unchanged].
  destruct (int4pl _ q) as [v|e] eqn:Hv; [|unchanged].
  destruct (INSERT_INTO_cart_items_ON_CONFLICT _ _ _ _ _ st1) as [[id st2]|e] eqn:H2;
    [|unchanged].
  destruct (int4mi _ q) as [r|e] eqn:Hr; [|unchanged].
  intros H'; inversion H'; subst. right. split; [reflexivity|].
  exists (mi_quantity_available mi). split; [reflexivity|]. split; [assumption|].
  eapply add_statements; eassumption.
Qed.

Lemma hd_error_filter {A} (p : A -> bool) l : hd_error (filter p l) = find p l.
Proof.
  induction l as [|x l IH]; simpl; [reflexivity|]. destruct (p x); simpl; auto.
Qed.

Lemma join_hd w st ci mi :
  hd_error (cart_join_menu w st) = Some (ci, mi) ->
  In ci (cart_items st) /\ w ci = true /\
  select_into (fun m => Nat.eqb (mi_id m) (ci_menu_item_id ci)) (menu_items st) = Some mi.
Proof.
  unfold cart_join_menu, select_into.
  induction (cart_items st) as [|c l IH]; simpl; [discriminate|].
  destruct (w c) eqn:Hw; simpl.
  - destruct (filter (fun m => Nat.eqb (mi_id m) (ci_menu_item_id c)) (menu_items st))
      as [|m ms] eqn:Hf; simpl; intros H.
    + destruct (IH H) as (? & ? & ?). auto.
    + inversion H; subst. rewrite <- hd_error_filter, Hf. auto.
  - intros H. destruct (IH H) as (? & ? & ?). auto.
Qed.

Lemma DELETE_then_restock now u c line st st1 st2 g :
  (forall old, g old = old + ci_quantity line) ->
  DELETE_FROM_cart_items (cart_owned c u) st = Ok (tt, st1) ->
  UPDATE_menu_items (set_quantity_available (fun old => int4 (g old)) now)
     (fun mi => Nat.eqb (mi_id mi) (ci_menu_item_id line)) st1 = Ok (tt, st2) ->
  st2 = removed now u c line st.
Proof.
  intros Hg H1 H2. unfold DELETE_FROM_cart_items in H1. inversion H1; subst st1.
  apply (UPDATE_menu_items_restock _ g (ci_quantity line)) in H2; [|assumption].
  subst st2. reflexivity.
Qed.

Lemma restock_then_DELETE now u c line st st1 st2 g :
  (forall old, g old = old + ci_quantity line) ->
  UPDATE_menu_items (set_quantity_available (fun old => int4 (g old)) now)
     (fun mi => Nat.eqb (mi_id mi) (ci_menu_item_id line)) st = Ok (tt, st1) ->
  DELETE_FROM_cart_items (cart_owned c u) st1 = Ok (tt, st2) ->
  st2 = removed now u c line st.
Proof.
  intros Hg H1 H2.
  apply (UPDATE_menu_items_restock _ g (ci_quantity line)) in H1; [|assumption].
  unfold DELETE_FROM_cart_items in H2. inversion H2; subst. reflexivity.
Qed.

Lemma UPDATE_cart_items_requantify now u c n st st' :
  UPDATE_cart_items (set_quantity (fun _ => Ok n) now) (cart_owned c u) st = Ok (tt, st') ->
  st' = with_cart_items (map (requantify (cart_owned c u) (fun _ => n) now) (cart_items st)) st.
Proof.
  unfold UPDATE_cart_items.
  destruct (update_rows _ _ (cart_items st)) as [t|e] eqn:Ht; [|discriminate].
  intros H; inversion H; subst. f_equal.
  apply (update_rows_map _ _ (requantify (cart_owned c u) (fun _ => n) now)) in Ht.
  - rewrite Ht. apply map_ext. intros r. unfold requantify.
    destruct (cart_owned c u r); reflexivity.
  - intros r r' Hw Hs. unfold set_quantity in Hs. simpl in Hs. unfold requantify.
    rewrite Hw. inversion Hs. reflexivity.
Qed.

Ltac done_unchanged :=
  let H := fresh in intros H; inversion H; subst; simpl; reflexivity.

Lemma FixOps_remove_effect rq u c st j st' :
  rq_op rq = removeItem u c ->
  FixOps.remove_from_cart_with_quantity_restore (rq_now rq) u c st = Ok (j, st') ->
  if succeeded (Return j) then effect rq st st' else st' = st.
Proof.
  intros Hop.
  unfold FixOps.remove_from_cart_with_quantity_restore, bind, query, try, ret, lift.
  destruct (hd_error (cart_join_menu (cart_owned c u) st)) as [[ci mi]|] eqn:Hj;
    [|done_unchanged].
  apply join_hd in Hj. destruct Hj as (Hin & Hw & Hm).
  destruct (DELETE_FROM_cart_items _ st) as [[[] st1]|e] eqn:H1; [|done_unchanged].
  destruct (UPDATE_menu_items _ _ st1) as [[[] st2]|e] eqn:H2; [|done_unchanged].
  intros H; inversion H; subst. simpl.
  rewrite (DELETE_then_restock _ _ _ _ _ _ _ (fun old => old + ci_quantity ci)
             (fun _ => eq_refl) H1 H2).
  eapply effect_remove; eauto.
Qed.

Lemma FixOps_update_effect rq u c n st j st' :
  rq_op rq = setQuantity u c n ->
  FixOps.update_cart_quantity_with_stock_check (rq_now rq) u c n st = Ok (j, st') ->
  if succeeded (Return j) then effect rq st st' else st' = st.
Proof.
  intros Hop.
  unfold FixOps.update_cart_quantity_with_stock_check, bind, query, try, ret, lift.
  destruct (hd_error (cart_join_menu (cart_owned c u) st)) as [[ci mi]|] eqn:Hj;
    [|done_unchanged].
  apply join_hd in Hj. destruct Hj as (Hin & Hw & Hm).
  destruct (int4mi n (ci_quantity ci)) as [d|e] eqn:Hd; [|discriminate].
  apply int4_Ok in Hd. destruct Hd as [-> _].
  destruct ((0 <? n - ci_quantity ci) && (mi_quantity_available mi <? n - ci_quantity ci))
    eqn:Hchk; [done_unchanged|].
  destruct (Z.leb_spec n 0) as [Hn|Hn].
  - destruct (DELETE_FROM_cart_items _ st) as [[[] st1]|e] eqn:H1; [|done_unchanged].
    destruct (UPDATE_menu_items _ _ st1) as [[[] st2]|e] eqn:H2; [|done_unchanged].
    intros H; inversion H; subst. simpl.
    rewrite (DELETE_then_restock _ _ _ _ _ _ _ (fun old => old + ci_quantity ci)
               (fun _ => eq_refl) H1 H2).
    eapply effect_set_remove; eauto.
  - destruct (UPDATE_cart_items _ _ st) as [[[] st1]|e] eqn:H1; [|done_unchanged].
    destruct (UPDATE_menu_items _ _ st1) as [[[] st2]|e] eqn:H2; [|done_unchanged].
    destruct (int4mi (mi_quantity_available mi) _) as [r|e] eqn:Hr; [|done_unchanged].
    intros H; inversion H; subst. simpl.
    apply UPDATE_cart_items_requantify in H1. subst st1.
    apply (UPDATE_menu_items_restock _ (fun old => old - (n - ci_quantity ci))
             (ci_quantity ci - n)) in H2; [|intros; lia].
    subst. simpl.
    change (effect rq st (quantity_set (rq_now rq) u c n ci st)).
    eapply effect_set; eauto.
    intros a Ha. unfold available in Ha. rewrite Hm in Ha. inversion Ha; subst.
    apply andb_false_iff in Hchk. destruct Hchk as [H0|H0].
    + left. apply Z.ltb_ge in H0. lia.
    + right. apply Z.ltb_ge in H0. lia.
Qed.

Lemma FixOps_checkout_effect rq u st j st' :
  rq_op rq = checkout u ->
  FixOps.place_order_with_cart_clear u st = Ok (j, st') ->
  if succeeded (Return j) then effect rq st st' else st' = st.
Proof.
  intros Hop.
  unfold FixOps.place_order_with_cart_clear, bind, query, try, ret, lift.
  destruct (Z.eqb_spec (Z.of_nat (List.length (filter (cart_of_user u) (cart_items st)))) 0)
    as [Hz|Hz]; [done_unchanged|].
  unfold INSERT_INTO_orders, INSERT_INTO_order_items, DELETE_FROM_cart_items. simpl.
  intros H; inversion H; subst. simpl.
  change (effect rq st (checked_out u st)).
  apply effect_checkout; [assumption|].
  destruct (filter (cart_of_user u) (cart_items st)) as [|x l] eqn:Hf; [simpl in Hz; lia|].
  apply existsb_exists. exists x.
  assert (Hx : In x (filter (cart_of_user u) (cart_items st))) by (rewrite Hf; left; auto).
  apply filter_In in Hx. assumption.
Qed.

Lemma FixOps_add_effect rq u i q st j st' :
  rq_op rq = addItem u i q ->
  FixOps.add_to_cart_with_quantity_check (rq_now rq) u i q st = Ok (j, st') ->
  if succeeded (Return j) then effect rq st st' else st' = st.
Proof.
  intros Hop H. apply FixOps_add_cases in H.
  destruct H as [[-> ->]|[-> (a & Ha & Hq & ->)]]; [reflexivity|].
  eapply effect_add; eauto.
Qed.

Lemma QtyMgmt_add_effect rq u i q st j st' :
  rq_op rq = addItem u i q ->
  QtyMgmt.add_to_cart_with_quantity_check (rq_auth_uid rq) (rq_now rq) u i q st
    = Ok (j, st') ->
  if succeeded (Return j) then effect rq st st' else st' = st.
Proof.
  intros Hop.
  unfold QtyMgmt.add_to_cart_with_quantity_check, QtyMgmt.database_error,
    bind, query, try, ret, lift.
  destruct (QtyMgmt.unauthorized _ u); [done_unchanged|].
  destruct (select_into (fun mi => Nat.eqb (mi_id mi) i) (menu_items st)) as [mi|] eqn:Hm;
    simpl; [|done_unchanged].
  destruct (Z.ltb_spec (mi_quantity_available mi) q); [done_unchanged|].
  destruct (UPDATE_menu_items _ _ st) as [[[] st1]|e] eqn:H1; [|done_unchanged].
  destruct (select_into (cart_key u i) (cart_items st)) as [ci|] eqn:Hc; simpl.
  - destruct (int4pl (ci_quantity ci) q) as [v|e] eqn:Hv; [|done_unchanged].
    destruct (INSERT_INTO_cart_items_ON_CONFLICT _ _ _ _ _ st1) as [[id st2]|e] eqn:H2;
      [|done_unchanged].
    destruct (int4mi _ q) as [r|e] eqn:Hr; [|done_unchanged].
    intros H'; inversion H'; subst. simpl.
    assert (st' = added (rq_now rq) u i q st) as ->
      by (eapply add_statements; try eassumption; rewrite Hc; exact Hv).
    eapply effect_add; eauto. unfold available. rewrite Hm. reflexivity.
  - destruct (int4pl 0 q) as [v|e] eqn:Hv; [|done_unchanged].
    destruct (INSERT_INTO_cart_items_ON_CONFLICT _ _ _ _ _ st1) as [[id st2]|e] eqn:H2;
      [|done_unchanged].
    destruct (int4mi _ q) as [r|e] eqn:Hr; [|done_unchanged].
    intros H'; inversion H'; subst. simpl.
    assert (st' = added (rq_now rq) u i q st) as ->
      by (eapply add_statements; try eassumption; rewrite Hc; exact Hv).
    eapply effect_add; eauto. unfold available. rewrite Hm. reflexivity.
Qed.

Lemma QtyMgmt_remove_cases auth now u c st j st' :
  QtyMgmt.remove_from_cart_with_quantity_restore auth now u c st = Ok (j, st') ->
  if succeeded (Return j)
  then exists line, In line (cart_items st) /\ cart_owned c u line = true /\
                    st' = removed now u c line st
  else st' = st.
Proof.
  unfold QtyMgmt.remove_from_cart_with_quantity_restore, QtyMgmt.database_error,
    bind, query, try, ret, lift.
  destruct (QtyMgmt.unauthorized _ u); [done_unchanged|].
  destruct (select_into (cart_owned c u) (cart_items st)) as [ci|] eqn:Hc;
    [|done_unchanged].
  apply find_some in Hc. destruct Hc as [Hin Hw].
  destruct (UPDATE_menu_items _ _ st) as [[[] st1]|e] eqn:H1; [|done_unchanged].
  destruct (DELETE_FROM_cart_items _ st1) as [[[] st2]|e] eqn:H2; [|done_unchanged].
  intros H; inversion H; subst. simpl. exists ci. split; [assumption|]. split; [assumption|].
  apply (restock_then_DELETE _ _ _ _ _ _ _ (fun old => old + ci_quantity ci)
           (fun _ => eq_refl) H1 H2).
Qed.

Lemma QtyMgmt_remove_effect rq u c st j st' :
  rq_op rq = removeItem u c ->
  QtyMgmt.remove_from_cart_with_quantity_restore (rq_auth_uid rq) (rq_now rq) u c st
    = Ok (j, st') ->
  if succeeded (Return j) then effect rq st st' else st' = st.
Proof.
  intros Hop H. apply QtyMgmt_remove_cases in H.
  destruct (succeeded (Return j)); [|assumption].
  destruct H as (line & Hin & Hw & ->). eapply effect_remove; eauto.
Qed.

Lemma QtyMgmt_update_effect rq u c n st j st' :
  rq_op rq = setQuantity u c n ->
  QtyMgmt.update_cart_quantity_with_stock_check (rq_auth_uid rq) (rq_now rq) u c n st
    = Ok (j, st') ->
  if succeeded (Return j) then effect rq st st' else st' = st.
Proof.
  intros Hop.
  unfold QtyMgmt.update_cart_quantity_with_stock_check, QtyMgmt.database_error,
    bind, query, try, ret, lift.
  destruct (QtyMgmt.unauthorized _ u) eqn:Hauth; [done_unchanged|].
  destruct (Z.leb_spec n 0) as [Hn|Hn].
  - destruct (QtyMgmt.remove_from_cart_with_quantity_restore _ _ u c st)
      as [[j0 st0]|e] eqn:Hr; [|done_unchanged].
    intros H; inversion H; subst.
    apply QtyMgmt_remove_cases in Hr.
    destruct (succeeded (Return j)); [|assumption].
    destruct Hr as (line & Hin & Hw & ->). eapply effect_set_remove; eauto.
  - destruct (select_into (cart_owned c u) (cart_items st)) as [ci|] eqn:Hc;
      [|done_unchanged].
    apply find_some in Hc. destruct Hc as [Hin Hw].
    destruct (int4mi n (ci_quantity ci)) as [d|e] eqn:Hd; [|done_unchanged].
    apply int4_Ok in Hd. destruct Hd as [-> _].
    destruct (option_map mi_quantity_available
                (select_into (fun mi => Nat.eqb (mi_id mi) (ci_menu_item_id ci))
                             (menu_items st))) as [a|] eqn:Ha.
    + destruct ((0 <? n - ci_quantity ci) && (a <? n - ci_quantity ci)) eqn:Hchk;
        [done_unchanged|].
      destruct (UPDATE_menu_items _ _ st) as [[[] st1]|e] eqn:H1; [|done_unchanged].
      destruct (UPDATE_cart_items _ _ st1) as [[[] st2]|e] eqn:H2; [|done_unchanged].
      destruct (int4mi a (n - ci_quantity ci)) as [r|e] eqn:Hr; [|done_unchanged].
      intros H; inversion H; subst. simpl.
      apply (UPDATE_menu_items_restock _ (fun old => old - (n - ci_quantity ci))
               (ci_quantity ci - n)) in H1; [|intros; lia].
      subst st1. apply UPDATE_cart_items_requantify in H2. subst. simpl.
      change (effect rq st (quantity_set (rq_now rq) u c n ci st)).
      eapply effect_set; eauto.
      intros a' Ha'. unfold available in Ha'. rewrite Ha in Ha'. inversion Ha'; subst.
      apply andb_false_iff in Hchk. destruct Hchk as [H0|H0].
      * left. apply Z.ltb_ge in H0. lia.
      * right. apply Z.ltb_ge in H0. lia.
    + rewrite andb_false_r.
      destruct (UPDATE_menu_items _ _ st) as [[[] st1]|e] eqn:H1; [|done_unchanged].
      destruct (UPDATE_cart_items _ _ st1) as [[[] st2]|e] eqn:H2; [|done_unchanged].
      intros H; inversion H; subst. simpl.
      apply (UPDATE_menu_items_restock _ (fun old => old - (n - ci_quantity ci))
               (ci_quantity ci - n)) in H1; [|intros; lia].
      subst st1. apply UPDATE_cart_items_requantify in H2. subst. simpl.
      change (effect rq st (quantity_set (rq_now rq) u c n ci st)).
      eapply effect_set; eauto.
      intros a' Ha'. unfold available in Ha'. rewrite Ha in Ha'. discriminate.
Qed.

Lemma existsb_cart_of_user u st :
  existsb (cart_of_user u) (cart_items st) = true <->
  filter (cart_of_user u) (cart_items st) <> [].
Proof.
  induction (cart_items st) as [|x l IH]; simpl.
  - split; [discriminate|congruence].
  - destruct (cart_of_user u x); simpl; [split; [discriminate|reflexivity]|exact IH].
Qed.

Lemma QtyMgmt_checkout_effect rq u st j st' :
  rq_op rq = checkout u ->
  QtyMgmt.place_order_with_cart_clear (rq_auth_uid rq) u st = Ok (j, st') ->
  if succeeded (Return j) then effect rq st st' else st' = st.
Proof.
  intros Hop.
  unfold QtyMgmt.place_order_with_cart_clear, bind, query, try, ret, lift.
  destruct (QtyMgmt.unauthorized _ u); [done_unchanged|].
  destruct (existsb (cart_of_user u) (cart_items st)) eqn:Hex; simpl; [|done_unchanged].
  intros H; inversion H; subst. simpl.
  change (effect rq st (checked_out u st)).
  apply effect_checkout; assumption.
Qed.

Lemma run_effect rev rq st :
  if succeeded (fst (run rev rq st))
  then effect rq st (snd (run rev rq st))
  else snd (run rev rq st) = st.
Proof.
  unfold run, call, procedure.
  destruct rev, (rq_op rq) eqn:Hop;
    match goal with
    | |- context [match ?p st with Ok _ => _ | Err _ => _ end] =>
        destruct (p st) as [[j st']|e] eqn:Hp
    end; simpl; try reflexivity.
  - apply (FixOps_add_effect _ _ _ _ _ _ _ Hop Hp).
  - apply (FixOps_update_effect _ _ _ _ _ _ _ Hop Hp).
  - apply (FixOps_remove_effect _ _ _ _ _ _ Hop Hp).
  - apply (FixOps_checkout_effect _ _ _ _ _ Hop Hp).
  - apply (QtyMgmt_add_effect _ _ _ _ _ _ _ Hop Hp).
  - apply (QtyMgmt_update_effect _ _ _ _ _ _ _ Hop Hp).
  - apply (QtyMgmt_remove_effect _ _ _ _ _ _ Hop Hp).
  - apply (QtyMgmt_checkout_effect _ _ _ _ _ Hop Hp).
Qed.

(** ** Tables with a key *)

Section KeyedRows.
Context {R K : Type} (key : R -> K) (where_ : R -> bool).

Lemma map_no_match (f : R -> R) (l : list R) :
  (forall x, In x l -> where_ x = false) ->
  map (fun r => if where_ r then f r else r) l = l.
Proof.
  induction l as [|x l IH]; simpl; intros H; [reflexivity|].
  rewrite (H x) by auto. rewrite IH by auto. reflexivity.
Qed.

Lemma delete_no_match (l : list R) :
  (forall x, In x l -> where_ x = false) -> delete_rows where_ l = l.
Proof.
  unfold delete_rows.
  induction l as [|x l IH]; simpl; intros H; [reflexivity|].
  rewrite (H x) by auto. simpl. rewrite IH by auto. reflexivity.
Qed.

Lemma find_no_match (l : list R) :
  (forall x, In x l -> where_ x = false) -> find where_ l = None.
Proof.
  induction l as [|x l IH]; simpl; intros H; [reflexivity|].
  rewrite (H x) by auto. auto.
Qed.

(** Under a key constraint the rows a [WHERE key = k] selects are one row. *)
Lemma unique_row (l : list R) (c : R) :
  NoDup (map key l) -> In c l ->
  (forall x, In x l -> where_ x = true -> key x = key c) ->
  exists l1 l2, l = l1 ++ c :: l2
                /\ (forall x, In x l1 -> where_ x = false)
                /\ (forall x, In x l2 -> where_ x = false).
Proof.
  intros Hnd Hin Hkey. destruct (in_split c l Hin) as (l1 & l2 & ->).
  exists l1, l2. split; [reflexivity|].
  rewrite map_app in Hnd. simpl in Hnd. apply NoDup_remove_2 in Hnd.
  split; intros x Hx; destruct (where_ x) eqn:Hw; auto; exfalso; apply Hnd;
    rewrite <- (Hkey x) by (auto using in_or_app, in_cons, in_eq);
    apply in_or_app; [left|right]; apply in_map; assumption.
Qed.

Lemma map_at_row (f : R -> R) (l1 l2 : list R) (c : R) :
  where_ c = true ->
  (forall x, In x l1 -> where_ x = false) ->
  (forall x, In x l2 -> where_ x = false) ->
  map (fun r => if where_ r then f r else r) (l1 ++ c :: l2) = l1 ++ f c :: l2.
Proof.
  intros Hc H1 H2. rewrite map_app. simpl. rewrite Hc.
  rewrite !map_no_match by assumption. reflexivity.
Qed.

Lemma delete_at_row (l1 l2 : list R) (c : R) :
  where_ c = true ->
  (forall x, In x l1 -> where_ x = false) ->
  (forall x, In x l2 -> where_ x = false) ->
  delete_rows where_ (l1 ++ c :: l2) = l1 ++ l2.
Proof.
  intros Hc H1 H2. unfold delete_rows. rewrite filter_app. simpl. rewrite Hc. simpl.
  fold (delete_rows where_ l1). fold (delete_rows where_ l2).
  rewrite !delete_no_match by assumption. reflexivity.
Qed.

Lemma find_at_row (l1 l2 : list R) (c : R) :
  where_ c = true ->
  (forall x, In x l1 -> where_ x = false) ->
  find where_ (l1 ++ c :: l2) = Some c.
Proof.
  intros Hc H1. induction l1 as [|x l1 IH]; simpl.
  - rewrite Hc. reflexivity.
  - rewrite (H1 x) by (left; reflexivity). apply IH. intros; apply H1; right; assumption.
Qed.
End KeyedRows.

(** ** Sums over the cart *)

Lemma sumZ_app l1 l2 : sumZ (l1 ++ l2) = sumZ l1 + sumZ l2.
Proof.
  unfold sumZ. induction l1 as [|x l1 IH]; simpl; [reflexivity|]. rewrite IH. lia.
Qed.

Lemma reserved_in_app i l1 l2 :
  reserved_in i (l1 ++ l2) = reserved_in i l1 + reserved_in i l2.
Proof.
  unfold reserved_in. rewrite filter_app, map_app, sumZ_app. reflexivity.
Qed.

Lemma reserved_in_cons i c l :
  reserved_in i (c :: l)
  = (if Nat.eqb (ci_menu_item_id c) i then ci_quantity c else 0) + reserved_in i l.
Proof.
  unfold reserved_in. simpl. destruct (Nat.eqb (ci_menu_item_id c) i); reflexivity.
Qed.

Lemma reserved_in_split (p : cart_item -> bool) i l :
  reserved_in i l = reserved_in i (filter p l) + reserved_in i (delete_rows p l).
Proof.
  unfold delete_rows. induction l as [|c l IH]; simpl; [reflexivity|].
  destruct (p c); simpl; rewrite !reserved_in_cons, IH; lia.
Qed.

Lemma reserved_in_nonneg i l :
  Forall (fun ci => 0 <= ci_quantity ci) l -> 0 <= reserved_in i l.
Proof.
  induction 1 as [|c l Hc _ IH]; [unfold reserved_in; simpl; lia|].
  rewrite reserved_in_cons. destruct (Nat.eqb (ci_menu_item_id c) i); lia.
Qed.

Lemma reserved_in_row i l c :
  Forall (fun ci => 0 <= ci_quantity ci) l -> In c l -> ci_menu_item_id c = i ->
  ci_quantity c <= reserved_in i l.
Proof.
  intros Hpos Hin Hi. destruct (in_split c l Hin) as (l1 & l2 & ->).
  rewrite reserved_in_app, reserved_in_cons, Hi, Nat.eqb_refl.
  apply Forall_app in Hpos. destruct Hpos as [H1 H2]. inversion H2; subst.
  pose proof (reserved_in_nonneg (ci_menu_item_id c) l1 H1).
  pose proof (reserved_in_nonneg (ci_menu_item_id c) l2 H4). lia.
Qed.

(** ** The menu after a restock *)

Lemma restock_id j d now mi : mi_id (restock j d now mi) = mi_id mi.
Proof. unfold restock. destruct (Nat.eqb (mi_id mi) j); reflexivity. Qed.

Lemma restock_price j d now mi : mi_price (restock j d now mi) = mi_price mi.
Proof. unfold restock. destruct (Nat.eqb (mi_id mi) j); reflexivity. Qed.

Lemma map_restock_ids j d now t : map mi_id (map (restock j d now) t) = map mi_id t.
Proof.
  rewrite map_map. apply map_ext. intros mi. apply restock_id.
Qed.

Lemma find_restock j d now i t :
  select_into (fun mi => Nat.eqb (mi_id mi) i) (map (restock j d now) t)
  = option_map (restock j d now) (select_into (fun mi => Nat.eqb (mi_id mi) i) t).
Proof.
  unfold select_into. induction t as [|mi t IH]; simpl; [reflexivity|].
  rewrite restock_id. destruct (Nat.eqb (mi_id mi) i); [reflexivity|apply IH].
Qed.

Lemma available_restock j d now i st t c o oi n :
  t = map (restock j d now) (menu_items st) ->
  available i (mk_db t c o oi n)
  = if Nat.eqb i j then option_map (fun a => a + d) (available i st)
    else available i st.
Proof.
  intros ->. unfold available. simpl. rewrite find_restock.
  destruct (select_into _ (menu_items st)) as [mi|] eqn:Hf; simpl.
  - apply find_some in Hf. destruct Hf as [_ Hi]. apply Nat.eqb_eq in Hi.
    unfold restock. rewrite Hi. destruct (Nat.eqb i j); reflexivity.
  - destruct (Nat.eqb i j); reflexivity.
Qed.

(** ** Cart lines stay positive, stock stays non-negative *)

Lemma Forall_delete_rows {R} (P : R -> Prop) (w : R -> bool) l :
  Forall P l -> Forall P (delete_rows w l).
Proof.
  unfold delete_rows. rewrite !Forall_forall. intros H x Hx.
  apply filter_In in Hx. apply H, Hx.
Qed.

Lemma Forall_requantify (P : Z -> Prop) w g now l :
  Forall (fun ci => P (ci_quantity ci)) l ->
  (forall ci, In ci l -> w ci = true -> P (g (ci_quantity ci))) ->
  Forall (fun ci => P (ci_quantity ci)) (map (requantify w g now) l).
Proof.
  rewrite !Forall_forall. intros H Hg x Hx. apply in_map_iff in Hx.
  destruct Hx as (ci & <- & Hci). unfold requantify.
  destruct (w ci) eqn:Hw; simpl; auto.
Qed.

Lemma added_cart now u i q st :
  cart_items (added now u i q st)
  = match select_into (cart_key u i) (cart_items st) with
    | Some _ => map (requantify (cart_key u i) (fun old => old + q) now) (cart_items st)
    | None => cart_items st ++ [mk_cart_item (next_uuid st) u i q now]
    end.
Proof. unfold added. destruct (select_into _ _); reflexivity. Qed.

Lemma available_added now u i q st k :
  available k (added now u i q st)
  = if Nat.eqb k i then option_map (fun a => a + - q) (available k st)
    else available k st.
Proof.
  unfold added. destruct (select_into _ _); apply (available_restock i (- q) now); reflexivity.
Qed.

Lemma effect_cart_positive rq st st' :
  effect rq st st' -> valid_input (rq_op rq) = true ->
  Forall (fun ci => 0 < ci_quantity ci) (cart_items st) ->
  Forall (fun ci => 0 < ci_quantity ci) (cart_items st').
Proof.
  intros He Hv Hpos. destruct He as [u i q a Hop Ha Hq|u c n line Hop Hin Hw Hn Hs
                                   |u c n line Hop Hin Hw Hn|u c line Hop Hin Hw|u Hop Hex].
  - rewrite Hop in Hv. simpl in Hv. apply Z.ltb_lt in Hv. rewrite added_cart.
    destruct (select_into _ _).
    + eapply (Forall_requantify (fun z => 0 < z)); [assumption|].
      intros ci Hci _. rewrite Forall_forall in Hpos. specialize (Hpos ci Hci). lia.
    + apply Forall_app. split; [assumption|]. constructor; [simpl; lia|constructor].
  - simpl. eapply (Forall_requantify (fun z => 0 < z)); [assumption|]. intros; assumption.
  - simpl. apply Forall_delete_rows. assumption.
  - simpl. apply Forall_delete_rows. assumption.
  - simpl. apply Forall_delete_rows. assumption.
Qed.


Lemma run_cart_positive rev rq st :
  valid_input (rq_op rq) = true ->
  Forall (fun ci => 0 < ci_quantity ci) (cart_items st) ->
  Forall (fun ci => 0 < ci_quantity ci) (cart_items (snd (run rev rq st))).
Proof.
  intros Hv Hpos. pose proof (run_effect rev rq st) as H.
  destruct (succeeded (fst (run rev rq st))).
  - eapply effect_cart_positive; eassumption.
  - rewrite H. assumption.
Qed.

Lemma run_all_cart_positive rev rqs st :
  Forall (fun rq => valid_input (rq_op rq) = true) rqs ->
  Forall (fun ci => 0 < ci_quantity ci) (cart_items st) ->
  Forall (fun ci => 0 < ci_quantity ci) (cart_items (run_all rev rqs st)).
Proof.
  intros Hv. revert st. induction Hv as [|rq rqs Hrq _ IH]; simpl; intros st Hpos.
  - assumption.
  - apply IH. apply run_cart_positive; assumption.
Qed.

Lemma Forall_positive_nonneg l :
  Forall (fun ci => 0 < ci_quantity ci) l -> Forall (fun ci => 0 <= ci_quantity ci) l.
Proof. apply Forall_impl. intros; lia. Qed.


(** ** Reserved quantities under the key constraints *)

Lemma requantify_fields w g now ci :
  ci_id (requantify w g now ci) = ci_id ci
  /\ ci_user_id (requantify w g now ci) = ci_user_id ci
  /\ ci_menu_item_id (requantify w g now ci) = ci_menu_item_id ci.
Proof. unfold requantify. destruct (w ci); simpl; auto. Qed.

Lemma map_requantify_ids w g now l :
  map ci_id (map (requantify w g now) l) = map ci_id l.
Proof.
  rewrite map_map. apply map_ext. intros ci. apply requantify_fields.
Qed.

Lemma map_requantify_keys w g now l :
  map (fun ci => (ci_user_id ci, ci_menu_item_id ci)) (map (requantify w g now) l)
  = map (fun ci => (ci_user_id ci, ci_menu_item_id ci)) l.
Proof.
  rewrite map_map. apply map_ext. intros ci.
  destruct (requantify_fields w g now ci) as (_ & -> & ->). reflexivity.
Qed.

Lemma cart_owned_id c u ci : cart_owned c u ci = true -> ci_id ci = c /\ ci_user_id ci = u.
Proof.
  unfold cart_owned. intros H. apply andb_true_iff in H. destruct H as [H1 H2].
  apply Nat.eqb_eq in H1, H2. auto.
Qed.

Lemma cart_key_pair u i ci :
  cart_key u i ci = true -> ci_user_id ci = u /\ ci_menu_item_id ci = i.
Proof.
  unfold cart_key. intros H. apply andb_true_iff in H. destruct H as [H1 H2].
  apply Nat.eqb_eq in H1, H2. auto.
Qed.

(** The one row a cart-line id selects. *)
Lemma owned_row c u line l :
  NoDup (map ci_id l) -> In line l -> cart_owned c u line = true ->
  exists l1 l2, l = l1 ++ line :: l2
                /\ (forall x, In x l1 -> cart_owned c u x = false)
                /\ (forall x, In x l2 -> cart_owned c u x = false).
Proof.
  intros Hnd Hin Hw. apply (unique_row ci_id); try assumption.
  intros x _ Hx. apply cart_owned_id in Hx, Hw. destruct Hx, Hw. congruence.
Qed.

(** The one row a (user, item) pair selects. *)
Lemma keyed_row u i line l :
  NoDup (map (fun ci => (ci_user_id ci, ci_menu_item_id ci)) l) ->
  In line l -> cart_key u i line = true ->
  exists l1 l2, l = l1 ++ line :: l2
                /\ (forall x, In x l1 -> cart_key u i x = false)
                /\ (forall x, In x l2 -> cart_key u i x = false).
Proof.
  intros Hnd Hin Hw.
  apply (unique_row (fun ci => (ci_user_id ci, ci_menu_item_id ci))); try assumption.
  intros x _ Hx. apply cart_key_pair in Hx, Hw. destruct Hx as [-> ->], Hw as [-> ->].
  reflexivity.
Qed.

Lemma reserved_in_requantify_row w g now k l1 l2 line :
  w line = true ->
  (forall x, In x l1 -> w x = false) ->
  (forall x, In x l2 -> w x = false) ->
  reserved_in k (map (requantify w g now) (l1 ++ line :: l2))
  = reserved_in k (l1 ++ line :: l2)
    + (if Nat.eqb (ci_menu_item_id line) k
       then g (ci_quantity line) - ci_quantity line else 0).
Proof.
  intros Hw H1 H2. unfold requantify.
  rewrite (map_at_row w _ l1 l2 line Hw H1 H2).
  rewrite !reserved_in_app, !reserved_in_cons. simpl.
  destruct (Nat.eqb (ci_menu_item_id line) k); lia.
Qed.

Lemma reserved_in_delete_row w k l1 l2 line :
  w line = true ->
  (forall x, In x l1 -> w x = false) ->
  (forall x, In x l2 -> w x = false) ->
  reserved_in k (delete_rows w (l1 ++ line :: l2))
  = reserved_in k (l1 ++ line :: l2)
    - (if Nat.eqb (ci_menu_item_id line) k then ci_quantity line else 0).
Proof.
  intros Hw H1 H2. rewrite (delete_at_row w l1 l2 line Hw H1 H2).
  rewrite !reserved_in_app, !reserved_in_cons.
  destruct (Nat.eqb (ci_menu_item_id line) k); lia.
Qed.

Lemma reserved_added now u i q st k :
  NoDup (map (fun ci => (ci_user_id ci, ci_menu_item_id ci)) (cart_items st)) ->
  reserved k (added now u i q st)
  = reserved k st + (if Nat.eqb i k then q else 0).
Proof.
  intros Hnd. unfold reserved. rewrite added_cart.
  destruct (select_into (cart_key u i) (cart_items st)) as [line|] eqn:Hf.
  - apply find_some in Hf. destruct Hf as [Hin Hw].
    destruct (keyed_row u i line _ Hnd Hin Hw) as (l1 & l2 & -> & H1 & H2).
    rewrite (reserved_in_requantify_row _ _ _ _ _ _ _ Hw H1 H2).
    apply cart_key_pair in Hw. destruct Hw as [_ ->].
    destruct (Nat.eqb i k); lia.
  - rewrite reserved_in_app, reserved_in_cons. simpl.
    unfold reserved_in at 2. simpl. destruct (Nat.eqb i k); lia.
Qed.

Lemma reserved_quantity_set now u c n line st k :
  NoDup (map ci_id (cart_items st)) ->
  In line (cart_items st) -> cart_owned c u line = true ->
  reserved k (quantity_set now u c n line st)
  = reserved k st
    + (if Nat.eqb (ci_menu_item_id line) k then n - ci_quantity line else 0).
Proof.
  intros Hnd Hin Hw. unfold reserved, quantity_set. simpl.
  destruct (owned_row c u line _ Hnd Hin Hw) as (l1 & l2 & -> & H1 & H2).
  apply (reserved_in_requantify_row _ (fun _ => n) _ _ _ _ _ Hw H1 H2).
Qed.

Lemma reserved_removed now u c line st k :
  NoDup (map ci_id (cart_items st)) ->
  In line (cart_items st) -> cart_owned c u line = true ->
  reserved k (removed now u c line st)
  = reserved k st
    - (if Nat.eqb (ci_menu_item_id line) k then ci_quantity line else 0).
Proof.
  intros Hnd Hin Hw. unfold reserved, removed. simpl.
  destruct (owned_row c u line _ Hnd Hin Hw) as (l1 & l2 & -> & H1 & H2).
  apply (reserved_in_delete_row _ _ _ _ _ Hw H1 H2).
Qed.

Lemma NoDup_map_delete_rows {R K} (key : R -> K) (w : R -> bool) l :
  NoDup (map key l) -> NoDup (map key (delete_rows w l)).
Proof.
  unfold delete_rows. induction l as [|x l IH]; simpl; intros H; [constructor|].
  inversion H as [|? ? Hx Hl]; subst. destruct (w x); simpl; auto.
  constructor; auto. intros Hin. apply Hx. apply in_map_iff in Hin.
  destruct Hin as (y & Hy & Hin). apply filter_In in Hin. rewrite <- Hy.
  apply in_map. apply Hin.
Qed.

(** ** A primary key on the menu *)

Lemma menu_row i mi t :
  NoDup (map mi_id t) ->
  select_into (fun m => Nat.eqb (mi_id m) i) t = Some mi ->
  filter (fun m => Nat.eqb (mi_id m) i) t = [mi].
Proof.
  intros Hnd Hf. apply find_some in Hf. destruct Hf as [Hin Hw].
  destruct (unique_row mi_id (fun m => Nat.eqb (mi_id m) i) t mi Hnd Hin)
    as (l1 & l2 & -> & H1 & H2).
  { intros x _ Hx. apply Nat.eqb_eq in Hx, Hw. congruence. }
  rewrite filter_app. simpl. rewrite Hw.
  assert (Hnone : forall l, (forall x, In x l -> Nat.eqb (mi_id x) i = false) ->
                            filter (fun m => Nat.eqb (mi_id m) i) l = []).
  { induction l as [|x l IH]; simpl; intros H; [reflexivity|].
    rewrite (H x) by auto. apply IH. intros; apply H; auto. }
  rewrite (Hnone l1 H1), (Hnone l2 H2). reflexivity.
Qed.

Lemma join_rows {X} (F : cart_item * menu_item -> X) (G : cart_item -> X) w st :
  NoDup (map mi_id (menu_items st)) ->
  Forall (fun ci => available (ci_menu_item_id ci) st <> None) (cart_items st) ->
  (forall ci mi,
      select_into (fun m => Nat.eqb (mi_id m) (ci_menu_item_id ci)) (menu_items st)
        = Some mi -> F (ci, mi) = G ci) ->
  map F (cart_join_menu w st) = map G (filter w (cart_items st)).
Proof.
  intros Hpk Hfk HFG. unfold cart_join_menu.
  induction Hfk as [|ci l Hci _ IH]; simpl; [reflexivity|].
  destruct (w ci); simpl; [|exact IH].
  rewrite map_app, IH. f_equal. unfold available in Hci.
  destruct (select_into _ (menu_items st)) as [mi|] eqn:Hf; [|contradiction Hci; reflexivity].
  rewrite (menu_row _ _ _ Hpk Hf). simpl. rewrite (HFG ci mi Hf). reflexivity.
Qed.

(** ** Orders *)

Lemma order_status_app_other k os o :
  o_id o <> k -> order_status k (os ++ [o]) = order_status k os.
Proof.
  intros Hk. unfold order_status. induction os as [|x os IH]; simpl.
  - destruct (Nat.eqb_spec (o_id o) k); [contradiction|reflexivity].
  - destruct (Nat.eqb (o_id x) k); [reflexivity|exact IH].
Qed.

Lemma order_status_new os o :
  Forall (fun x => (o_id x < o_id o)%nat) os ->
  order_status (o_id o) (os ++ [o]) = Some (o_status o).
Proof.
  unfold order_status. induction 1 as [|x os Hx _ IH]; simpl.
  - rewrite Nat.eqb_refl. reflexivity.
  - destruct (Nat.eqb_spec (o_id x) (o_id o)); [lia|exact IH].
Qed.

Lemma sold_in_app k os ois1 ois2 :
  sold_in k os (ois1 ++ ois2) = sold_in k os ois1 + sold_in k os ois2.
Proof.
  unfold sold_in. rewrite filter_app, map_app, sumZ_app. reflexivity.
Qed.

Lemma sold_in_old_lines k os o ois :
  Forall (fun oi => (oi_order_id oi < o_id o)%nat) ois ->
  sold_in k (os ++ [o]) ois = sold_in k os ois.
Proof.
  intros Hfresh. unfold sold_in. f_equal. f_equal. apply filter_ext_in.
  intros oi Hoi. rewrite Forall_forall in Hfresh. specialize (Hfresh oi Hoi).
  unfold non_cancelled. rewrite order_status_app_other by lia. reflexivity.
Qed.

Lemma sold_in_new_lines k os o (lines : list cart_item) (price : cart_item -> numeric) :
  Forall (fun x => (o_id x < o_id o)%nat) os ->
  o_status o = "pending" ->
  sold_in k (os ++ [o])
    (map (fun ci => mk_order_item (o_id o) (ci_menu_item_id ci) (ci_quantity ci) (price ci))
         lines)
  = reserved_in k lines.
Proof.
  intros Hfresh Hst. unfold sold_in, reserved_in.
  induction lines as [|ci l IH]; simpl; [reflexivity|].
  unfold non_cancelled at 1. simpl. rewrite (order_status_new os o Hfresh), Hst. simpl.
  rewrite andb_true_r. destruct (Nat.eqb (ci_menu_item_id ci) k); simpl; rewrite IH;
    reflexivity.
Qed.

Lemma checked_out_order_items u st :
  NoDup (map mi_id (menu_items st)) ->
  Forall (fun ci => available (ci_menu_item_id ci) st <> None) (cart_items st) ->
  order_items (checked_out u st)
  = order_items st
    ++ map (fun ci => mk_order_item (next_uuid st) (ci_menu_item_id ci) (ci_quantity ci)
                                    (menu_price (ci_menu_item_id ci) st))
           (filter (cart_of_user u) (cart_items st)).
Proof.
  intros Hpk Hfk. unfold checked_out. simpl. f_equal.
  apply join_rows; try assumption.
  intros ci mi Hf. unfold order_line, menu_price. simpl. rewrite Hf. reflexivity.
Qed.

Lemma cart_total_lines u st :
  NoDup (map mi_id (menu_items st)) ->
  Forall (fun ci => available (ci_menu_item_id ci) st <> None) (cart_items st) ->
  cart_total u st
  = sumZ (map (fun ci => ci_quantity ci * menu_price (ci_menu_item_id ci) st)
              (filter (cart_of_user u) (cart_items st))).
Proof.
  intros Hpk Hfk. unfold cart_total. f_equal.
  apply join_rows; try assumption.
  intros ci mi Hf. unfold menu_price. simpl. rewrite Hf. reflexivity.
Qed.

Lemma sold_checked_out u st k :
  db_keys st ->
  sold k (checked_out u st)
  = sold k st + reserved_in k (filter (cart_of_user u) (cart_items st)).
Proof.
  intros Hok. unfold sold.
  rewrite (checked_out_order_items u st (keys_menu_pk st Hok) (keys_cart_fk st Hok)).
  unfold checked_out. simpl. rewrite sold_in_app. f_equal.
  - apply (sold_in_old_lines k (orders st)
             (mk_order (next_uuid st) u (cart_total u st) "pending" "pending")).
    simpl. apply (keys_order_items_fresh st Hok).
  - apply (sold_in_new_lines k (orders st)
             (mk_order (next_uuid st) u (cart_total u st) "pending" "pending")).
    + simpl. apply (keys_orders_fresh st Hok).
    + reflexivity.
Qed.

Lemma sold_same_orders k st st' :
  orders st' = orders st -> order_items st' = order_items st -> sold k st' = sold k st.
Proof. unfold sold. intros -> ->. reflexivity. Qed.

(** ** Conservation *)

Lemma effect_conserves rq st st' i a :
  effect rq st st' -> db_keys st ->
  available i st = Some a ->
  exists a', available i st' = Some a'
             /\ a' + reserved i st' + sold i st' = a + reserved i st + sold i st.
Proof.
  intros He Hok Hi.
  destruct He as [u j q a0 Hop Ha0 Hq|u c n line Hop Hin Hw Hn Hs
                 |u c n line Hop Hin Hw Hn|u c line Hop Hin Hw|u Hop Hex].
  - rewrite available_added, Hi, (reserved_added _ _ _ _ _ _ (keys_cart_unique st Hok)).
    rewrite (sold_same_orders i (added (rq_now rq) u j q st) st)
      by (unfold added; destruct (select_into _ _); reflexivity).
    rewrite (Nat.eqb_sym j i). simpl.
    destruct (Nat.eqb i j); eexists; (split; [reflexivity|lia]).
  - rewrite (reserved_quantity_set _ _ _ _ _ _ _ (keys_cart_pk st Hok) Hin Hw).
    unfold quantity_set at 1. erewrite available_restock by reflexivity. rewrite Hi.
    rewrite (sold_same_orders i (quantity_set (rq_now rq) u c n line st) st) by reflexivity.
    rewrite (Nat.eqb_sym (ci_menu_item_id line) i). simpl.
    destruct (Nat.eqb i (ci_menu_item_id line)); eexists; (split; [reflexivity|lia]).
  - rewrite (reserved_removed _ _ _ _ _ _ (keys_cart_pk st Hok) Hin Hw).
    unfold removed at 1. erewrite available_restock by reflexivity. rewrite Hi.
    rewrite (sold_same_orders i (removed (rq_now rq) u c line st) st) by reflexivity.
    rewrite (Nat.eqb_sym (ci_menu_item_id line) i). simpl.
    destruct (Nat.eqb i (ci_menu_item_id line)); eexists; (split; [reflexivity|lia]).
  - rewrite (reserved_removed _ _ _ _ _ _ (keys_cart_pk st Hok) Hin Hw).
    unfold removed at 1. erewrite available_restock by reflexivity. rewrite Hi.
    rewrite (sold_same_orders i (removed (rq_now rq) u c line st) st) by reflexivity.
    rewrite (Nat.eqb_sym (ci_menu_item_id line) i). simpl.
    destruct (Nat.eqb i (ci_menu_item_id line)); eexists; (split; [reflexivity|lia]).
  - exists a. split; [exact Hi|]. rewrite (sold_checked_out u st i Hok).
    unfold reserved at 1 2. unfold checked_out at 1. simpl.
    rewrite (reserved_in_split (cart_of_user u) i (cart_items st)). lia.
Qed.

(** ** Consistency is preserved *)

Lemma NoDup_snoc {A} (l : list A) (x : A) : NoDup l -> ~ In x l -> NoDup (l ++ [x]).
Proof.
  intros Hl Hx. induction Hl as [|y l Hy _ IH]; simpl.
  - constructor; [intros []|constructor].
  - constructor.
    + intros Hin. apply in_app_or in Hin. destruct Hin as [Hin|[->|[]]]; [auto|].
      apply Hx. left. reflexivity.
    + apply IH. intros Hin. apply Hx. right. assumption.
Qed.

Lemma fresh_not_in {R} (id : R -> nat) (n : nat) (l : list R) :
  Forall (fun r => (id r < n)%nat) l -> ~ In n (map id l).
Proof.
  intros H Hin. apply in_map_iff in Hin. destruct Hin as (r & Hr & Hin).
  rewrite Forall_forall in H. specialize (H r Hin). lia.
Qed.

Lemma Forall_fresh_S {R} (id : R -> nat) (n : nat) (l : list R) :
  Forall (fun r => (id r < n)%nat) l -> Forall (fun r => (id r < S n)%nat) l.
Proof. apply Forall_impl. intros; lia. Qed.

Lemma Forall_map_requantify (P : cart_item -> Prop) w g now l :
  (forall ci, P ci -> P (requantify w g now ci)) ->
  Forall P l -> Forall P (map (requantify w g now) l).
Proof.
  intros HP H. rewrite Forall_forall in *. intros x Hx. apply in_map_iff in Hx.
  destruct Hx as (ci & <- & Hci). auto.
Qed.

Lemma available_restocked_defined j d now k st t c o oi n :
  t = map (restock j d now) (menu_items st) ->
  available k st <> None -> available k (mk_db t c o oi n) <> None.
Proof.
  intros Ht Hk. rewrite (available_restock j d now k st t c o oi n Ht).
  destruct (available k st); [|contradiction Hk; reflexivity].
  destruct (Nat.eqb k j); discriminate.
Qed.

Lemma added_db_keys now u i q a st :
  db_keys st -> available i st = Some a -> db_keys (added now u i q st).
Proof.
  intros Hok Ha. unfold added.
  destruct (select_into (cart_key u i) (cart_items st)) as [line|] eqn:Hf;
    constructor; simpl.
  - rewrite map_restock_ids. apply (keys_menu_pk st Hok).
  - rewrite map_requantify_ids. apply (keys_cart_pk st Hok).
  - rewrite map_requantify_keys. apply (keys_cart_unique st Hok).
  - apply Forall_map_requantify; [|apply (keys_cart_fresh st Hok)].
    intros ci. destruct (requantify_fields (cart_key u i) (fun old => old + q) now ci)
      as (-> & _). auto.
  - apply (keys_orders_fresh st Hok).
  - apply (keys_order_items_fresh st Hok).
  - apply Forall_map_requantify.
    + intros ci Hci.
      destruct (requantify_fields (cart_key u i) (fun old => old + q) now ci)
        as (_ & _ & ->). exact Hci.
    + eapply Forall_impl; [|apply (keys_cart_fk st Hok)]. intros ci Hci.
      eapply available_restocked_defined; [reflexivity|exact Hci].
  - rewrite map_restock_ids. apply (keys_menu_pk st Hok).
  - rewrite map_app. simpl. apply NoDup_snoc; [apply (keys_cart_pk st Hok)|].
    apply fresh_not_in, (keys_cart_fresh st Hok).
  - rewrite map_app. simpl. apply NoDup_snoc; [apply (keys_cart_unique st Hok)|].
    intros Hin. apply in_map_iff in Hin. destruct Hin as (ci & Hk & Hin).
    pose proof (find_none _ _ Hf ci Hin) as Hno. unfold cart_key in Hno.
    inversion Hk; subst. rewrite !Nat.eqb_refl in Hno. discriminate.
  - apply Forall_app. split.
    + apply Forall_fresh_S, (keys_cart_fresh st Hok).
    + constructor; [simpl; lia|constructor].
  - apply Forall_fresh_S, (keys_orders_fresh st Hok).
  - apply Forall_fresh_S, (keys_order_items_fresh st Hok).
  - apply Forall_app. split.
    + eapply Forall_impl; [|apply (keys_cart_fk st Hok)]. intros ci Hci.
      eapply available_restocked_defined; [reflexivity|exact Hci].
    + constructor; [|constructor]. simpl.
      eapply available_restocked_defined; [reflexivity|]. rewrite Ha. discriminate.
Qed.

Lemma quantity_set_db_keys now u c n line st :
  db_keys st -> db_keys (quantity_set now u c n line st).
Proof.
  intros Hok. constructor; simpl.
  - rewrite map_restock_ids. apply (keys_menu_pk st Hok).
  - rewrite map_requantify_ids. apply (keys_cart_pk st Hok).
  - rewrite map_requantify_keys. apply (keys_cart_unique st Hok).
  - apply Forall_map_requantify; [|apply (keys_cart_fresh st Hok)].
    intros ci. destruct (requantify_fields (cart_owned c u) (fun _ => n) now ci)
      as (-> & _). auto.
  - apply (keys_orders_fresh st Hok).
  - apply (keys_order_items_fresh st Hok).
  - apply Forall_map_requantify.
    + intros ci Hci.
      destruct (requantify_fields (cart_owned c u) (fun _ => n) now ci) as (_ & _ & ->).
      exact Hci.
    + eapply Forall_impl; [|apply (keys_cart_fk st Hok)]. intros ci Hci.
      eapply available_restocked_defined; [reflexivity|exact Hci].
Qed.

Lemma removed_db_keys now u c line st :
  db_keys st -> db_keys (removed now u c line st).
Proof.
  intros Hok. constructor; simpl.
  - rewrite map_restock_ids. apply (keys_menu_pk st Hok).
  - apply NoDup_map_delete_rows, (keys_cart_pk st Hok).
  - apply NoDup_map_delete_rows, (keys_cart_unique st Hok).
  - apply Forall_delete_rows, (keys_cart_fresh st Hok).
  - apply (keys_orders_fresh st Hok).
  - apply (keys_order_items_fresh st Hok).
  - apply Forall_delete_rows.
    eapply Forall_impl; [|apply (keys_cart_fk st Hok)]. intros ci Hci.
    eapply available_restocked_defined; [reflexivity|exact Hci].
Qed.

Lemma checked_out_db_keys u st : db_keys st -> db_keys (checked_out u st).
Proof.
  intros Hok. constructor; simpl.
  - apply (keys_menu_pk st Hok).
  - apply NoDup_map_delete_rows, (keys_cart_pk st Hok).
  - apply NoDup_map_delete_rows, (keys_cart_unique st Hok).
  - apply Forall_delete_rows, Forall_fresh_S, (keys_cart_fresh st Hok).
  - apply Forall_app. split.
    + apply Forall_fresh_S, (keys_orders_fresh st Hok).
    + constructor; [simpl; lia|constructor].
  - apply Forall_app. split.
    + apply Forall_fresh_S, (keys_order_items_fresh st Hok).
    + apply Forall_forall. intros oi Hoi. apply in_map_iff in Hoi.
      destruct Hoi as (row & <- & _). simpl. lia.
  - apply Forall_delete_rows. apply (keys_cart_fk st Hok).
Qed.

Lemma effect_db_keys rq st st' : effect rq st st' -> db_keys st -> db_keys st'.
Proof.
  intros He Hok.
  destruct He as [u j q a0 Hop Ha0 Hq|u c n line Hop Hin Hw Hn Hs
                 |u c n line Hop Hin Hw Hn|u c line Hop Hin Hw|u Hop Hex].
  - eapply added_db_keys; eassumption.
  - apply quantity_set_db_keys; assumption.
  - apply removed_db_keys; assumption.
  - apply removed_db_keys; assumption.
  - apply checked_out_db_keys; assumption.
Qed.

Lemma added_db_ok now u i q a st :
  db_ok st -> available i st = Some a -> q <= a -> 0 < q ->
  db_ok (added now u i q st).
Proof.
  intros Hok Ha Hq Hpos. pose proof (ok_keys st Hok) as Hk. constructor.
  - eapply added_db_keys; eassumption.
  - intros k a'. rewrite available_added. destruct (Nat.eqb_spec k i) as [->|_].
    + rewrite Ha. simpl. intros H; inversion H; subst. lia.
    + apply (ok_stock st Hok).
  - apply (effect_cart_positive (mk_request None now (addItem u i q)) st).
    + eapply effect_add; simpl; eauto.
    + simpl. apply Z.ltb_lt. assumption.
    + apply (ok_cart_positive st Hok).
  - intros k a'.
    rewrite available_added, (reserved_added _ _ _ _ _ _ (keys_cart_unique st Hk)).
    rewrite (Nat.eqb_sym i k). destruct (Nat.eqb_spec k i) as [->|_].
    + rewrite Ha. simpl. intros H; inversion H; subst.
      pose proof (ok_capacity st Hok i a Ha). lia.
    + intros H. pose proof (ok_capacity st Hok k a' H). lia.
Qed.

Lemma quantity_set_db_ok now u c n line st :
  db_ok st -> In line (cart_items st) -> cart_owned c u line = true -> 0 < n ->
  (forall a, available (ci_menu_item_id line) st = Some a ->
             n - ci_quantity line <= 0 \/ n - ci_quantity line <= a) ->
  db_ok (quantity_set now u c n line st).
Proof.
  intros Hok Hin Hw Hn Hs. pose proof (ok_keys st Hok) as Hk.
  assert (Hav : forall k,
             available k (quantity_set now u c n line st)
             = if Nat.eqb k (ci_menu_item_id line)
               then option_map (fun a => a + (ci_quantity line - n)) (available k st)
               else available k st).
  { intros k. apply (available_restock _ _ now). reflexivity. }
  constructor.
  - apply quantity_set_db_keys; assumption.
  - intros k a'. rewrite Hav. destruct (Nat.eqb_spec k (ci_menu_item_id line)) as [->|_].
    + destruct (available (ci_menu_item_id line) st) as [a|] eqn:Ha; [|discriminate].
      simpl. intros H; inversion H; subst.
      pose proof (ok_stock st Hok _ _ Ha). destruct (Hs a eq_refl); lia.
    + apply (ok_stock st Hok).
  - simpl. eapply (Forall_requantify (fun z => 0 < z)); [apply (ok_cart_positive st Hok)|].
    intros; assumption.
  - intros k a'. rewrite Hav.
    rewrite (reserved_quantity_set _ _ _ _ _ _ _ (keys_cart_pk st Hk) Hin Hw).
    rewrite (Nat.eqb_sym (ci_menu_item_id line) k).
    destruct (Nat.eqb_spec k (ci_menu_item_id line)) as [->|_].
    + destruct (available (ci_menu_item_id line) st) as [a|] eqn:Ha; [|discriminate].
      simpl. intros H; inversion H; subst.
      pose proof (ok_capacity st Hok _ _ Ha). lia.
    + intros H. pose proof (ok_capacity st Hok _ _ H). lia.
Qed.

Lemma removed_db_ok now u c line st :
  db_ok st -> In line (cart_items st) -> cart_owned c u line = true ->
  db_ok (removed now u c line st).
Proof.
  intros Hok Hin Hw. pose proof (ok_keys st Hok) as Hk.
  assert (Hav : forall k,
             available k (removed now u c line st)
             = if Nat.eqb k (ci_menu_item_id line)
               then option_map (fun a => a + ci_quantity line) (available k st)
               else available k st).
  { intros k. apply (available_restock _ _ now). reflexivity. }
  assert (Hq : 0 < ci_quantity line).
  { pose proof (ok_cart_positive st Hok) as Hp. rewrite Forall_forall in Hp. auto. }
  constructor.
  - apply removed_db_keys; assumption.
  - intros k a'. rewrite Hav. destruct (Nat.eqb_spec k (ci_menu_item_id line)) as [->|_].
    + destruct (available (ci_menu_item_id line) st) as [a|] eqn:Ha; [|discriminate].
      simpl. intros H; inversion H; subst.
      pose proof (ok_stock st Hok _ _ Ha). lia.
    + apply (ok_stock st Hok).
  - simpl. apply Forall_delete_rows, (ok_cart_positive st Hok).
  - intros k a'. rewrite Hav.
    rewrite (reserved_removed _ _ _ _ _ _ (keys_cart_pk st Hk) Hin Hw).
    rewrite (Nat.eqb_sym (ci_menu_item_id line) k).
    destruct (Nat.eqb_spec k (ci_menu_item_id line)) as [->|_].
    + destruct (available (ci_menu_item_id line) st) as [a|] eqn:Ha; [|discriminate].
      simpl. intros H; inversion H; subst.
      pose proof (ok_capacity st Hok _ _ Ha). lia.
    + intros H. pose proof (ok_capacity st Hok _ _ H). lia.
Qed.

Lemma checked_out_db_ok u st : db_ok st -> db_ok (checked_out u st).
Proof.
  intros Hok. constructor.
  - apply checked_out_db_keys, (ok_keys st Hok).
  - apply (ok_stock st Hok).
  - simpl. apply Forall_delete_rows, (ok_cart_positive st Hok).
  - intros k a Ha. pose proof (ok_capacity st Hok k a Ha) as Hc.
    unfold reserved in *. simpl.
    rewrite (reserved_in_split (cart_of_user u) k (cart_items st)) in Hc.
    assert (0 <= reserved_in k (filter (cart_of_user u) (cart_items st))).
    { apply reserved_in_nonneg. apply Forall_positive_nonneg.
      pose proof (ok_cart_positive st Hok) as Hp. rewrite Forall_forall in *.
      intros x Hx. apply filter_In in Hx. apply Hp, Hx. }
    lia.
Qed.

Lemma effect_db_ok rq st st' :
  effect rq st st' -> valid_input (rq_op rq) = true -> db_ok st -> db_ok st'.
Proof.
  intros He Hv Hok.
  destruct He as [u j q a0 Hop Ha0 Hq|u c n line Hop Hin Hw Hn Hs
                 |u c n line Hop Hin Hw Hn|u c line Hop Hin Hw|u Hop Hex].
  - rewrite Hop in Hv. simpl in Hv. apply Z.ltb_lt in Hv.
    eapply added_db_ok; eassumption.
  - apply quantity_set_db_ok; assumption.
  - apply removed_db_ok; assumption.
  - apply removed_db_ok; assumption.
  - apply checked_out_db_ok; assumption.
Qed.

Lemma run_db_keys rev rq st : db_keys st -> db_keys (snd (run rev rq st)).
Proof.
  intros Hok. pose proof (run_effect rev rq st) as H.
  destruct (succeeded (fst (run rev rq st))).
  - eapply effect_db_keys; eassumption.
  - rewrite H. assumption.
Qed.

Lemma run_db_ok rev rq st :
  valid_input (rq_op rq) = true -> db_ok st -> db_ok (snd (run rev rq st)).
Proof.
  intros Hv Hok. pose proof (run_effect rev rq st) as H.
  destruct (succeeded (fst (run rev rq st))).
  - eapply effect_db_ok; eassumption.
  - rewrite H. assumption.
Qed.

Lemma run_all_db_ok rev rqs st :
  Forall (fun rq => valid_input (rq_op rq) = true) rqs ->
  db_ok st -> db_ok (run_all rev rqs st).
Proof.
  intros Hv. revert st. induction Hv as [|rq rqs Hrq _ IH]; simpl; intros st Hok.
  - assumption.
  - apply IH. apply run_db_ok; assumption.
Qed.

Lemma run_conserves rev rq st i a :
  db_keys st -> available i st = Some a ->
  exists a', available i (snd (run rev rq st)) = Some a'
             /\ a' + reserved i (snd (run rev rq st)) + sold i (snd (run rev rq st))
                = a + reserved i st + sold i st.
Proof.
  intros Hok Hi. pose proof (run_effect rev rq st) as H.
  destruct (succeeded (fst (run rev rq st))).
  - eapply effect_conserves; eassumption.
  - rewrite H. eauto.
Qed.

Lemma run_all_conserves rev rqs st i a :
  db_keys st -> available i st = Some a ->
  exists a', available i (run_all rev rqs st) = Some a'
             /\ a' + reserved i (run_all rev rqs st) + sold i (run_all rev rqs st)
                = a + reserved i st + sold i st.
Proof.
  revert st a. induction rqs as [|rq rqs IH]; simpl; intros st a Hok Hi.
  - eauto.
  - destruct (run_conserves rev rq st i a Hok Hi) as (a1 & Ha1 & Heq).
    destruct (IH _ a1 (run_db_keys rev rq st Hok) Ha1) as (a2 & Ha2 & Heq2).
    exists a2. split; [assumption|lia].
Qed.

(** ** The boolean checks are sound *)

Lemma nodupb_sound {A} (eqb : A -> A -> bool) (l : list A) :
  (forall x y, x = y -> eqb x y = true) -> nodupb eqb l = true -> NoDup l.
Proof.
  intros Heqb. induction l as [|x l IH]; simpl; intros H; [constructor|].
  apply andb_true_iff in H. destruct H as [Hx Hl]. constructor; [|auto].
  intros Hin. apply negb_true_iff in Hx.
  assert (existsb (eqb x) l = true) by (apply existsb_exists; exists x; auto).
  congruence.
Qed.

Lemma db_keysb_sound st : db_keysb st = true -> db_keys st.
Proof.
  unfold db_keysb. intros H.
  repeat (apply andb_true_iff in H; destruct H as [H ?]).
  constructor.
  - apply (nodupb_sound Nat.eqb); [intros x y ->; apply Nat.eqb_refl|assumption].
  - apply (nodupb_sound Nat.eqb); [intros x y ->; apply Nat.eqb_refl|assumption].
  - apply (nodupb_sound pair_eqb); [|assumption].
    intros x y ->. unfold pair_eqb. rewrite !Nat.eqb_refl. reflexivity.
  - apply Forall_forall. intros x Hx. apply Nat.ltb_lt.
    eapply forallb_forall in Hx; [exact Hx|eassumption].
  - apply Forall_forall. intros x Hx. apply Nat.ltb_lt.
    eapply forallb_forall in Hx; [exact Hx|eassumption].
  - apply Forall_forall. intros x Hx. apply Nat.ltb_lt.
    eapply forallb_forall in Hx; [exact Hx|eassumption].
  - apply Forall_forall. intros x Hx.
    eapply forallb_forall in Hx; [|eassumption]. simpl in Hx.
    destruct (available (ci_menu_item_id x) st); [discriminate|discriminate].
Qed.

Lemma db_okb_sound st : db_okb st = true -> db_ok st.
Proof.
  unfold db_okb. intros H.
  do 3 (apply andb_true_iff in H; destruct H as [H ?]).
  assert (Hrow : forall i a, available i st = Some a ->
                 exists mi, In mi (menu_items st) /\ mi_id mi = i
                            /\ mi_quantity_available mi = a).
  { intros i a Ha. unfold available in Ha.
    destruct (select_into _ (menu_items st)) as [mi|] eqn:Hf; [|discriminate].
    apply find_some in Hf. destruct Hf as [Hin Hi]. apply Nat.eqb_eq in Hi.
    inversion Ha. exists mi. auto. }
  constructor.
  - apply db_keysb_sound. assumption.
  - intros i a Ha. destruct (Hrow i a Ha) as (mi & Hin & _ & <-).
    apply Z.leb_le. eapply forallb_forall in Hin; [exact Hin|eassumption].
  - apply Forall_forall. intros x Hx. apply Z.ltb_lt.
    eapply forallb_forall in Hx; [exact Hx|eassumption].
  - intros i a Ha. destruct (Hrow i a Ha) as (mi & Hin & <- & <-).
    apply Z.leb_le. eapply forallb_forall in Hin; [exact Hin|eassumption].
Qed.

Lemma initial_db_keys st : initial st -> db_keys st.
Proof.
  intros (Hc & Ho & Hpk & Hfresh). constructor; rewrite ?Hc, ?Ho; simpl;
    try constructor; assumption.
Qed.

(** A stocked menu with nothing reserved and nothing sold is consistent. *)
Lemma initial_db_ok st :
  initial st ->
  Forall (fun mi => 0 <= mi_quantity_available mi <= int4_max) (menu_items st) ->
  db_ok st.
Proof.
  intros Hinit Hrange.
  assert (Hrow : forall i a, available i st = Some a -> 0 <= a <= int4_max).
  { intros i a Ha. unfold available in Ha.
    destruct (select_into _ (menu_items st)) as [mi|] eqn:Hf; [|discriminate].
    apply find_some in Hf. destruct Hf as [Hin _]. inversion Ha; subst.
    rewrite Forall_forall in Hrange. auto. }
  pose proof (initial_db_keys st Hinit) as Hk. destruct Hinit as (Hc & _).
  constructor.
  - assumption.
  - intros i a Ha. apply (Hrow i a Ha).
  - rewrite Hc. constructor.
  - intros i a Ha. unfold reserved, reserved_in. rewrite Hc. simpl.
    pose proof (Hrow i a Ha). lia.
Qed.

(** ** Statements that cannot overflow *)

Lemma UPDATE_menu_items_total i g delta now st :
  (forall old, g old = old + delta) ->
  (forall mi, In mi (menu_items st) -> Nat.eqb (mi_id mi) i = true ->
              int4_min <= mi_quantity_available mi + delta <= int4_max) ->
  UPDATE_menu_items (set_quantity_available (fun old => int4 (g old)) now)
                    (fun mi => Nat.eqb (mi_id mi) i) st
  = Ok (tt, with_menu_items (map (restock i delta now) (menu_items st)) st).
Proof.
  intros Hg Hr. unfold UPDATE_menu_items.
  rewrite (update_rows_total _ _ (restock i delta now)).
  - f_equal. f_equal. f_equal. apply map_ext. intros mi. unfold restock.
    destruct (Nat.eqb (mi_id mi) i); reflexivity.
  - intros mi Hin Hw. unfold set_quantity_available, restock. rewrite Hw, Hg.
    rewrite int4_in_range by auto. reflexivity.
Qed.

Lemma INSERT_total now u i v q st :
  (forall ci, In ci (cart_items st) -> cart_key u i ci = true ->
              int4_min <= ci_quantity ci + q <= int4_max) ->
  exists id,
    INSERT_INTO_cart_items_ON_CONFLICT now u i (Ok v) q st
    = Ok (id,
          match select_into (cart_key u i) (cart_items st) with
          | Some _ =>
              with_cart_items
                (map (requantify (cart_key u i) (fun old => old + q) now) (cart_items st))
                st
          | None =>
              mk_db (menu_items st)
                    (cart_items st ++ [mk_cart_item (next_uuid st) u i v now])
                    (orders st) (order_items st) (S (next_uuid st))
          end).
Proof.
  intros Hr. unfold INSERT_INTO_cart_items_ON_CONFLICT.
  destruct (select_into (cart_key u i) (cart_items st)) as [line|].
  - exists (ci_id line).
    rewrite (update_rows_total _ _ (requantify (cart_key u i) (fun old => old + q) now)).
    + f_equal. f_equal. f_equal. apply map_ext. intros ci. unfold requantify.
      destruct (cart_key u i ci); reflexivity.
    + intros ci Hin Hw. unfold set_quantity, requantify, int4pl. rewrite Hw.
      rewrite int4_in_range by auto. reflexivity.
  - exists (next_uuid st). reflexivity.
Qed.

(** ** Facts of a consistent database *)

Lemma available_row st mi :
  NoDup (map mi_id (menu_items st)) -> In mi (menu_items st) ->
  available (mi_id mi) st = Some (mi_quantity_available mi).
Proof.
  intros Hpk Hin. unfold available, select_into.
  destruct (unique_row mi_id (fun m => Nat.eqb (mi_id m) (mi_id mi)) _ mi Hpk Hin)
    as (l1 & l2 & Heq & H1 & _).
  { intros x _ Hx. apply Nat.eqb_eq in Hx. exact Hx. }
  rewrite Heq, (find_at_row _ l1 l2 mi (Nat.eqb_refl _) H1). reflexivity.
Qed.

Lemma available_of_id st i mi :
  NoDup (map mi_id (menu_items st)) -> In mi (menu_items st) ->
  Nat.eqb (mi_id mi) i = true ->
  available i st = Some (mi_quantity_available mi).
Proof.
  intros Hpk Hin Hi. apply Nat.eqb_eq in Hi. subst i. apply available_row; assumption.
Qed.

Lemma reserved_nonneg st i : db_ok st -> 0 <= reserved i st.
Proof.
  intros Hok. apply reserved_in_nonneg, Forall_positive_nonneg, (ok_cart_positive st Hok).
Qed.

Lemma stock_in_range st i a :
  db_ok st -> available i st = Some a -> 0 <= a <= int4_max.
Proof.
  intros Hok Ha. pose proof (ok_stock st Hok i a Ha).
  pose proof (ok_capacity st Hok i a Ha). pose proof (reserved_nonneg st i Hok). lia.
Qed.

Lemma line_in_range st line a :
  db_ok st -> In line (cart_items st) ->
  available (ci_menu_item_id line) st = Some a ->
  0 < ci_quantity line /\ a + ci_quantity line <= int4_max.
Proof.
  intros Hok Hin Ha. pose proof (ok_cart_positive st Hok) as Hp.
  pose proof (ok_capacity st Hok _ a Ha) as Hc.
  pose proof (reserved_in_row (ci_menu_item_id line) (cart_items st) line
                (Forall_positive_nonneg _ Hp) Hin eq_refl) as Hr.
  rewrite Forall_forall in Hp. specialize (Hp line Hin). unfold reserved in Hc. lia.
Qed.

Lemma int4_bounds : int4_min = -2147483648 /\ int4_max = 2147483647.
Proof. split; reflexivity. Qed.

(** ** addItem *)

Lemma cart_key_requantify u i w g now ci :
  cart_key u i (requantify w g now ci) = cart_key u i ci.
Proof.
  destruct (requantify_fields w g now ci) as (_ & Hu & Hi).
  unfold cart_key. rewrite Hu, Hi. reflexivity.
Qed.

Lemma find_requantify_key u i g now l :
  select_into (cart_key u i) (map (requantify (cart_key u i) g now) l)
  = option_map (requantify (cart_key u i) g now) (select_into (cart_key u i) l).
Proof.
  unfold select_into. induction l as [|ci l IH]; simpl; [reflexivity|].
  rewrite cart_key_requantify. destruct (cart_key u i ci); [reflexivity|exact IH].
Qed.

Lemma find_snoc {R} (w : R -> bool) l x :
  find w l = None -> w x = true -> find w (l ++ [x]) = Some x.
Proof.
  intros Hn Hx. induction l as [|y l IH]; simpl in *.
  - rewrite Hx. reflexivity.
  - destruct (w y); [discriminate|auto].
Qed.

Lemma line_quantity_added now u i q st :
  line_quantity u i (added now u i q st) = line_quantity u i st + q.
Proof.
  unfold line_quantity. rewrite added_cart.
  destruct (select_into (cart_key u i) (cart_items st)) as [line|] eqn:Hf.
  - rewrite find_requantify_key, Hf. simpl. apply find_some in Hf.
    unfold requantify. destruct Hf as [_ ->]. reflexivity.
  - unfold select_into in *. rewrite (find_snoc _ _ _ Hf).
    + simpl. lia.
    + unfold cart_key. simpl. rewrite !Nat.eqb_refl. reflexivity.
Qed.

Lemma add_in_range st u i q a :
  db_ok st -> available i st = Some a -> 0 < q -> q <= a ->
  (forall mi, In mi (menu_items st) -> Nat.eqb (mi_id mi) i = true ->
              int4_min <= mi_quantity_available mi + - q <= int4_max)
  /\ (forall ci, In ci (cart_items st) -> cart_key u i ci = true ->
                 int4_min <= ci_quantity ci + q <= int4_max)
  /\ int4_min <= line_quantity u i st + q <= int4_max
  /\ int4_min <= a - q <= int4_max.
Proof.
  intros Hok Ha Hq Hle. destruct int4_bounds as [Hmin Hmax].
  pose proof (stock_in_range st i a Hok Ha) as Hr.
  assert (Hline : forall ci, In ci (cart_items st) -> cart_key u i ci = true ->
                             int4_min <= ci_quantity ci + q <= int4_max).
  { intros ci Hin Hw. apply cart_key_pair in Hw. destruct Hw as [_ Hi].
    rewrite <- Hi in Ha. destruct (line_in_range st ci a Hok Hin Ha). lia. }
  split; [|split; [exact Hline|split]].
  - intros mi Hin Hi.
    rewrite (available_of_id st i mi (keys_menu_pk st (ok_keys st Hok)) Hin Hi) in Ha.
    inversion Ha; subst. lia.
  - unfold line_quantity.
    destruct (select_into (cart_key u i) (cart_items st)) as [line|] eqn:Hf; [|lia].
    apply find_some in Hf. destruct Hf as [Hin Hw]. auto.
  - lia.
Qed.

Lemma add_block now u i q a st :
  db_ok st -> available i st = Some a -> 0 < q -> q <= a ->
  exists id,
    (UPDATE_menu_items (set_quantity_available (fun old => int4mi old q) now)
                       (fun mi => Nat.eqb (mi_id mi) i) ;;
     INSERT_INTO_cart_items_ON_CONFLICT now u i (int4pl (line_quantity u i st) q) q) st
    = Ok (id, added now u i q st).
Proof.
  intros Hok Ha Hq Hle.
  destruct (add_in_range st u i q a Hok Ha Hq Hle) as (Hm & Hc & Hl & _).
  unfold bind, int4mi, int4pl.
  rewrite (UPDATE_menu_items_total i (fun old => old - q) (- q) now st) by (auto; intros; lia).
  rewrite (int4_in_range _ Hl).
  destruct (INSERT_total now u i (line_quantity u i st + q) q
              (with_menu_items (map (restock i (- q) now) (menu_items st)) st) Hc)
    as (id & Hid).
  exists id. rewrite Hid. f_equal. f_equal. unfold added, line_quantity. simpl.
  destruct (select_into (cart_key u i) (cart_items st)); reflexivity.
Qed.

Lemma available_find i st a :
  available i st = Some a ->
  exists mi, select_into (fun m => Nat.eqb (mi_id m) i) (menu_items st) = Some mi
             /\ mi_quantity_available mi = a.
Proof.
  unfold available. destruct (select_into _ _) as [mi|]; simpl; intros H; inversion H.
  exists mi. auto.
Qed.

(** C3. On a consistent database, [addItem] with a quantity > 0 by the
    authenticated user: answers "Menu item not found" when the item does not
    exist; answers the insufficient-stock failure carrying the quantity that
    is left when that is less than the request, changing nothing; otherwise
    takes exactly [q] from [quantity_available], creates the user's line with
    quantity [q] or adds [q] to the existing one ([added]), and returns the
    resulting line quantity and the remaining stock. *)
Theorem addItem_spec rev rq u i q st :
  db_ok st -> rq_op rq = addItem u i q -> authenticated rq = true -> 0 < q ->
  match available i st with
  | None => run rev rq st = (Return item_not_found, st)
  | Some a =>
      if a <? q then run rev rq st = (Return (insufficient_stock rev a), st)
      else
        exists j,
          run rev rq st = (Return j, added (rq_now rq) u i q st)
          /\ succeeded (Return j) = true
          /\ json_get "new_quantity" j = Some (JInt (line_quantity u i st + q))
          /\ json_get "remaining_stock" j = Some (JInt (a - q))
          /\ available i (added (rq_now rq) u i q st) = Some (a - q)
          /\ line_quantity u i (added (rq_now rq) u i q st) = line_quantity u i st + q
  end.
Proof.
  intros Hok Hop Hauth Hq.
  unfold authenticated, caller in Hauth. rewrite Hop in Hauth.
  apply negb_true_iff in Hauth.
  destruct (available i st) as [a|] eqn:Ha.
  - destruct (available_find i st a Ha) as (mi & Hf & Hmi).
    destruct (Z.ltb_spec a q) as [Hlt|Hle].
    + unfold run, call, procedure. rewrite Hop.
      destruct rev; simpl.
      * unfold FixOps.add_to_cart_with_quantity_check, bind, query, try, ret, lift.
        rewrite Hf, Hmi. rewrite (proj2 (Z.ltb_lt a q) Hlt). reflexivity.
      * unfold QtyMgmt.add_to_cart_with_quantity_check, bind, query, try, ret, lift.
        rewrite Hauth, Hf. simpl. rewrite Hmi, (proj2 (Z.ltb_lt a q) Hlt). reflexivity.
    + destruct (add_block (rq_now rq) u i q a st Hok Ha Hq Hle) as (id & Hblock).
      destruct (add_in_range st u i q a Hok Ha Hq Hle) as (_ & _ & Hl & Hr).
      unfold bind in Hblock.
      destruct (UPDATE_menu_items _ _ st) as [[[] st1]|e] eqn:H1; [|discriminate].
      assert (Hrest : available i (added (rq_now rq) u i q st) = Some (a - q)
                      /\ line_quantity u i (added (rq_now rq) u i q st)
                         = line_quantity u i st + q).
      { split; [|apply line_quantity_added].
        rewrite available_added, Ha, Nat.eqb_refl. simpl. f_equal; lia. }
      unfold run, call, procedure. rewrite Hop.
      destruct rev; simpl.
      * unfold FixOps.add_to_cart_with_quantity_check, bind, query, try, ret, lift.
        rewrite Hf, Hmi. rewrite (proj2 (Z.ltb_ge a q) Hle). rewrite H1.
        fold (line_quantity u i st). rewrite Hblock.
        unfold int4pl, int4mi. rewrite (int4_in_range _ Hl), (int4_in_range _ Hr).
        eexists. split; [reflexivity|]. simpl. tauto.
      * unfold QtyMgmt.add_to_cart_with_quantity_check, bind, query, try, ret, lift.
        rewrite Hauth, Hf. simpl. rewrite Hmi, (proj2 (Z.ltb_ge a q) Hle). rewrite H1.
        replace (match option_map ci_quantity (select_into (cart_key u i) (cart_items st))
                 with Some q0 => q0 | None => 0 end) with (line_quantity u i st)
          by (unfold line_quantity;
              destruct (select_into (cart_key u i) (cart_items st)); reflexivity).
        rewrite Hblock.
        unfold int4pl, int4mi. rewrite (int4_in_range _ Hl), (int4_in_range _ Hr).
        eexists. split; [reflexivity|]. simpl. tauto.
  - unfold available in Ha.
    destruct (select_into (fun m => Nat.eqb (mi_id m) i) (menu_items st)) as [mi|] eqn:Hf;
      [discriminate|].
    unfold run, call, procedure. rewrite Hop.
    destruct rev; simpl.
    + unfold FixOps.add_to_cart_with_quantity_check, bind, query, try, ret, lift.
      rewrite Hf. reflexivity.
    + unfold QtyMgmt.add_to_cart_with_quantity_check, bind, query, try, ret, lift.
      rewrite Hauth, Hf. reflexivity.
Qed.

(** ** setQuantity *)

Lemma filter_no_match {R} (w : R -> bool) l :
  (forall x, In x l -> w x = false) -> filter w l = [].
Proof.
  induction l as [|x l IH]; simpl; intros H; [reflexivity|].
  rewrite (H x) by auto. apply IH. intros; apply H; auto.
Qed.

Lemma filter_at_row {R} (w : R -> bool) l1 l2 c :
  w c = true ->
  (forall x, In x l1 -> w x = false) ->
  (forall x, In x l2 -> w x = false) ->
  filter w (l1 ++ c :: l2) = [c].
Proof.
  intros Hc H1 H2. rewrite filter_app. simpl.
  rewrite Hc, (filter_no_match w l1 H1), (filter_no_match w l2 H2). reflexivity.
Qed.

Lemma select_owned c u line st :
  db_keys st -> In line (cart_items st) -> cart_owned c u line = true ->
  select_into (cart_owned c u) (cart_items st) = Some line
  /\ filter (cart_owned c u) (cart_items st) = [line].
Proof.
  intros Hk Hin Hw.
  destruct (owned_row c u line _ (keys_cart_pk st Hk) Hin Hw) as (l1 & l2 & -> & H1 & H2).
  split.
  - apply find_at_row; assumption.
  - apply filter_at_row; assumption.
Qed.

Lemma line_available line st :
  db_keys st -> In line (cart_items st) ->
  exists mi, select_into (fun m => Nat.eqb (mi_id m) (ci_menu_item_id line)) (menu_items st)
             = Some mi
             /\ available (ci_menu_item_id line) st = Some (mi_quantity_available mi).
Proof.
  intros Hk Hin. pose proof (keys_cart_fk st Hk) as Hfk. rewrite Forall_forall in Hfk.
  specialize (Hfk line Hin). unfold available in *.
  destruct (select_into _ (menu_items st)) as [mi|]; [|contradiction Hfk; reflexivity].
  exists mi. auto.
Qed.

Lemma join_owned c u line mi st :
  db_keys st -> In line (cart_items st) -> cart_owned c u line = true ->
  select_into (fun m => Nat.eqb (mi_id m) (ci_menu_item_id line)) (menu_items st) = Some mi ->
  cart_join_menu (cart_owned c u) st = [(line, mi)].
Proof.
  intros Hk Hin Hw Hf. unfold cart_join_menu.
  destruct (select_owned c u line st Hk Hin Hw) as [_ ->]. simpl.
  rewrite (menu_row _ _ _ (keys_menu_pk st Hk) Hf). reflexivity.
Qed.

Lemma UPDATE_cart_items_total now w n st :
  UPDATE_cart_items (set_quantity (fun _ => Ok n) now) w st
  = Ok (tt, with_cart_items (map (requantify w (fun _ => n) now) (cart_items st)) st).
Proof.
  unfold UPDATE_cart_items.
  rewrite (update_rows_total _ _ (requantify w (fun _ => n) now)).
  - f_equal. f_equal. f_equal. apply map_ext. intros ci. unfold requantify.
    destruct (w ci); reflexivity.
  - intros ci _ Hw. unfold set_quantity, requantify. rewrite Hw. reflexivity.
Qed.

Lemma restock_in_range st i a delta :
  db_keys st -> available i st = Some a -> int4_min <= a + delta <= int4_max ->
  forall mi, In mi (menu_items st) -> Nat.eqb (mi_id mi) i = true ->
             int4_min <= mi_quantity_available mi + delta <= int4_max.
Proof.
  intros Hk Ha Hr mi Hin Hi.
  rewrite (available_of_id st i mi (keys_menu_pk st Hk) Hin Hi) in Ha.
  inversion Ha; subst. assumption.
Qed.

(** C4 (as amended). On a consistent database, [setQuantity] with a target
    [n] > 0 on a line of the caller computes [diff = n - quantity]; when
    [diff > 0] exceeds the stock it answers the insufficient-stock failure
    carrying what is left and changes nothing; otherwise the line holds [n],
    [quantity_available] changes by [- diff], and the response reports the new
    quantity and the remaining stock; the old quantity is reported by the
    [QtyMgmt] revision. *)
Theorem setQuantity_spec rev rq u c n line st :
  db_ok st -> rq_op rq = setQuantity u c n -> authenticated rq = true ->
  In line (cart_items st) -> cart_owned c u line = true ->
  0 < n <= int4_max ->
  exists a,
    available (ci_menu_item_id line) st = Some a
    /\ if (0 <? n - ci_quantity line) && (a <? n - ci_quantity line)
       then run rev rq st = (Return (insufficient_increase rev a), st)
       else
         exists j,
           run rev rq st = (Return j, quantity_set (rq_now rq) u c n line st)
           /\ succeeded (Return j) = true
           /\ json_get "new_quantity" j = Some (JInt n)
           /\ json_get "remaining_stock" j = Some (JInt (a - (n - ci_quantity line)))
           /\ (rev = Mgmt -> json_get "old_quantity" j = Some (JInt (ci_quantity line)))
           /\ available (ci_menu_item_id line) (quantity_set (rq_now rq) u c n line st)
              = Some (a - (n - ci_quantity line))
           /\ select_into (cart_owned c u)
                          (cart_items (quantity_set (rq_now rq) u c n line st))
              = Some (mk_cart_item (ci_id line) (ci_user_id line) (ci_menu_item_id line)
                                   n (rq_now rq)).
Proof.
  intros Hok Hop Hauth Hin Hw Hn. pose proof (ok_keys st Hok) as Hk.
  unfold authenticated, caller in Hauth. rewrite Hop in Hauth.
  apply negb_true_iff in Hauth.
  destruct (line_available line st Hk Hin) as (mi & Hf & Ha).
  set (a := mi_quantity_available mi) in *. exists a. split; [exact Ha|].
  destruct (select_owned c u line st Hk Hin Hw) as [Hsel _].
  destruct (line_in_range st line a Hok Hin Ha) as [Hq Hcap].
  pose proof (ok_stock st Hok _ a Ha) as Ha0.
  destruct int4_bounds as [Hmin Hmax].
  assert (Hd : int4_min <= n - ci_quantity line <= int4_max) by lia.
  destruct ((0 <? n - ci_quantity line) && (a <? n - ci_quantity line)) eqn:Hchk.
  - unfold run, call, procedure. rewrite Hop. destruct rev; simpl.
    + unfold FixOps.update_cart_quantity_with_stock_check, bind, query, try, ret, lift.
      rewrite (join_owned c u line mi st Hk Hin Hw Hf). simpl.
      unfold int4mi. rewrite (int4_in_range _ Hd). fold a. rewrite Hchk. reflexivity.
    + unfold QtyMgmt.update_cart_quantity_with_stock_check, bind, query, try, ret, lift.
      rewrite Hauth. rewrite (proj2 (Z.leb_gt n 0)) by lia. rewrite Hsel, Hf. simpl.
      unfold int4mi. rewrite (int4_in_range _ Hd). fold a. rewrite Hchk. reflexivity.
  - assert (Hr : int4_min <= a + (ci_quantity line - n) <= int4_max).
    { apply andb_false_iff in Hchk. destruct Hchk as [H0|H0]; apply Z.ltb_ge in H0; lia. }
    assert (Hr' : int4_min <= a - (n - ci_quantity line) <= int4_max) by lia.
    pose proof (restock_in_range st _ a _ Hk Ha Hr) as Hrows.
    assert (Hafter :
              available (ci_menu_item_id line) (quantity_set (rq_now rq) u c n line st)
              = Some (a - (n - ci_quantity line))
              /\ select_into (cart_owned c u)
                             (cart_items (quantity_set (rq_now rq) u c n line st))
                 = Some (mk_cart_item (ci_id line) (ci_user_id line)
                                      (ci_menu_item_id line) n (rq_now rq))).
    { split.
      - unfold quantity_set. erewrite available_restock by reflexivity.
        rewrite Ha, Nat.eqb_refl. simpl. f_equal; lia.
      - simpl.
        destruct (owned_row c u line _ (keys_cart_pk st Hk) Hin Hw)
          as (l1 & l2 & -> & H1 & H2).
        unfold requantify. rewrite (map_at_row _ _ l1 l2 line Hw H1 H2).
        apply find_at_row; [|assumption].
        unfold cart_owned in *. simpl. exact Hw. }
    unfold run, call, procedure. rewrite Hop. destruct rev; simpl.
    + unfold FixOps.update_cart_quantity_with_stock_check, bind, query, try, ret, lift.
      rewrite (join_owned c u line mi st Hk Hin Hw Hf). simpl.
      unfold int4mi. rewrite (int4_in_range _ Hd). fold a. rewrite Hchk.
      rewrite (proj2 (Z.leb_gt n 0)) by lia.
      rewrite UPDATE_cart_items_total.
      rewrite (UPDATE_menu_items_total _ (fun old => old - (n - ci_quantity line))
                 (ci_quantity line - n)) by (auto; intros; lia).
      rewrite (int4_in_range _ Hr').
      eexists. split; [reflexivity|]. simpl.
      repeat split; try tauto. discriminate.
    + unfold QtyMgmt.update_cart_quantity_with_stock_check, bind, query, try, ret, lift.
      rewrite Hauth. rewrite (proj2 (Z.leb_gt n 0)) by lia. rewrite Hsel, Hf. simpl.
      unfold int4mi. rewrite (int4_in_range _ Hd). fold a. rewrite Hchk.
      rewrite (UPDATE_menu_items_total _ (fun old => old - (n - ci_quantity line))
                 (ci_quantity line - n)) by (auto; intros; lia).
      rewrite UPDATE_cart_items_total.
      rewrite (int4_in_range _ Hr'). simpl.
      eexists. split; [reflexivity|]. simpl.
      repeat split; try tauto.
Qed.

(** ** setQuantity with a target <= 0, and removeItem *)

Lemma removeItem_spec rev rq u c line st :
  db_ok st -> rq_op rq = removeItem u c -> authenticated rq = true ->
  In line (cart_items st) -> cart_owned c u line = true ->
  exists j, run rev rq st = (Return j, removed (rq_now rq) u c line st)
            /\ succeeded (Return j) = true
            /\ json_get "restored_quantity" j = Some (JInt (ci_quantity line)).
Proof.
  intros Hok Hop Hauth Hin Hw. pose proof (ok_keys st Hok) as Hk.
  unfold authenticated, caller in Hauth. rewrite Hop in Hauth.
  apply negb_true_iff in Hauth.
  destruct (line_available line st Hk Hin) as (mi & Hf & Ha).
  destruct (select_owned c u line st Hk Hin Hw) as [Hsel _].
  destruct (line_in_range st line _ Hok Hin Ha) as [Hq Hcap].
  pose proof (ok_stock st Hok _ _ Ha) as Ha0.
  destruct int4_bounds as [Hmin Hmax].
  assert (Hr : int4_min <= mi_quantity_available mi + ci_quantity line <= int4_max) by lia.
  pose proof (restock_in_range st _ _ _ Hk Ha Hr) as Hrows.
  unfold run, call, procedure. rewrite Hop. destruct rev; simpl.
  - unfold FixOps.remove_from_cart_with_quantity_restore, bind, query, try, ret, lift.
    rewrite (join_owned c u line mi st Hk Hin Hw Hf). simpl.
    unfold DELETE_FROM_cart_items, int4pl.
    rewrite (UPDATE_menu_items_total _ (fun old => old + ci_quantity line)
               (ci_quantity line)) by auto.
    eexists. split; [reflexivity|]. simpl. tauto.
  - unfold QtyMgmt.remove_from_cart_with_quantity_restore, bind, query, try, ret, lift.
    rewrite Hauth, Hsel. unfold int4pl.
    rewrite (UPDATE_menu_items_total _ (fun old => old + ci_quantity line)
               (ci_quantity line)) by auto.
    unfold DELETE_FROM_cart_items.
    eexists. split; [reflexivity|]. simpl. tauto.
Qed.

(** In [QtyMgmt] a target <= 0 is handed to the removal procedure: the two
    calls give the same response and the same database, whatever the state. *)
Lemma QtyMgmt_setQuantity_nonpositive auth now u c n st :
  n <= 0 ->
  run Mgmt (mk_request auth now (setQuantity u c n)) st
  = run Mgmt (mk_request auth now (removeItem u c)) st.
Proof.
  intros Hn. unfold run, call, procedure. simpl.
  unfold QtyMgmt.update_cart_quantity_with_stock_check.
  unfold try at 1. unfold QtyMgmt.database_error at 1.
  destruct (QtyMgmt.unauthorized auth u) eqn:Hauth.
  - unfold QtyMgmt.remove_from_cart_with_quantity_restore, try. rewrite Hauth. reflexivity.
  - rewrite (proj2 (Z.leb_le n 0) Hn).
    destruct (QtyMgmt.remove_from_cart_with_quantity_restore auth now u c st)
      as [[j st']|e] eqn:Hr; [reflexivity|].
    exfalso. revert Hr.
    unfold QtyMgmt.remove_from_cart_with_quantity_restore, try, QtyMgmt.database_error, ret.
    destruct (_ st); discriminate.
Qed.

(** In [FixOps] the difference is computed first; when it fits in an
    [integer] the line is removed as [removeItem] removes it. *)
Lemma FixOps_setQuantity_nonpositive auth now u c n line st :
  db_ok st -> In line (cart_items st) -> cart_owned c u line = true ->
  n <= 0 -> int4_min <= n - ci_quantity line ->
  snd (run Fix (mk_request auth now (setQuantity u c n)) st) = removed now u c line st
  /\ snd (run Fix (mk_request auth now (removeItem u c)) st) = removed now u c line st.
Proof.
  intros Hok Hin Hw Hn Hd. split.
  - pose proof (ok_keys st Hok) as Hk.
    destruct (line_available line st Hk Hin) as (mi & Hf & Ha).
    destruct (line_in_range st line _ Hok Hin Ha) as [Hq Hcap].
    pose proof (ok_stock st Hok _ _ Ha) as Ha0.
    destruct int4_bounds as [Hmin Hmax].
    assert (Hr : int4_min <= mi_quantity_available mi + ci_quantity line <= int4_max) by lia.
    pose proof (restock_in_range st _ _ _ Hk Ha Hr) as Hrows.
    unfold run, call, procedure. simpl.
    unfold FixOps.update_cart_quantity_with_stock_check, bind, query, try, ret, lift.
    rewrite (join_owned c u line mi st Hk Hin Hw Hf). simpl.
    unfold int4mi. rewrite int4_in_range by lia.
    rewrite (proj2 (Z.ltb_ge 0 (n - ci_quantity line))) by lia. simpl.
    rewrite (proj2 (Z.leb_le n 0) Hn).
    unfold DELETE_FROM_cart_items, int4pl.
    rewrite (UPDATE_menu_items_total _ (fun old => old + ci_quantity line)
               (ci_quantity line)) by auto.
    reflexivity.
  - destruct (removeItem_spec Fix (mk_request None now (removeItem u c)) u c line st
                Hok eq_refl eq_refl Hin Hw) as (j & Hrun & _).
    change (run Fix (mk_request auth now (removeItem u c)) st)
      with (run Fix (mk_request None now (removeItem u c)) st).
    rewrite Hrun. reflexivity.
Qed.

(** ** checkout *)

(** C6. [checkout] answers "Cart is empty" and changes nothing when the
    user has no cart line; otherwise it adds exactly one order, [pending] /
    [pending], whose total is the sum of quantity times current menu price
    over the user's lines, adds one order line per cart line with that
    quantity and that price, deletes the user's cart lines and returns the
    new order's id and the total. *)
Theorem checkout_spec rev rq u st :
  db_keys st -> rq_op rq = checkout u -> authenticated rq = true ->
  let lines := filter (cart_of_user u) (cart_items st) in
  let total :=
    sumZ (map (fun ci => ci_quantity ci * menu_price (ci_menu_item_id ci) st) lines) in
  match lines with
  | [] => run rev rq st = (Return empty_cart, st)
  | _ :: _ =>
      exists j,
        run rev rq st = (Return j, checked_out u st)
        /\ succeeded (Return j) = true
        /\ json_get "order_id" j = Some (JUuid (next_uuid st))
        /\ json_get "total_amount" j = Some (JInt total)
        /\ orders (checked_out u st)
           = orders st ++ [mk_order (next_uuid st) u total "pending" "pending"]
        /\ order_items (checked_out u st)
           = order_items st
             ++ map (fun ci => mk_order_item (next_uuid st) (ci_menu_item_id ci)
                                             (ci_quantity ci)
                                             (menu_price (ci_menu_item_id ci) st))
                    lines
        /\ cart_items (checked_out u st) = delete_rows (cart_of_user u) (cart_items st)
        /\ filter (cart_of_user u) (cart_items (checked_out u st)) = []
  end.
Proof.
  intros Hk Hop Hauth lines total.
  unfold authenticated, caller in Hauth. rewrite Hop in Hauth.
  apply negb_true_iff in Hauth.
  assert (Htotal : cart_total u st = total).
  { apply cart_total_lines; [apply (keys_menu_pk st Hk)|apply (keys_cart_fk st Hk)]. }
  destruct lines as [|l0 ls] eqn:Hlines; subst lines.
  - unfold run, call, procedure. rewrite Hop. destruct rev; simpl.
    + unfold FixOps.place_order_with_cart_clear, bind, query, try, ret, lift.
      rewrite Hlines. reflexivity.
    + unfold QtyMgmt.place_order_with_cart_clear, bind, query, try, ret, lift.
      rewrite Hauth.
      destruct (existsb (cart_of_user u) (cart_items st)) eqn:Hex; [|reflexivity].
      apply existsb_cart_of_user in Hex. contradiction.
  - assert (Hst : orders (checked_out u st)
                  = orders st ++ [mk_order (next_uuid st) u total "pending" "pending"]
                  /\ order_items (checked_out u st)
                     = order_items st
                       ++ map (fun ci => mk_order_item (next_uuid st) (ci_menu_item_id ci)
                                                       (ci_quantity ci)
                                                       (menu_price (ci_menu_item_id ci) st))
                              (l0 :: ls)
                  /\ cart_items (checked_out u st)
                     = delete_rows (cart_of_user u) (cart_items st)
                  /\ filter (cart_of_user u) (cart_items (checked_out u st)) = []).
    { split; [|split; [|split]].
      - unfold checked_out. simpl. rewrite Htotal. reflexivity.
      - rewrite <- Hlines.
        apply checked_out_order_items;
          [apply (keys_menu_pk st Hk)|apply (keys_cart_fk st Hk)].
      - reflexivity.
      - simpl. unfold delete_rows. apply filter_no_match.
        intros x Hx. apply filter_In in Hx. destruct Hx as [_ Hx].
        apply negb_true_iff in Hx. exact Hx. }
    unfold run, call, procedure. rewrite Hop. destruct rev; simpl.
    + unfold FixOps.place_order_with_cart_clear, bind, query, try, ret, lift.
      rewrite Hlines. simpl List.length.
      destruct (Z.eqb_spec (Z.of_nat (S (List.length ls))) 0) as [Hz|_]; [lia|].
      unfold INSERT_INTO_orders, INSERT_INTO_order_items, DELETE_FROM_cart_items. simpl.
      eexists. split; [reflexivity|]. simpl. rewrite Htotal. tauto.
    + unfold QtyMgmt.place_order_with_cart_clear, bind, query, try, ret, lift.
      rewrite Hauth.
      assert (Hex : existsb (cart_of_user u) (cart_items st) = true).
      { apply existsb_cart_of_user. rewrite Hlines. discriminate. }
      rewrite Hex. simpl.
      unfold INSERT_INTO_orders, INSERT_INTO_order_items, DELETE_FROM_cart_items. simpl.
      eexists. split; [reflexivity|]. simpl. rewrite Htotal. tauto.
Qed.

(** C7. [checkout], whether it succeeds or fails, leaves the [menu_items]
    table, hence every [quantity_available], as it was. *)
Theorem checkout_keeps_stock rev auth now u st :
  menu_items (snd (run rev (mk_request auth now (checkout u)) st)) = menu_items st.
Proof.
  pose proof (run_effect rev (mk_request auth now (checkout u)) st) as H.
  destruct (succeeded (fst (run rev (mk_request auth now (checkout u)) st))).
  - inversion H as [? ? ? ? Hop|? ? ? ? Hop|? ? ? ? Hop|? ? ? Hop|u' Hop Hex Heq];
      simpl in Hop; try discriminate.
    reflexivity.
  - rewrite H. reflexivity.
Qed.

(** ** Failures change nothing *)

(** C8. Whenever one of the four operations does not succeed (a structured
    failure, a caught error, or an error that leaves the procedure) the whole
    database is exactly as before the call. *)
Theorem failure_atomicity rev rq st :
  succeeded (fst (run rev rq st)) = false -> snd (run rev rq st) = st.
Proof.
  intros Hf. pose proof (run_effect rev rq st) as H. rewrite Hf in H. exact H.
Qed.

(** ** Ownership *)

Lemma not_owned c u line l :
  NoDup (map ci_id l) -> In line l -> ci_id line = c -> ci_user_id line <> u ->
  forall x, In x l -> cart_owned c u x = false.
Proof.
  intros Hnd Hin Hc Hu x Hx. destruct (cart_owned c u x) eqn:Hw; [|reflexivity].
  exfalso. apply cart_owned_id in Hw. destruct Hw as [Hxc Hxu].
  destruct (in_split line l Hin) as (l1 & l2 & ->).
  rewrite map_app in Hnd. simpl in Hnd. apply NoDup_remove_2 in Hnd.
  apply in_app_or in Hx. destruct Hx as [Hx|[Hx|Hx]].
  - apply Hnd. apply in_or_app. left. rewrite Hc, <- Hxc. apply in_map. assumption.
  - subst x. contradiction.
  - apply Hnd. apply in_or_app. right. rewrite Hc, <- Hxc. apply in_map. assumption.
Qed.

(** C9. [removeItem] and [setQuantity] on a cart line that belongs to
    another user answer "Cart item not found" (or "Unauthorized access" when
    the session is not the supplied user, in [QtyMgmt]) and change nothing. *)
Theorem ownership_isolation rev rq u c line st :
  NoDup (map ci_id (cart_items st)) ->
  In line (cart_items st) -> ci_id line = c -> ci_user_id line <> u ->
  (rq_op rq = removeItem u c \/ exists n, rq_op rq = setQuantity u c n) ->
  run rev rq st
  = (Return (if authenticated rq then cart_item_not_found
             else match rev with
                  | Fix => cart_item_not_found
                  | Mgmt => unauthorized_access
                  end), st).
Proof.
  intros Hnd Hin Hc Hu Hop.
  pose proof (not_owned c u line _ Hnd Hin Hc Hu) as Hno.
  assert (Hsel : select_into (cart_owned c u) (cart_items st) = None)
    by (apply find_no_match; assumption).
  assert (Hjoin : cart_join_menu (cart_owned c u) st = []).
  { unfold cart_join_menu. rewrite (filter_no_match _ _ Hno). reflexivity. }
  assert (Hcaller : caller rq = u) by (unfold caller; destruct Hop as [->|[n ->]]; reflexivity).
  unfold authenticated. rewrite Hcaller.
  unfold run, call, procedure.
  destruct Hop as [Hop|[n Hop]]; rewrite Hop; destruct rev; simpl.
  - unfold FixOps.remove_from_cart_with_quantity_restore, bind, query, try, ret, lift.
    rewrite Hjoin. simpl. destruct (negb _); reflexivity.
  - unfold QtyMgmt.remove_from_cart_with_quantity_restore, bind, query, try, ret, lift.
    destruct (QtyMgmt.unauthorized (rq_auth_uid rq) u); simpl; [reflexivity|].
    rewrite Hsel. reflexivity.
  - unfold FixOps.update_cart_quantity_with_stock_check, bind, query, try, ret, lift.
    rewrite Hjoin. simpl. destruct (negb _); reflexivity.
  - unfold QtyMgmt.update_cart_quantity_with_stock_check,
      QtyMgmt.remove_from_cart_with_quantity_restore, bind, query, try, ret, lift.
    destruct (QtyMgmt.unauthorized (rq_auth_uid rq) u); simpl; [reflexivity|].
    destruct (n <=? 0); rewrite Hsel; reflexivity.
Qed.

(** ** The invariants over runs *)

(** C1. Conservation: from a database with no cart line and no order line,
    after any sequence of completed [addItem], [setQuantity], [removeItem]
    and [checkout] calls, every menu item satisfies
    available + reserved in carts + sold in non-cancelled orders
    = its initial stock. *)
Theorem conservation_invariant rev rqs st0 i stock :
  initial st0 ->
  available i st0 = Some stock ->
  exists a,
    available i (run_all rev rqs st0) = Some a
    /\ a + reserved i (run_all rev rqs st0) + sold i (run_all rev rqs st0) = stock.
Proof.
  intros Hinit Hi.
  destruct (run_all_conserves rev rqs st0 i stock (initial_db_keys st0 Hinit) Hi)
    as (a & Ha & Heq).
  exists a. split; [exact Ha|]. rewrite Heq.
  destruct Hinit as (Hc & Ho & _). unfold reserved, sold. rewrite Hc, Ho.
  unfold reserved_in, sold_in. simpl. lia.
Qed.

Lemma conservation_invariant_witness :
  exists a,
    available item_x (run_all Fix scenario stocked) = Some a
    /\ a + reserved item_x (run_all Fix scenario stocked)
       + sold item_x (run_all Fix scenario stocked) = 5.
Proof.
  apply (conservation_invariant Fix scenario stocked item_x 5).
  - unfold initial, stocked. simpl.
    repeat split; repeat constructor. simpl. tauto.
  - reflexivity.
Defined.

Lemma addItem_insufficient rev rq u i q a st :
  rq_op rq = addItem u i q -> authenticated rq = true ->
  available i st = Some a -> a < q ->
  run rev rq st = (Return (insufficient_stock rev a), st).
Proof.
  intros Hop Hauth Ha Hlt.
  unfold authenticated, caller in Hauth. rewrite Hop in Hauth.
  apply negb_true_iff in Hauth.
  destruct (available_find i st a Ha) as (mi & Hf & Hmi).
  unfold run, call, procedure. rewrite Hop. destruct rev; simpl.
  - unfold FixOps.add_to_cart_with_quantity_check, bind, query, try, ret, lift.
    rewrite Hf, Hmi. rewrite (proj2 (Z.ltb_lt a q) Hlt). reflexivity.
  - unfold QtyMgmt.add_to_cart_with_quantity_check, bind, query, try, ret, lift.
    rewrite Hauth, Hf. simpl. rewrite Hmi, (proj2 (Z.ltb_lt a q) Hlt). reflexivity.
Qed.







(** C10. Cart-line positivity: when every stored cart line has a quantity
    > 0, it is still so after any sequence of calls made through the
    interface ([addItem] with a quantity > 0, [setQuantity] with any
    integer, [removeItem], [checkout]). *)
Theorem cart_line_positivity rev rqs st :
  Forall (fun ci => 0 < ci_quantity ci) (cart_items st) ->
  Forall (fun rq => valid_input (rq_op rq) = true) rqs ->
  Forall (fun ci => 0 < ci_quantity ci) (cart_items (run_all rev rqs st)).
Proof.
  intros Hpos Hv. apply run_all_cart_positive; assumption.
Qed.

Lemma cart_line_positivity_witness :
  Forall (fun ci => 0 < ci_quantity ci)
         (cart_items (run_all Fix
                        [as_user user_a (setQuantity user_a line_a (-4));
                         as_user user_b (addItem user_b item_x 2);
                         as_user user_b (setQuantity user_b (S line_a) 1)]
                        reserved_by_a)).
Proof.
  apply cart_line_positivity.
  - repeat constructor.
  - repeat constructor.
Defined.

(** ** The scenario, evaluated *)

Lemma addItem_spec_witness :
  exists j,
    run Fix (as_user user_a (addItem user_a item_x 3)) stocked
    = (Return j, added 7 user_a item_x 3 stocked)
    /\ succeeded (Return j) = true
    /\ json_get "new_quantity" j = Some (JInt (line_quantity user_a item_x stocked + 3))
    /\ json_get "remaining_stock" j = Some (JInt (5 - 3))
    /\ available item_x (added 7 user_a item_x 3 stocked) = Some (5 - 3)
    /\ line_quantity user_a item_x (added 7 user_a item_x 3 stocked)
       = line_quantity user_a item_x stocked + 3.
Proof.
  apply (addItem_spec Fix (as_user user_a (addItem user_a item_x 3))
           user_a item_x 3 stocked).
  - apply db_okb_sound. reflexivity.
  - reflexivity.
  - reflexivity.
  - lia.
Defined.

Lemma setQuantity_spec_witness :
  exists a,
    available item_x reserved_by_a = Some a
    /\ exists j,
         run Mgmt (as_user user_a (setQuantity user_a line_a 5)) reserved_by_a
         = (Return j,
            quantity_set 7 user_a line_a 5 (mk_cart_item line_a user_a item_x 3 7)
                         reserved_by_a)
         /\ succeeded (Return j) = true
         /\ json_get "new_quantity" j = Some (JInt 5)
         /\ json_get "remaining_stock" j = Some (JInt (a - (5 - 3)))
         /\ (Mgmt = Mgmt -> json_get "old_quantity" j = Some (JInt 3))
         /\ available item_x
              (quantity_set 7 user_a line_a 5 (mk_cart_item line_a user_a item_x 3 7)
                            reserved_by_a)
            = Some (a - (5 - 3))
         /\ select_into (cart_owned line_a user_a)
              (cart_items
                 (quantity_set 7 user_a line_a 5 (mk_cart_item line_a user_a item_x 3 7)
                               reserved_by_a))
            = Some (mk_cart_item line_a user_a item_x 5 7).
Proof.
  destruct (setQuantity_spec Mgmt (as_user user_a (setQuantity user_a line_a 5))
              user_a line_a 5 (mk_cart_item line_a user_a item_x 3 7) reserved_by_a)
    as (a & Ha & H).
  - apply db_okb_sound. reflexivity.
  - reflexivity.
  - reflexivity.
  - simpl. auto.
  - reflexivity.
  - unfold int4_max. lia.
  - exists a. split; [exact Ha|]. simpl in Ha. inversion Ha; subst a. exact H.
Defined.

(** C4, as stated, fails on [FixOps]: raising the line of the scenario from
    3 to 5 succeeds, and the response has no [old_quantity] field nor any
    field holding the old quantity 3. *)
Lemma setQuantity_old_quantity_counterexample :
  run_all Fix [as_user user_a (addItem user_a item_x 3)] stocked = reserved_by_a
  /\ line_quantity user_a item_x reserved_by_a = 3
  /\ exists j st',
       run Fix (as_user user_a (setQuantity user_a line_a 5)) reserved_by_a
       = (Return j, st')
       /\ succeeded (Return j) = true
       /\ json_get "old_quantity" j = None
       /\ ~ In (JInt 3) (map snd j).
Proof.
  split; [reflexivity|]. split; [reflexivity|].
  eexists. eexists. split; [reflexivity|].
  simpl. repeat split.
  intros [H|[H|[H|[H|[]]]]]; discriminate.
Qed.

(** C5 at its failing input. In [FixOps] the difference
    [p_new_quantity - v_current_quantity] is computed before the branch on
    [p_new_quantity <= 0], outside every [EXCEPTION] block: with the smallest
    [integer] as target it is out of range, the procedure raises and the
    line stays, whereas [removeItem] deletes it.  The database is the
    consistent one the first call of the scenario leaves. *)
Theorem setQuantity_min_integer_keeps_line :
  run_all Fix [as_user user_a (addItem user_a item_x 3)] stocked = reserved_by_a
  /\ db_ok reserved_by_a
  /\ run Fix (as_user user_a (setQuantity user_a line_a int4_min)) reserved_by_a
     = (Raise "integer out of range", reserved_by_a)
  /\ cart_items (snd (run Fix (as_user user_a (removeItem user_a line_a)) reserved_by_a))
     = []
  /\ snd (run Fix (as_user user_a (setQuantity user_a line_a int4_min)) reserved_by_a)
     <> snd (run Fix (as_user user_a (removeItem user_a line_a)) reserved_by_a).
Proof.
  split; [reflexivity|]. split; [apply db_okb_sound; reflexivity|].
  split; [reflexivity|]. split; [reflexivity|]. intros H.
  apply (f_equal cart_items) in H. discriminate.
Qed.

Lemma checkout_spec_witness :
  exists j,
    run Fix (as_user user_a (checkout user_a)) reserved_by_a
    = (Return j, checked_out user_a reserved_by_a)
    /\ succeeded (Return j) = true
    /\ json_get "order_id" j = Some (JUuid (S line_a))
    /\ json_get "total_amount" j = Some (JInt 12000)
    /\ orders (checked_out user_a reserved_by_a)
       = [mk_order (S line_a) user_a 12000 "pending" "pending"]
    /\ order_items (checked_out user_a reserved_by_a)
       = [mk_order_item (S line_a) item_x 3 4000]
    /\ cart_items (checked_out user_a reserved_by_a)
       = delete_rows (cart_of_user user_a) (cart_items reserved_by_a)
    /\ filter (cart_of_user user_a) (cart_items (checked_out user_a reserved_by_a)) = [].
Proof.
  apply (checkout_spec Fix (as_user user_a (checkout user_a)) user_a reserved_by_a).
  - apply db_keysb_sound. reflexivity.
  - reflexivity.
  - reflexivity.
Defined.

Lemma failure_atomicity_witness :
  snd (run Fix (as_user user_b (addItem user_b item_x 3)) reserved_by_a) = reserved_by_a.
Proof.
  apply failure_atomicity. reflexivity.
Defined.

Lemma ownership_isolation_witness :
  run Mgmt (as_user user_b (removeItem user_b line_a)) reserved_by_a
  = (Return cart_item_not_found, reserved_by_a).
Proof.
  apply (ownership_isolation Mgmt (as_user user_b (removeItem user_b line_a))
           user_b line_a (mk_cart_item line_a user_a item_x 3 7) reserved_by_a).
  - simpl. repeat constructor. simpl. tauto.
  - simpl. auto.
  - reflexivity.
  - simpl. unfold user_a, user_b. lia.
  - left. reflexivity.
Defined.

(** * Further properties of the two revisions *)

(** ** What each call does to the database, response aside *)

Lemma authenticated_caller rq u :
  caller rq = u -> authenticated rq = true ->
  QtyMgmt.unauthorized (rq_auth_uid rq) u = false.
Proof.
  intros <- H. unfold authenticated in H. apply negb_true_iff in H. exact H.
Qed.

Lemma addItem_missing rev rq u i q st :
  rq_op rq = addItem u i q -> authenticated rq = true ->
  available i st = None ->
  run rev rq st = (Return item_not_found, st).
Proof.
  intros Hop Hauth Ha.
  assert (Hu : QtyMgmt.unauthorized (rq_auth_uid rq) u = false)
    by (apply authenticated_caller; [unfold caller; rewrite Hop; reflexivity|assumption]).
  unfold available in Ha.
  destruct (select_into (fun m => Nat.eqb (mi_id m) i) (menu_items st)) as [mi|] eqn:Hf;
    [discriminate|].
  unfold run, call, procedure. rewrite Hop. destruct rev; simpl.
  - unfold FixOps.add_to_cart_with_quantity_check, bind, query, try, ret, lift.
    rewrite Hf. reflexivity.
  - unfold QtyMgmt.add_to_cart_with_quantity_check, bind, query, try, ret, lift.
    rewrite Hu, Hf. reflexivity.
Qed.

Lemma addItem_run rev rq u i q a st :
  db_ok st -> rq_op rq = addItem u i q -> authenticated rq = true ->
  0 < q -> available i st = Some a -> q <= a ->
  exists j, run rev rq st = (Return j, added (rq_now rq) u i q st)
            /\ succeeded (Return j) = true.
Proof.
  intros Hok Hop Hauth Hq Ha Hle.
  assert (Hu : QtyMgmt.unauthorized (rq_auth_uid rq) u = false)
    by (apply authenticated_caller; [unfold caller; rewrite Hop; reflexivity|assumption]).
  destruct (available_find i st a Ha) as (mi & Hf & Hmi).
  destruct (add_block (rq_now rq) u i q a st Hok Ha Hq Hle) as (id & Hblock).
  destruct (add_in_range st u i q a Hok Ha Hq Hle) as (_ & _ & Hl & Hr).
  unfold bind in Hblock.
  destruct (UPDATE_menu_items _ _ st) as [[[] st1]|e] eqn:H1; [|discriminate].
  unfold run, call, procedure. rewrite Hop. destruct rev; simpl.
  - unfold FixOps.add_to_cart_with_quantity_check, bind, query, try, ret, lift.
    rewrite Hf, Hmi. rewrite (proj2 (Z.ltb_ge a q) Hle). rewrite H1.
    fold (line_quantity u i st). rewrite Hblock.
    unfold int4pl, int4mi. rewrite (int4_in_range _ Hl), (int4_in_range _ Hr).
    eexists. split; reflexivity.
  - unfold QtyMgmt.add_to_cart_with_quantity_check, bind, query, try, ret, lift.
    rewrite Hu, Hf. simpl. rewrite Hmi, (proj2 (Z.ltb_ge a q) Hle). rewrite H1.
    replace (match option_map ci_quantity (select_into (cart_key u i) (cart_items st))
             with Some q0 => q0 | None => 0 end) with (line_quantity u i st)
      by (unfold line_quantity;
          destruct (select_into (cart_key u i) (cart_items st)); reflexivity).
    rewrite Hblock.
    unfold int4pl, int4mi. rewrite (int4_in_range _ Hl), (int4_in_range _ Hr).
    eexists. split; reflexivity.
Qed.

Lemma setQuantity_run rev rq u c n line a st :
  db_ok st -> rq_op rq = setQuantity u c n -> authenticated rq = true ->
  In line (cart_items st) -> cart_owned c u line = true ->
  0 < n <= int4_max ->
  available (ci_menu_item_id line) st = Some a ->
  if (0 <? n - ci_quantity line) && (a <? n - ci_quantity line)
  then run rev rq st = (Return (insufficient_increase rev a), st)
  else exists j,
         run rev rq st = (Return j, quantity_set (rq_now rq) u c n line st)
         /\ succeeded (Return j) = true.
Proof.
  intros Hok Hop Hauth Hin Hw Hn Ha'. pose proof (ok_keys st Hok) as Hk.
  assert (Hu : QtyMgmt.unauthorized (rq_auth_uid rq) u = false)
    by (apply authenticated_caller; [unfold caller; rewrite Hop; reflexivity|assumption]).
  destruct (line_available line st Hk Hin) as (mi & Hf & Ha).
  rewrite Ha in Ha'. inversion Ha' as [Hmi]. clear Ha'.
  destruct (select_owned c u line st Hk Hin Hw) as [Hsel _].
  destruct (line_in_range st line _ Hok Hin Ha) as [Hq Hcap].
  pose proof (ok_stock st Hok _ _ Ha) as Ha0. rewrite Hmi in *.
  destruct int4_bounds as [Hmin Hmax].
  assert (Hd : int4_min <= n - ci_quantity line <= int4_max) by lia.
  destruct ((0 <? n - ci_quantity line) && (a <? n - ci_quantity line)) eqn:Hchk.
  - unfold run, call, procedure. rewrite Hop. destruct rev; simpl.
    + unfold FixOps.update_cart_quantity_with_stock_check, bind, query, try, ret, lift.
      rewrite (join_owned c u line mi st Hk Hin Hw Hf). simpl.
      unfold int4mi. rewrite (int4_in_range _ Hd), Hmi, Hchk. reflexivity.
    + unfold QtyMgmt.update_cart_quantity_with_stock_check, bind, query, try, ret, lift.
      rewrite Hu. rewrite (proj2 (Z.leb_gt n 0)) by lia. rewrite Hsel, Hf. simpl.
      unfold int4mi. rewrite (int4_in_range _ Hd), Hmi, Hchk. reflexivity.
  - assert (Hr : int4_min <= a + (ci_quantity line - n) <= int4_max).
    { apply andb_false_iff in Hchk. destruct Hchk as [H0|H0]; apply Z.ltb_ge in H0; lia. }
    assert (Hr' : int4_min <= a - (n - ci_quantity line) <= int4_max) by lia.
    pose proof (restock_in_range st _ a _ Hk Ha Hr) as Hrows.
    unfold run, call, procedure. rewrite Hop. destruct rev; simpl.
    + unfold FixOps.update_cart_quantity_with_stock_check, bind, query, try, ret, lift.
      rewrite (join_owned c u line mi st Hk Hin Hw Hf). simpl.
      unfold int4mi. rewrite (int4_in_range _ Hd), Hmi, Hchk.
      rewrite (proj2 (Z.leb_gt n 0)) by lia.
      rewrite UPDATE_cart_items_total.
      rewrite (UPDATE_menu_items_total _ (fun old => old - (n - ci_quantity line))
                 (ci_quantity line - n)) by (auto; intros; lia).
      rewrite (int4_in_range _ Hr').
      eexists. split; reflexivity.
    + unfold QtyMgmt.update_cart_quantity_with_stock_check, bind, query, try, ret, lift.
      rewrite Hu. rewrite (proj2 (Z.leb_gt n 0)) by lia. rewrite Hsel, Hf. simpl.
      unfold int4mi. rewrite (int4_in_range _ Hd), Hmi, Hchk.
      rewrite (UPDATE_menu_items_total _ (fun old => old - (n - ci_quantity line))
                 (ci_quantity line - n)) by (auto; intros; lia).
      rewrite UPDATE_cart_items_total.
      rewrite (int4_in_range _ Hr'). simpl.
      eexists. split; reflexivity.
Qed.

Lemma no_line_found rev rq u c st :
  (rq_op rq = removeItem u c \/ exists n, rq_op rq = setQuantity u c n) ->
  authenticated rq = true ->
  (forall x, In x (cart_items st) -> cart_owned c u x = false) ->
  run rev rq st = (Return cart_item_not_found, st).
Proof.
  intros Hop Hauth Hno.
  assert (Hu : QtyMgmt.unauthorized (rq_auth_uid rq) u = false).
  { apply authenticated_caller; [|assumption].
    unfold caller; destruct Hop as [->|[n ->]]; reflexivity. }
  assert (Hsel : select_into (cart_owned c u) (cart_items st) = None)
    by (apply find_no_match; assumption).
  assert (Hjoin : cart_join_menu (cart_owned c u) st = []).
  { unfold cart_join_menu. rewrite (filter_no_match _ _ Hno). reflexivity. }
  unfold run, call, procedure.
  destruct Hop as [Hop|[n Hop]]; rewrite Hop; destruct rev; simpl.
  - unfold FixOps.remove_from_cart_with_quantity_restore, bind, query, try, ret, lift.
    rewrite Hjoin. reflexivity.
  - unfold QtyMgmt.remove_from_cart_with_quantity_restore, bind, query, try, ret, lift.
    rewrite Hu, Hsel. reflexivity.
  - unfold FixOps.update_cart_quantity_with_stock_check, bind, query, try, ret, lift.
    rewrite Hjoin. reflexivity.
  - unfold QtyMgmt.update_cart_quantity_with_stock_check,
      QtyMgmt.remove_from_cart_with_quantity_restore, bind, query, try, ret, lift.
    rewrite Hu. destruct (n <=? 0); rewrite Hsel; reflexivity.
Qed.

Lemma checkout_run rev rq u st :
  rq_op rq = checkout u -> authenticated rq = true ->
  run rev rq st
  = if existsb (cart_of_user u) (cart_items st)
    then (fst (run rev rq st), checked_out u st)
    else (Return empty_cart, st).
Proof.
  intros Hop Hauth.
  assert (Hu : QtyMgmt.unauthorized (rq_auth_uid rq) u = false)
    by (apply authenticated_caller; [unfold caller; rewrite Hop; reflexivity|assumption]).
  destruct (existsb (cart_of_user u) (cart_items st)) eqn:Hex.
  - unfold run, call, procedure. rewrite Hop. destruct rev; simpl.
    + unfold FixOps.place_order_with_cart_clear, bind, query, try, ret, lift.
      apply existsb_cart_of_user in Hex.
      destruct (filter (cart_of_user u) (cart_items st)) as [|x l] eqn:Hf; [contradiction|].
      simpl List.length.
      destruct (Z.eqb_spec (Z.of_nat (S (List.length l))) 0) as [Hz|_]; [lia|].
      reflexivity.
    + unfold QtyMgmt.place_order_with_cart_clear, bind, query, try, ret, lift.
      rewrite Hu, Hex. reflexivity.
  - unfold run, call, procedure. rewrite Hop. destruct rev; simpl.
    + unfold FixOps.place_order_with_cart_clear, bind, query, try, ret, lift.
      assert (Hf : filter (cart_of_user u) (cart_items st) = []).
      { destruct (filter (cart_of_user u) (cart_items st)) eqn:Hf; [reflexivity|].
        assert (Hne : filter (cart_of_user u) (cart_items st) <> [])
          by (rewrite Hf; discriminate).
        apply existsb_cart_of_user in Hne. congruence. }
      rewrite Hf. reflexivity.
    + unfold QtyMgmt.place_order_with_cart_clear, bind, query, try, ret, lift.
      rewrite Hu, Hex. reflexivity.
Qed.

(** ** The two revisions against each other *)

Lemma succeeded_failure e : succeeded (Return (failure e)) = false.
Proof. reflexivity. Qed.

Lemma owned_or_not c u l :
  (exists line, In line l /\ cart_owned c u line = true)
  \/ (forall x, In x l -> cart_owned c u x = false).
Proof.
  destruct (find (cart_owned c u) l) as [line|] eqn:Hf.
  - left. exists line. apply find_some in Hf. exact Hf.
  - right. intros x Hx. apply (find_none _ _ Hf x Hx).
Qed.

Lemma run_reference rev rq st :
  db_ok st -> authenticated rq = true -> ordinary_input (rq_op rq) = true ->
  (snd (run rev rq st), succeeded (fst (run rev rq st))) = reference_step rq st.
Proof.
  intros Hok Hauth Hin. pose proof (ok_keys st Hok) as Hk.
  unfold reference_step. destruct (rq_op rq) as [u i q|u c n|u c|u] eqn:Hop; simpl in Hin.
  - apply Z.ltb_lt in Hin. destruct (available i st) as [a|] eqn:Ha.
    + destruct (Z.ltb_spec a q) as [Hlt|Hle].
      * rewrite (addItem_insufficient rev rq u i q a st Hop Hauth Ha Hlt).
        destruct rev; reflexivity.
      * destruct (addItem_run rev rq u i q a st Hok Hop Hauth Hin Ha Hle) as (j & -> & Hs).
        simpl fst. rewrite Hs. reflexivity.
    + rewrite (addItem_missing rev rq u i q st Hop Hauth Ha). reflexivity.
  - apply andb_true_iff in Hin. destruct Hin as [Hn0 Hn1].
    apply Z.leb_le in Hn0, Hn1.
    destruct (select_into (cart_owned c u) (cart_items st)) as [line|] eqn:Hsel.
    + apply find_some in Hsel. destruct Hsel as [Hl Hw].
      destruct (line_available line st Hk Hl) as (mi & _ & Ha).
      destruct (Z.leb_spec n 0) as [Hle|Hgt].
      * assert (Hd : int4_min <= n - ci_quantity line).
        { destruct (line_in_range st line _ Hok Hl Ha) as [Hq Hcap].
          pose proof (ok_stock st Hok _ _ Ha). destruct int4_bounds. lia. }
        destruct rq as [auth now op]. simpl in Hop. subst op. simpl rq_now.
        destruct rev.
        -- destruct (FixOps_setQuantity_nonpositive auth now u c n line st Hok Hl Hw Hle Hd)
             as [Hset _].
           rewrite Hset. f_equal.
           pose proof (run_effect Fix (mk_request auth now (setQuantity u c n)) st) as He.
           destruct (succeeded (fst (run Fix (mk_request auth now (setQuantity u c n)) st)));
             [reflexivity|].
           rewrite Hset in He. exfalso.
           apply (f_equal cart_items) in He. simpl in He.
           destruct (owned_row c u line _ (keys_cart_pk st Hk) Hl Hw)
             as (l1 & l2 & Heq & H1 & H2).
           rewrite Heq in He. rewrite (delete_at_row _ l1 l2 line Hw H1 H2) in He.
           apply (f_equal (@List.length cart_item)) in He.
           rewrite !length_app in He. simpl in He. lia.
        -- rewrite (QtyMgmt_setQuantity_nonpositive auth now u c n st Hle).
           destruct (removeItem_spec Mgmt (mk_request auth now (removeItem u c)) u c line st
                       Hok eq_refl Hauth Hl Hw) as (j & -> & Hs & _).
           simpl fst. rewrite Hs. reflexivity.
      * rewrite Ha.
        pose proof (setQuantity_run rev rq u c n line _ st Hok Hop Hauth Hl Hw
                      (conj Hgt Hn1) Ha) as Hrun.
        destruct ((0 <? n - ci_quantity line)
                  && (mi_quantity_available mi <? n - ci_quantity line)).
        -- rewrite Hrun. destruct rev; reflexivity.
        -- destruct Hrun as (j & -> & Hs). simpl fst. rewrite Hs. reflexivity.
    + rewrite (no_line_found rev rq u c st); [reflexivity| |assumption|].
      * right. exists n. assumption.
      * intros x Hx. apply (find_none _ _ Hsel x Hx).
  - destruct (select_into (cart_owned c u) (cart_items st)) as [line|] eqn:Hsel.
    + apply find_some in Hsel. destruct Hsel as [Hl Hw].
      destruct (removeItem_spec rev rq u c line st Hok Hop Hauth Hl Hw) as (j & -> & Hs & _).
      simpl fst. rewrite Hs. reflexivity.
    + rewrite (no_line_found rev rq u c st); [reflexivity| |assumption|].
      * left. assumption.
      * intros x Hx. apply (find_none _ _ Hsel x Hx).
  - rewrite (checkout_run rev rq u st Hop Hauth).
    destruct (existsb (cart_of_user u) (cart_items st)) eqn:Hex; [|reflexivity].
    simpl. f_equal.
    pose proof (run_effect rev rq st) as He.
    destruct (succeeded (fst (run rev rq st))); [reflexivity|].
    rewrite (checkout_run rev rq u st Hop Hauth), Hex in He. simpl in He.
    exfalso. apply (f_equal next_uuid) in He. simpl in He. lia.
Qed.

Lemma ordinary_valid op : ordinary_input op = true -> valid_input op = true.
Proof. destruct op; simpl; auto. Qed.

(** X1. On a consistent database, for authenticated calls with ordinary input
    (a quantity > 0 to add, a target between 0 and the largest [integer] to
    set), the revision of lines 1-346 and the revision of lines 347-681 leave
    the same database after any sequence of calls. *)
Theorem revisions_agree rqs st :
  db_ok st ->
  Forall (fun rq => authenticated rq = true /\ ordinary_input (rq_op rq) = true) rqs ->
  run_all Fix rqs st = run_all Mgmt rqs st.
Proof.
  intros Hok Hrqs. revert st Hok.
  induction Hrqs as [|rq rqs [Hauth Hin] _ IH]; simpl; intros st Hok; [reflexivity|].
  pose proof (run_reference Fix rq st Hok Hauth Hin) as HF.
  pose proof (run_reference Mgmt rq st Hok Hauth Hin) as HM.
  rewrite <- HM in HF. inversion HF as [[Hst Hs]]. rewrite Hst.
  apply IH. apply run_db_ok; [apply ordinary_valid|]; assumption.
Qed.

Lemma revisions_agree_witness : run_all Fix scenario stocked = run_all Mgmt scenario stocked.
Proof.
  apply revisions_agree.
  - apply db_okb_sound. reflexivity.
  - repeat constructor.
Defined.

(** X2. A consistent database stays consistent (keys, stock >= 0, cart
    quantities > 0, available + reserved within the [integer] range) under
    any sequence of calls that respect the input constraint, in either
    revision. *)
Theorem consistency_preserved rev rqs st :
  db_ok st ->
  Forall (fun rq => valid_input (rq_op rq) = true) rqs ->
  db_ok (run_all rev rqs st).
Proof.
  intros Hok Hv. apply run_all_db_ok; assumption.
Qed.

Lemma consistency_preserved_witness : db_ok (run_all Mgmt scenario stocked).
Proof.
  apply consistency_preserved.
  - apply db_okb_sound. reflexivity.
  - repeat constructor.
Defined.

(** X3. Whatever the arguments, the calls keep the keys of the schema: ids stay
    unique, there is at most one cart line per (user, item), and every cart
    line refers to an existing menu item. *)
Theorem keys_preserved rev rqs st : db_keys st -> db_keys (run_all rev rqs st).
Proof.
  intros Hk. revert st Hk. induction rqs as [|rq rqs IH]; simpl; intros st Hk.
  - assumption.
  - apply IH. apply run_db_keys. assumption.
Qed.

Lemma keys_preserved_witness :
  db_keys (run_all Fix [as_user user_b (addItem user_b item_x (-4));
                        as_user user_a (setQuantity user_a line_a int4_min);
                        as_user user_a (addItem user_a item_x 2)] reserved_by_a).
Proof.
  apply keys_preserved. apply db_keysb_sound. reflexivity.
Defined.

(** ** What a call never touches *)

Lemma of_others_own u ci : ci_user_id ci = u -> of_others u ci = false.
Proof.
  intros <-. unfold of_others, cart_of_user. rewrite Nat.eqb_refl. reflexivity.
Qed.

Lemma of_others_requantify u w g now ci :
  of_others u (requantify w g now ci) = of_others u ci.
Proof.
  unfold of_others, cart_of_user.
  destruct (requantify_fields w g now ci) as (_ & -> & _). reflexivity.
Qed.

Lemma others_requantify u w g now l :
  (forall ci, w ci = true -> ci_user_id ci = u) ->
  filter (of_others u) (map (requantify w g now) l) = filter (of_others u) l.
Proof.
  intros Hw. induction l as [|ci l IH]; simpl; [reflexivity|].
  rewrite of_others_requantify, IH.
  destruct (of_others u ci) eqn:Ho; [|reflexivity].
  f_equal. unfold requantify. destruct (w ci) eqn:Hc; [|reflexivity].
  rewrite (of_others_own u ci (Hw ci Hc)) in Ho. discriminate.
Qed.

Lemma others_delete_rows u w l :
  (forall ci, w ci = true -> ci_user_id ci = u) ->
  filter (of_others u) (delete_rows w l) = filter (of_others u) l.
Proof.
  intros Hw. unfold delete_rows. induction l as [|ci l IH]; simpl; [reflexivity|].
  destruct (w ci) eqn:Hc; simpl.
  - rewrite (of_others_own u ci (Hw ci Hc)). exact IH.
  - rewrite IH. reflexivity.
Qed.

Lemma effect_others rq st st' :
  effect rq st st' ->
  filter (of_others (caller rq)) (cart_items st')
  = filter (of_others (caller rq)) (cart_items st).
Proof.
  intros He. unfold caller.
  destruct He as [u i q a Hop Ha Hq|u c n line Hop Hin Hw Hn Hs
                 |u c n line Hop Hin Hw Hn|u c line Hop Hin Hw|u Hop Hex]; rewrite Hop.
  - rewrite added_cart. destruct (select_into (cart_key u i) (cart_items st)).
    + apply others_requantify. intros ci Hc. apply cart_key_pair in Hc. apply Hc.
    + rewrite filter_app. simpl. rewrite of_others_own by reflexivity. apply app_nil_r.
  - simpl. apply others_requantify. intros ci Hc. apply cart_owned_id in Hc. apply Hc.
  - simpl. apply others_delete_rows. intros ci Hc. apply cart_owned_id in Hc. apply Hc.
  - simpl. apply others_delete_rows. intros ci Hc. apply cart_owned_id in Hc. apply Hc.
  - simpl. apply others_delete_rows. intros ci Hc. apply Nat.eqb_eq in Hc. exact Hc.
Qed.

(** X4. A call made for user [u] never changes, adds or deletes a cart line of
    another user: the lines of the other users are the same rows, in the
    same order, whatever the arguments, the session and the outcome. *)
Theorem other_carts_untouched rev rq st :
  filter (of_others (caller rq)) (cart_items (snd (run rev rq st)))
  = filter (of_others (caller rq)) (cart_items st).
Proof.
  pose proof (run_effect rev rq st) as H.
  destruct (succeeded (fst (run rev rq st))).
  - apply effect_others. assumption.
  - rewrite H. reflexivity.
Qed.

Lemma effect_orders rq st st' :
  effect rq st st' ->
  exists os ois,
    orders st' = orders st ++ os /\ order_items st' = order_items st ++ ois
    /\ ((forall u, rq_op rq <> checkout u) -> os = [] /\ ois = []).
Proof.
  intros He.
  destruct He as [u i q a Hop Ha Hq|u c n line Hop Hin Hw Hn Hs
                 |u c n line Hop Hin Hw Hn|u c line Hop Hin Hw|u Hop Hex].
  - exists [], []. unfold added. destruct (select_into _ _); simpl; rewrite !app_nil_r; auto.
  - exists [], []. simpl. rewrite !app_nil_r. auto.
  - exists [], []. simpl. rewrite !app_nil_r. auto.
  - exists [], []. simpl. rewrite !app_nil_r. auto.
  - eexists. eexists. simpl. split; [reflexivity|]. split; [reflexivity|].
    intros Hno. contradiction (Hno u).
Qed.

(** X5. Order history is append-only: after any sequence of calls the orders
    and order lines that existed are still there, unchanged and in place;
    only new ones were appended. *)
Theorem order_history_append_only rev rqs st :
  exists os ois,
    orders (run_all rev rqs st) = orders st ++ os
    /\ order_items (run_all rev rqs st) = order_items st ++ ois.
Proof.
  revert st. induction rqs as [|rq rqs IH]; simpl; intros st.
  - exists [], []. rewrite !app_nil_r. auto.
  - destruct (IH (snd (run rev rq st))) as (os2 & ois2 & Ho2 & Hoi2).
    pose proof (run_effect rev rq st) as H.
    destruct (succeeded (fst (run rev rq st))).
    + destruct (effect_orders rq st _ H) as (os1 & ois1 & Ho1 & Hoi1 & _).
      exists (os1 ++ os2), (ois1 ++ ois2).
      rewrite Ho2, Hoi2, Ho1, Hoi1, <- !app_assoc. split; reflexivity.
    + rewrite H in Ho2, Hoi2 |- *. exists os2, ois2. split; assumption.
Qed.

(** X6. Only [checkout] writes to the order tables: [addItem], [setQuantity]
    and [removeItem] leave [orders] and [order_items] as they were. *)
Theorem cart_calls_leave_orders rev rq st :
  (forall u, rq_op rq <> checkout u) ->
  orders (snd (run rev rq st)) = orders st
  /\ order_items (snd (run rev rq st)) = order_items st.
Proof.
  intros Hno. pose proof (run_effect rev rq st) as H.
  destruct (succeeded (fst (run rev rq st))).
  - destruct (effect_orders rq st _ H) as (os & ois & Ho & Hoi & Hnil).
    destruct (Hnil Hno) as [-> ->]. rewrite Ho, Hoi, !app_nil_r. auto.
  - rewrite H. auto.
Qed.

Lemma cart_calls_leave_orders_witness :
  orders (snd (run Fix (as_user user_a (removeItem user_a line_a)) reserved_by_a))
  = orders reserved_by_a
  /\ order_items (snd (run Fix (as_user user_a (removeItem user_a line_a)) reserved_by_a))
     = order_items reserved_by_a.
Proof.
  apply cart_calls_leave_orders. intros u. discriminate.
Defined.

Lemma catalogue_restock j d now t :
  map (fun mi => (mi_id mi, mi_name mi, mi_price mi)) (map (restock j d now) t)
  = map (fun mi => (mi_id mi, mi_name mi, mi_price mi)) t.
Proof.
  rewrite map_map. apply map_ext. intros mi. unfold restock.
  destruct (Nat.eqb (mi_id mi) j); reflexivity.
Qed.

Lemma effect_catalogue rq st st' : effect rq st st' -> catalogue st' = catalogue st.
Proof.
  intros He. unfold catalogue.
  destruct He as [u i q a Hop Ha Hq|u c n line Hop Hin Hw Hn Hs
                 |u c n line Hop Hin Hw Hn|u c line Hop Hin Hw|u Hop Hex].
  - unfold added. destruct (select_into _ _); simpl; apply catalogue_restock.
  - simpl. apply catalogue_restock.
  - simpl. apply catalogue_restock.
  - simpl. apply catalogue_restock.
  - reflexivity.
Qed.

(** X7. The procedures never add or drop a menu item and never change an id,
    a name or a price: of the menu they only write [quantity_available] and
    [updated_at]. *)
Theorem catalogue_untouched rev rqs st : catalogue (run_all rev rqs st) = catalogue st.
Proof.
  revert st. induction rqs as [|rq rqs IH]; simpl; intros st; [reflexivity|].
  rewrite IH. pose proof (run_effect rev rq st) as H.
  destruct (succeeded (fst (run rev rq st))).
  - apply effect_catalogue with (rq := rq). assumption.
  - rewrite H. reflexivity.
Qed.

(** ** Sessions *)

(** X8. In the revision of lines 347-681, a call whose session belongs to
    another user than the one it names answers "Unauthorized access" and
    changes nothing, for each of the four procedures. *)
Theorem foreign_session_refused rq v st :
  rq_auth_uid rq = Some v -> v <> caller rq ->
  run Mgmt rq st = (Return unauthorized_access, st).
Proof.
  intros Hauth Hv.
  assert (Hu : QtyMgmt.unauthorized (rq_auth_uid rq) (caller rq) = true).
  { rewrite Hauth. simpl. apply negb_true_iff. apply Nat.eqb_neq. exact Hv. }
  unfold run, call, procedure. unfold caller in Hu.
  destruct (rq_op rq) as [u i q|u c n|u c|u]; simpl.
  - unfold QtyMgmt.add_to_cart_with_quantity_check, try. rewrite Hu. reflexivity.
  - unfold QtyMgmt.update_cart_quantity_with_stock_check, try. rewrite Hu. reflexivity.
  - unfold QtyMgmt.remove_from_cart_with_quantity_restore, try. rewrite Hu. reflexivity.
  - unfold QtyMgmt.place_order_with_cart_clear, try. rewrite Hu. reflexivity.
Qed.

Lemma foreign_session_refused_witness :
  run Mgmt (mk_request (Some user_b) 9 (checkout user_a)) reserved_by_a
  = (Return unauthorized_access, reserved_by_a).
Proof.
  apply (foreign_session_refused (mk_request (Some user_b) 9 (checkout user_a)) user_b).
  - reflexivity.
  - simpl. discriminate.
Defined.

(** X9. In the revision of lines 347-681 the check is [auth.uid() !=
    p_user_id]: without a session [auth.uid()] is NULL, the comparison is
    not true, and the call goes through exactly as if the named user were
    signed in. *)
Theorem no_session_is_not_refused now op st :
  run Mgmt (mk_request None now op) st
  = run Mgmt (mk_request (Some (caller (mk_request None now op))) now op) st.
Proof.
  unfold run, call, procedure, caller. destruct op as [u i q|u c n|u c|u]; simpl.
  - unfold QtyMgmt.add_to_cart_with_quantity_check, QtyMgmt.unauthorized.
    rewrite Nat.eqb_refl. reflexivity.
  - unfold QtyMgmt.update_cart_quantity_with_stock_check,
      QtyMgmt.remove_from_cart_with_quantity_restore, QtyMgmt.unauthorized.
    rewrite Nat.eqb_refl. reflexivity.
  - unfold QtyMgmt.remove_from_cart_with_quantity_restore, QtyMgmt.unauthorized.
    rewrite Nat.eqb_refl. reflexivity.
  - unfold QtyMgmt.place_order_with_cart_clear, QtyMgmt.unauthorized.
    rewrite Nat.eqb_refl. reflexivity.
Qed.

(** ** removeItem *)

(** X10. On a consistent database, [removeItem] on a line of the caller
    deletes the line, gives its whole quantity back to the item, and
    returns that quantity as [restored_quantity]. *)
Theorem removeItem_restores rev rq u c line a st :
  db_ok st -> rq_op rq = removeItem u c -> authenticated rq = true ->
  In line (cart_items st) -> cart_owned c u line = true ->
  available (ci_menu_item_id line) st = Some a ->
  exists j st',
    run rev rq st = (Return j, st')
    /\ succeeded (Return j) = true
    /\ json_get "restored_quantity" j = Some (JInt (ci_quantity line))
    /\ available (ci_menu_item_id line) st' = Some (a + ci_quantity line)
    /\ reserved (ci_menu_item_id line) st'
       = reserved (ci_menu_item_id line) st - ci_quantity line
    /\ select_into (cart_owned c u) (cart_items st') = None.
Proof.
  intros Hok Hop Hauth Hin Hw Ha. pose proof (ok_keys st Hok) as Hk.
  destruct (removeItem_spec rev rq u c line st Hok Hop Hauth Hin Hw) as (j & Hrun & Hs & Hj).
  exists j, (removed (rq_now rq) u c line st).
  split; [exact Hrun|]. split; [exact Hs|]. split; [exact Hj|]. split; [|split].
  - unfold removed. erewrite available_restock by reflexivity.
    rewrite Ha, Nat.eqb_refl. reflexivity.
  - rewrite (reserved_removed _ _ _ _ _ _ (keys_cart_pk st Hk) Hin Hw), Nat.eqb_refl.
    reflexivity.
  - simpl. destruct (owned_row c u line _ (keys_cart_pk st Hk) Hin Hw)
      as (l1 & l2 & -> & H1 & H2).
    rewrite (delete_at_row _ l1 l2 line Hw H1 H2). apply find_no_match.
    intros x Hx. apply in_app_or in Hx. destruct Hx; auto.
Qed.

Lemma removeItem_restores_witness :
  exists j st',
    run Mgmt (as_user user_a (removeItem user_a line_a)) reserved_by_a = (Return j, st')
    /\ succeeded (Return j) = true
    /\ json_get "restored_quantity" j = Some (JInt 3)
    /\ available item_x st' = Some (2 + 3)
    /\ reserved item_x st' = reserved item_x reserved_by_a - 3
    /\ select_into (cart_owned line_a user_a) (cart_items st') = None.
Proof.
  apply (removeItem_restores Mgmt (as_user user_a (removeItem user_a line_a))
           user_a line_a (mk_cart_item line_a user_a item_x 3 7) 2 reserved_by_a).
  - apply db_okb_sound. reflexivity.
  - reflexivity.
  - reflexivity.
  - simpl. auto.
  - reflexivity.
  - reflexivity.
Defined.

(** X11. In the revision of lines 347-681, [setQuantity] with a target <= 0
    is [removeItem]: same response, same database, for every database and
    every such integer. *)
Theorem QtyMgmt_nonpositive_target_is_removal auth now u c n st :
  n <= 0 ->
  run Mgmt (mk_request auth now (setQuantity u c n)) st
  = run Mgmt (mk_request auth now (removeItem u c)) st.
Proof.
  apply QtyMgmt_setQuantity_nonpositive.
Qed.

Lemma QtyMgmt_nonpositive_target_is_removal_witness :
  run Mgmt (as_user user_a (setQuantity user_a line_a int4_min)) reserved_by_a
  = run Mgmt (as_user user_a (removeItem user_a line_a)) reserved_by_a.
Proof.
  apply QtyMgmt_nonpositive_target_is_removal. unfold int4_min. lia.
Defined.

(** X12. In the revision of lines 1-346, on a consistent database,
    [setQuantity] on a line of the caller with a target <= 0 whose
    difference with the line's quantity fits in an [integer] leaves the
    database [removeItem] leaves: the line deleted, its quantity restored. *)
Theorem FixOps_nonpositive_target_is_removal auth now u c n line st :
  db_ok st -> In line (cart_items st) -> cart_owned c u line = true ->
  n <= 0 -> int4_min <= n - ci_quantity line ->
  snd (run Fix (mk_request auth now (setQuantity u c n)) st)
  = snd (run Fix (mk_request auth now (removeItem u c)) st).
Proof.
  intros Hok Hin Hw Hn Hd.
  destruct (FixOps_setQuantity_nonpositive auth now u c n line st Hok Hin Hw Hn Hd)
    as [-> ->].
  reflexivity.
Qed.

Lemma FixOps_nonpositive_target_is_removal_witness :
  snd (run Fix (as_user user_a (setQuantity user_a line_a 0)) reserved_by_a)
  = snd (run Fix (as_user user_a (removeItem user_a line_a)) reserved_by_a).
Proof.
  apply (FixOps_nonpositive_target_is_removal (Some user_a) 7 user_a line_a 0
           (mk_cart_item line_a user_a item_x 3 7) reserved_by_a).
  - apply db_okb_sound. reflexivity.
  - simpl. auto.
  - reflexivity.
  - lia.
  - unfold int4_min. simpl. lia.
Defined.

(** ** Calls in sequence *)

(** X13. A checkout that succeeded cannot be repeated: the same call made
    again answers "Cart is empty" and changes nothing, so no second order
    is created. *)
Theorem checkout_not_repeatable rev rq u st :
  rq_op rq = checkout u ->
  succeeded (fst (run rev rq st)) = true ->
  run rev rq (snd (run rev rq st)) = (Return empty_cart, snd (run rev rq st)).
Proof.
  intros Hop Hs. pose proof (run_effect rev rq st) as He. rewrite Hs in He.
  remember (snd (run rev rq st)) as st' eqn:Est.
  destruct He as [? ? ? ? Hop'|? ? ? ? Hop'|? ? ? ? Hop'|? ? ? Hop'|u' Hop' Hex];
    rewrite Hop in Hop'; try discriminate.
  inversion Hop'; subst u'. clear Est.
  assert (Hnone : filter (cart_of_user u) (cart_items (checked_out u st)) = []).
  { simpl. unfold delete_rows. apply filter_no_match.
    intros x Hx. apply filter_In in Hx. destruct Hx as [_ Hx].
    apply negb_true_iff in Hx. exact Hx. }
  destruct rev.
  - unfold run, call, procedure. rewrite Hop. simpl.
    unfold FixOps.place_order_with_cart_clear, bind, query, try, ret, lift.
    rewrite Hnone. reflexivity.
  - destruct (QtyMgmt.unauthorized (rq_auth_uid rq) u) eqn:Hu.
    + exfalso. revert Hs. unfold run, call, procedure. rewrite Hop. simpl.
      unfold QtyMgmt.place_order_with_cart_clear, try. rewrite Hu. discriminate.
    + unfold run, call, procedure. rewrite Hop. simpl.
      unfold QtyMgmt.place_order_with_cart_clear, bind, query, try, ret, lift.
      rewrite Hu.
      destruct (existsb (cart_of_user u) (cart_items (checked_out u st))) eqn:Hex';
        [|reflexivity].
      apply existsb_cart_of_user in Hex'. contradiction.
Qed.

Lemma checkout_not_repeatable_witness :
  run Fix (as_user user_a (checkout user_a))
      (snd (run Fix (as_user user_a (checkout user_a)) reserved_by_a))
  = (Return empty_cart, snd (run Fix (as_user user_a (checkout user_a)) reserved_by_a)).
Proof.
  apply (checkout_not_repeatable Fix (as_user user_a (checkout user_a)) user_a).
  - reflexivity.
  - reflexivity.
Defined.

Lemma restock_back j d1 d2 now now' t i :
  d1 + d2 = 0 ->
  option_map mi_quantity_available
    (select_into (fun m => Nat.eqb (mi_id m) i)
                 (map (restock j d2 now') (map (restock j d1 now) t)))
  = option_map mi_quantity_available (select_into (fun m => Nat.eqb (mi_id m) i) t).
Proof.
  intros Hd. rewrite !find_restock.
  destruct (select_into _ t) as [mi|]; simpl; [|reflexivity].
  unfold restock. destruct (Nat.eqb (mi_id mi) j) eqn:Hj; simpl; rewrite ?Hj; simpl;
    [f_equal; lia|reflexivity].
Qed.

Lemma added_menu now u i q st :
  menu_items (added now u i q st) = map (restock i (- q) now) (menu_items st).
Proof. unfold added. destruct (select_into _ _); reflexivity. Qed.

(** X14. Adding and removing is a round trip. On a consistent database where
    the user has no line yet for the item, an [addItem] that succeeds followed
    by [removeItem] of the line it created brings back the cart table and
    every [quantity_available] as they were, and writes no order. *)
Theorem add_then_remove rev rq1 rq2 u i q a st :
  db_ok st ->
  rq_op rq1 = addItem u i q -> authenticated rq1 = true ->
  rq_op rq2 = removeItem u (next_uuid st) -> authenticated rq2 = true ->
  0 < q -> available i st = Some a -> q <= a ->
  select_into (cart_key u i) (cart_items st) = None ->
  cart_items (run_all rev [rq1; rq2] st) = cart_items st
  /\ (forall k, available k (run_all rev [rq1; rq2] st) = available k st)
  /\ orders (run_all rev [rq1; rq2] st) = orders st
  /\ order_items (run_all rev [rq1; rq2] st) = order_items st.
Proof.
  intros Hok Hop1 Hauth1 Hop2 Hauth2 Hq Ha Hle Hnone. simpl.
  destruct (addItem_run rev rq1 u i q a st Hok Hop1 Hauth1 Hq Ha Hle) as (j1 & -> & _).
  simpl snd.
  pose proof (added_db_ok (rq_now rq1) u i q a st Hok Ha Hle Hq) as Hok1.
  set (line := mk_cart_item (next_uuid st) u i q (rq_now rq1)).
  assert (Hcart1 : cart_items (added (rq_now rq1) u i q st) = cart_items st ++ [line])
    by (rewrite added_cart, Hnone; reflexivity).
  assert (Hin : In line (cart_items (added (rq_now rq1) u i q st)))
    by (rewrite Hcart1; apply in_or_app; right; left; reflexivity).
  assert (Hw : cart_owned (next_uuid st) u line = true)
    by (unfold cart_owned; simpl; rewrite !Nat.eqb_refl; reflexivity).
  destruct (removeItem_spec rev rq2 u (next_uuid st) line _ Hok1 Hop2 Hauth2 Hin Hw)
    as (j2 & -> & _).
  simpl snd. unfold removed. simpl. split; [|split; [|split]].
  - rewrite Hcart1.
    assert (Hold : forall x, In x (cart_items st) -> cart_owned (next_uuid st) u x = false).
    { intros x Hx. pose proof (keys_cart_fresh st (ok_keys st Hok)) as Hf.
      rewrite Forall_forall in Hf. specialize (Hf x Hx). unfold cart_owned.
      destruct (Nat.eqb_spec (ci_id x) (next_uuid st)); [lia|reflexivity]. }
    rewrite (delete_at_row _ (cart_items st) [] line Hw Hold) by (intros x []).
    apply app_nil_r.
  - intros k. unfold available. simpl. rewrite added_menu.
    apply restock_back. lia.
  - unfold added. destruct (select_into (cart_key u i) (cart_items st)); reflexivity.
  - unfold added. destruct (select_into (cart_key u i) (cart_items st)); reflexivity.
Qed.

Lemma add_then_remove_witness :
  cart_items (run_all Mgmt [as_user user_b (addItem user_b item_x 2);
                            as_user user_b (removeItem user_b (S line_a))] reserved_by_a)
  = cart_items reserved_by_a
  /\ (forall k,
        available k (run_all Mgmt [as_user user_b (addItem user_b item_x 2);
                                   as_user user_b (removeItem user_b (S line_a))]
                             reserved_by_a)
        = available k reserved_by_a)
  /\ orders (run_all Mgmt [as_user user_b (addItem user_b item_x 2);
                           as_user user_b (removeItem user_b (S line_a))] reserved_by_a)
     = orders reserved_by_a
  /\ order_items (run_all Mgmt [as_user user_b (addItem user_b item_x 2);
                                as_user user_b (removeItem user_b (S line_a))]
                          reserved_by_a)
     = order_items reserved_by_a.
Proof.
  apply (add_then_remove Mgmt (as_user user_b (addItem user_b item_x 2))
           (as_user user_b (removeItem user_b (S line_a))) user_b item_x 2 2 reserved_by_a).
  - apply db_okb_sound. reflexivity.
  - reflexivity.
  - reflexivity.
  - reflexivity.
  - reflexivity.
  - lia.
  - reflexivity.
  - lia.
  - reflexivity.
Defined.

(** ** Orders add up *)

Lemma order_lines_total_app k ois1 ois2 :
  order_lines_total k (ois1 ++ ois2) = order_lines_total k ois1 + order_lines_total k ois2.
Proof.
  unfold order_lines_total. rewrite filter_app, map_app, sumZ_app. reflexivity.
Qed.

Lemma order_lines_total_other k oid rows :
  oid <> k -> order_lines_total k (map (order_line oid) rows) = 0.
Proof.
  intros Hk. unfold order_lines_total. induction rows as [|row rows IH]; simpl; [reflexivity|].
  destruct (Nat.eqb_spec oid k); [contradiction|exact IH].
Qed.

Lemma order_lines_total_new oid rows :
  order_lines_total oid (map (order_line oid) rows)
  = sumZ (map (fun row => ci_quantity (fst row) * mi_price (snd row)) rows).
Proof.
  unfold order_lines_total. induction rows as [|row rows IH]; simpl; [reflexivity|].
  rewrite Nat.eqb_refl. simpl. rewrite IH. reflexivity.
Qed.

Lemma order_lines_total_fresh n ois :
  Forall (fun oi => (oi_order_id oi < n)%nat) ois -> order_lines_total n ois = 0.
Proof.
  unfold order_lines_total. induction 1 as [|oi ois Hoi _ IH]; simpl; [reflexivity|].
  destruct (Nat.eqb_spec (oi_order_id oi) n); [lia|exact IH].
Qed.

Lemma effect_orders_balanced rq st st' :
  effect rq st st' -> db_keys st -> orders_balanced st -> orders_balanced st'.
Proof.
  intros He Hk Hb. unfold orders_balanced in *.
  destruct He as [u i q a Hop Ha Hq|u c n line Hop Hin Hw Hn Hs
                 |u c n line Hop Hin Hw Hn|u c line Hop Hin Hw|u Hop Hex].
  - unfold added. destruct (select_into _ _); exact Hb.
  - exact Hb.
  - exact Hb.
  - exact Hb.
  - simpl. apply Forall_app. split.
    + pose proof (keys_orders_fresh st Hk) as Hf. rewrite Forall_forall in *.
      intros o Ho. rewrite order_lines_total_app, (Hb o Ho).
      rewrite order_lines_total_other by (specialize (Hf o Ho); lia). lia.
    + constructor; [|constructor]. simpl.
      rewrite order_lines_total_app, order_lines_total_new.
      rewrite (order_lines_total_fresh _ _ (keys_order_items_fresh st Hk)).
      reflexivity.
Qed.

(** X15. Orders add up: when the keys of the schema hold and every order's
    [total_amount] equals the sum of quantity times price over its order
    lines, it is still so after any sequence of calls; a checkout writes a
    total and lines that agree. *)
Theorem order_totals_match_lines rev rqs st :
  db_keys st -> orders_balanced st -> orders_balanced (run_all rev rqs st).
Proof.
  revert st. induction rqs as [|rq rqs IH]; simpl; intros st Hk Hb; [assumption|].
  pose proof (run_effect rev rq st) as H.
  apply IH; [apply run_db_keys; assumption|].
  destruct (succeeded (fst (run rev rq st))).
  - apply (effect_orders_balanced rq st); assumption.
  - rewrite H. assumption.
Qed.

Lemma order_totals_match_lines_witness : orders_balanced (run_all Mgmt scenario stocked).
Proof.
  apply order_totals_match_lines.
  - apply db_keysb_sound. reflexivity.
  - constructor.
Defined.

(** ** Calls that are answered *)

Lemma succeeded_Return o : succeeded o = true -> exists data, o = Return data.
Proof. destruct o as [j|e]; [eexists; reflexivity|discriminate]. Qed.

(** X19. No ordinary call raises.  On a consistent database a call with
    ordinary input (a quantity > 0 to add, a target between 0 and the largest
    [integer] to set) made by the named user's own session is answered with
    a JSON response by each of the four procedures, in either revision: no
    error leaves the procedure, whether the call succeeds or is refused. *)
Theorem ordinary_calls_never_raise rev rq st :
  db_ok st -> authenticated rq = true -> ordinary_input (rq_op rq) = true ->
  exists data, fst (run rev rq st) = Return data.
Proof.
  intros Hok Hauth Hord. pose proof (ok_keys st Hok) as Hk.
  pose proof (run_reference rev rq st Hok Hauth Hord) as Href.
  unfold reference_step in Href.
  destruct (rq_op rq) as [u i q|u c n|u c|u] eqn:Hop; simpl in Hord.
  - apply Z.ltb_lt in Hord. destruct (available i st) as [a|] eqn:Ha.
    + destruct (Z.ltb_spec a q) as [Hlt|Hle].
      * rewrite (addItem_insufficient rev rq u i q a st Hop Hauth Ha Hlt).
        eexists; reflexivity.
      * apply succeeded_Return. inversion Href; reflexivity.
    + rewrite (addItem_missing rev rq u i q st Hop Hauth Ha). eexists; reflexivity.
  - apply andb_true_iff in Hord. destruct Hord as [H0 H1].
    apply Z.leb_le in H0. apply Z.leb_le in H1.
    destruct (owned_or_not c u (cart_items st)) as [(line & Hin & Hw)|Hno].
    + destruct (select_owned c u line st Hk Hin Hw) as [Hsel _]. rewrite Hsel in Href.
      destruct (Z.leb_spec n 0) as [Hn|Hn].
      * apply succeeded_Return. inversion Href; reflexivity.
      * destruct (line_available line st Hk Hin) as (mi & _ & Ha).
        pose proof (setQuantity_run rev rq u c n line _ st Hok Hop Hauth Hin Hw
                      (conj Hn H1) Ha) as Hrun.
        destruct ((0 <? n - ci_quantity line)
                  && (mi_quantity_available mi <? n - ci_quantity line)).
        -- rewrite Hrun. eexists; reflexivity.
        -- destruct Hrun as (j & Hrun & _). rewrite Hrun. eexists; reflexivity.
    + rewrite (no_line_found rev rq u c st (or_intror (ex_intro _ n Hop)) Hauth Hno).
      eexists; reflexivity.
  - destruct (owned_or_not c u (cart_items st)) as [(line & Hin & Hw)|Hno].
    + destruct (removeItem_spec rev rq u c line st Hok Hop Hauth Hin Hw) as (j & Hrun & _).
      rewrite Hrun. eexists; reflexivity.
    + rewrite (no_line_found rev rq u c st (or_introl Hop) Hauth Hno).
      eexists; reflexivity.
  - destruct (existsb (cart_of_user u) (cart_items st)) eqn:Hex.
    + apply succeeded_Return. inversion Href; reflexivity.
    + pose proof (checkout_run rev rq u st Hop Hauth) as Hrun. rewrite Hex in Hrun.
      rewrite Hrun. eexists; reflexivity.
Qed.

Lemma ordinary_calls_never_raise_witness :
  exists data,
    fst (run Fix (as_user user_a (setQuantity user_a line_a 9)) reserved_by_a)
    = Return data.
Proof.
  apply (ordinary_calls_never_raise Fix (as_user user_a (setQuantity user_a line_a 9))
           reserved_by_a).
  - apply db_okb_sound. reflexivity.
  - reflexivity.
  - reflexivity.
Defined.

(** * The first revision *)

(** ** Its statements *)

Lemma kept_UPDATE_menu_items i g delta st st' :
  (forall old, g old = old + delta) ->
  UPDATE_menu_items (HolyPortal.set_quantity_available (fun old => int4 (g old)))
                    (fun mi => Nat.eqb (mi_id mi) i) st = Ok (tt, st') ->
  st' = with_menu_items (map (restock_kept i delta) (menu_items st)) st.
Proof.
  intros Hg H. unfold UPDATE_menu_items in H.
  destruct (update_rows _ _ (menu_items st)) as [t|e] eqn:Ht; [|discriminate].
  inversion H; subst. f_equal.
  apply (update_rows_map _ _ (restock_kept i delta)) in Ht.
  - rewrite Ht. apply map_ext. intros mi. unfold restock_kept, restock.
    destruct (Nat.eqb (mi_id mi) i); reflexivity.
  - intros r r' Hw Hs. unfold HolyPortal.set_quantity_available in Hs.
    unfold restock_kept, restock. rewrite Hw.
    destruct (int4 (g (mi_quantity_available r))) as [v|e] eqn:Hv; simpl in Hs;
      [|discriminate].
    apply int4_Ok in Hv. destruct Hv as [-> _]. inversion Hs. rewrite Hg. reflexivity.
Qed.

Lemma kept_UPDATE_menu_items_total i g delta st :
  (forall old, g old = old + delta) ->
  (forall mi, In mi (menu_items st) -> Nat.eqb (mi_id mi) i = true ->
              int4_min <= mi_quantity_available mi + delta <= int4_max) ->
  UPDATE_menu_items (HolyPortal.set_quantity_available (fun old => int4 (g old)))
                    (fun mi => Nat.eqb (mi_id mi) i) st
  = Ok (tt, with_menu_items (map (restock_kept i delta) (menu_items st)) st).
Proof.
  intros Hg Hr. unfold UPDATE_menu_items.
  rewrite (update_rows_total _ _ (restock_kept i delta)).
  - f_equal. f_equal. f_equal. apply map_ext. intros mi. unfold restock_kept, restock.
    destruct (Nat.eqb (mi_id mi) i); reflexivity.
  - intros r Hin Hw. unfold HolyPortal.set_quantity_available, restock_kept, restock.
    rewrite Hw, Hg, (int4_in_range _ (Hr r Hin Hw)). reflexivity.
Qed.

Lemma kept_UPDATE_cart_items w expr g st st' :
  (forall old v, expr old = Ok v -> v = g old) ->
  UPDATE_cart_items (HolyPortal.set_quantity expr) w st = Ok (tt, st') ->
  st' = with_cart_items (map (requantify_kept w g) (cart_items st)) st.
Proof.
  intros Hg H. unfold UPDATE_cart_items in H.
  destruct (update_rows _ _ (cart_items st)) as [t|e] eqn:Ht; [|discriminate].
  inversion H; subst. f_equal.
  apply (update_rows_map _ _ (requantify_kept w g)) in Ht.
  - rewrite Ht. apply map_ext. intros r. unfold requantify_kept, requantify.
    destruct (w r); reflexivity.
  - intros r r' Hw Hs. unfold HolyPortal.set_quantity in Hs.
    unfold requantify_kept, requantify. rewrite Hw.
    destruct (expr (ci_quantity r)) as [v|e] eqn:Hv; simpl in Hs; [|discriminate].
    apply Hg in Hv. subst v. inversion Hs. reflexivity.
Qed.

Lemma kept_UPDATE_cart_items_total w expr g st :
  (forall ci, In ci (cart_items st) -> w ci = true -> expr (ci_quantity ci) = Ok (g (ci_quantity ci))) ->
  UPDATE_cart_items (HolyPortal.set_quantity expr) w st
  = Ok (tt, with_cart_items (map (requantify_kept w g) (cart_items st)) st).
Proof.
  intros Hr. unfold UPDATE_cart_items.
  rewrite (update_rows_total _ _ (requantify_kept w g)).
  - f_equal. f_equal. f_equal. apply map_ext. intros r. unfold requantify_kept, requantify.
    destruct (w r); reflexivity.
  - intros r Hin Hw. unfold HolyPortal.set_quantity, requantify_kept, requantify.
    rewrite Hw, (Hr r Hin Hw). reflexivity.
Qed.

(** ** Every call either succeeds with its effect or changes nothing *)

Ltac refused :=
  let H := fresh in intros H; inversion H; subst; left; split; reflexivity.

Lemma HolyPortal_add_cases now u i q st o st' :
  HolyPortal.hcall (HolyPortal.add_to_cart_with_quantity_check now u i q) st = (o, st') ->
  (HolyPortal.hsucceeded o = false /\ st' = st) \/
  (HolyPortal.hsucceeded o = true /\
   exists a, available i st = Some a /\ q <= a /\ st' = added_kept now u i q st).
Proof.
  unfold HolyPortal.hcall, HolyPortal.add_to_cart_with_quantity_check, HolyPortal.RAISE,
    bind, query, try, ret, lift.
  unfold available, added_kept.
  destruct (select_into (fun mi => Nat.eqb (mi_id mi) i) (menu_items st)) as [mi|] eqn:Hm;
    [|refused].
  destruct (Z.ltb_spec (mi_quantity_available mi) q); [refused|].
  destruct (select_into (cart_key u i) (cart_items st)) as [ci|] eqn:Hc.
  - destruct (UPDATE_cart_items _ _ st) as [[[] st1]|e] eqn:H1; [|refused].
    destruct (int4pl (ci_quantity ci) q) as [v|e] eqn:Hv; [|refused].
    destruct (UPDATE_menu_items _ _ st1) as [[[] st2]|e] eqn:H2; [|refused].
    destruct (int4mi _ q) as [r|e] eqn:Hr; [|refused].
    intros H'; inversion H'; subst. right. split; [reflexivity|].
    exists (mi_quantity_available mi). split; [reflexivity|]. split; [assumption|].
    apply (kept_UPDATE_cart_items _ _ (fun old => old + q)) in H1.
    2:{ intros old v0 Hv0. apply int4_Ok in Hv0. tauto. }
    apply (kept_UPDATE_menu_items i (fun old => old - q) (- q)) in H2; [|intros; lia].
    subst. reflexivity.
  - unfold HolyPortal.INSERT_INTO_cart_items.
    destruct (UPDATE_menu_items _ _ _) as [[[] st2]|e] eqn:H2; [|refused].
    destruct (int4mi _ q) as [r|e] eqn:Hr; [|refused].
    intros H'; inversion H'; subst. right. split; [reflexivity|].
    exists (mi_quantity_available mi). split; [reflexivity|]. split; [assumption|].
    apply (kept_UPDATE_menu_items i (fun old => old - q) (- q)) in H2; [|intros; lia].
    subst. reflexivity.
Qed.

Lemma HolyPortal_remove_cases now u c st o st' :
  HolyPortal.hcall (HolyPortal.remove_from_cart_with_quantity_restore now u c) st = (o, st') ->
  (HolyPortal.hsucceeded o = false /\ st' = st) \/
  (HolyPortal.hsucceeded o = true /\
   exists line, In line (cart_items st) /\ cart_owned c u line = true
                /\ st' = removed_kept (cart_owned c u) line st).
Proof.
  unfold HolyPortal.hcall, HolyPortal.remove_from_cart_with_quantity_restore,
    HolyPortal.RAISE, bind, query, try, ret, lift.
  destruct (hd_error (cart_join_menu (cart_owned c u) st)) as [[ci mi]|] eqn:Hj;
    [|refused].
  apply join_hd in Hj. destruct Hj as (Hin & Hw & Hm).
  destruct (UPDATE_menu_items _ _ st) as [[[] st1]|e] eqn:H1; [|refused].
  unfold DELETE_FROM_cart_items.
  destruct (int4pl _ _) as [r|e] eqn:Hr; [|refused].
  intros H'; inversion H'; subst. right. split; [reflexivity|].
  exists ci. split; [assumption|]. split; [assumption|].
  apply (kept_UPDATE_menu_items _ (fun old => old + ci_quantity ci) (ci_quantity ci)) in H1;
    [|intros; lia].
  subst. reflexivity.
Qed.

Lemma HolyPortal_update_cases now u c n st o st' :
  HolyPortal.hcall (HolyPortal.update_cart_quantity_with_stock_check now u c n) st
  = (o, st') ->
  (HolyPortal.hsucceeded o = false /\ st' = st) \/
  (HolyPortal.hsucceeded o = true /\
   exists line, In line (cart_items st) /\ cart_owned c u line = true
     /\ (forall a, available (ci_menu_item_id line) st = Some a ->
                   n - ci_quantity line <= 0 \/ n - ci_quantity line <= a)
     /\ st' = if n <=? 0 then removed_kept (HolyPortal.has_id c) line st
              else quantity_set_kept c n line st).
Proof.
  unfold HolyPortal.hcall, HolyPortal.update_cart_quantity_with_stock_check,
    HolyPortal.RAISE, bind, query, try, ret, lift.
  destruct (select_into (cart_owned c u) (cart_items st)) as [ci|] eqn:Hc; [|refused].
  apply find_some in Hc. destruct Hc as [Hin Hw].
  destruct (int4mi n (ci_quantity ci)) as [d|e] eqn:Hd; [|refused].
  apply int4_Ok in Hd. destruct Hd as [-> _].
  assert (Hroom : (0 <? n - ci_quantity ci)
                  && match option_map mi_quantity_available
                             (select_into (fun mi => Nat.eqb (mi_id mi) (ci_menu_item_id ci))
                                          (menu_items st)) with
                     | Some a => a <? n - ci_quantity ci
                     | None => false
                     end = false ->
                  forall a, available (ci_menu_item_id ci) st = Some a ->
                            n - ci_quantity ci <= 0 \/ n - ci_quantity ci <= a).
  { intros Hchk a Ha. unfold available in Ha. rewrite Ha in Hchk.
    apply andb_false_iff in Hchk. destruct Hchk as [H0|H0]; apply Z.ltb_ge in H0; auto. }
  destruct ((0 <? n - ci_quantity ci) && _) eqn:Hchk; [refused|].
  specialize (Hroom eq_refl).
  destruct (n <=? 0) eqn:Hn.
  - destruct (UPDATE_menu_items _ _ st) as [[[] st1]|e] eqn:H1; [|refused].
    unfold DELETE_FROM_cart_items.
    destruct (HolyPortal.nullable _) as [r|e] eqn:Hr; [|refused].
    intros H'; inversion H'; subst. right. split; [reflexivity|].
    exists ci. repeat (split; [assumption|]).
    apply (kept_UPDATE_menu_items _ (fun old => old + ci_quantity ci) (ci_quantity ci)) in H1;
      [|intros; lia].
    subst. reflexivity.
  - destruct (UPDATE_cart_items _ _ st) as [[[] st1]|e] eqn:H1; [|refused].
    destruct (UPDATE_menu_items _ _ st1) as [[[] st2]|e] eqn:H2; [|refused].
    destruct (HolyPortal.nullable _) as [r|e] eqn:Hr; [|refused].
    intros H'; inversion H'; subst. right. split; [reflexivity|].
    exists ci. repeat (split; [assumption|]).
    apply (kept_UPDATE_cart_items _ _ (fun _ => n)) in H1.
    2:{ intros old v0 Hv0. inversion Hv0. reflexivity. }
    apply (kept_UPDATE_menu_items _ (fun old => old - (n - ci_quantity ci))
             (ci_quantity ci - n)) in H2; [|intros; lia].
    subst. reflexivity.
Qed.

(** ** Databases up to their timestamps *)

Lemma timeless_restock i d now now' mi :
  timeless_menu_item (restock i d now mi) = timeless_menu_item (restock i d now' mi).
Proof. unfold restock. destruct (Nat.eqb (mi_id mi) i); reflexivity. Qed.

Lemma timeless_restock_kept i d now l :
  map timeless_menu_item (map (restock_kept i d) l)
  = map timeless_menu_item (map (restock i d now) l).
Proof.
  rewrite !map_map. apply map_ext. intros mi. apply timeless_restock.
Qed.

Lemma timeless_requantify_kept w w' f now l :
  (forall x, In x l -> w x = w' x) ->
  map timeless_cart_item (map (requantify_kept w f) l)
  = map timeless_cart_item (map (requantify w' f now) l).
Proof.
  intros Hw. rewrite !map_map. apply map_ext_in. intros x Hx.
  unfold requantify_kept, requantify. rewrite (Hw x Hx). destruct (w' x); reflexivity.
Qed.

Lemma same_key_same_row {R K : Type} (key : R -> K) (l : list R) (x y : R) :
  NoDup (map key l) -> In x l -> In y l -> key x = key y -> x = y.
Proof.
  induction l as [|z l IH]; simpl; intros Hnd Hx Hy Hk; [contradiction|].
  inversion Hnd as [|? ? Hz Hnd']; subst.
  destruct Hx as [->|Hx], Hy as [->|Hy]; auto.
  - exfalso. apply Hz. rewrite Hk. apply in_map. assumption.
  - exfalso. apply Hz. rewrite <- Hk. apply in_map. assumption.
Qed.

Lemma has_id_cart_key u i ci st :
  db_keys st -> select_into (cart_key u i) (cart_items st) = Some ci ->
  forall x, In x (cart_items st) -> HolyPortal.has_id (ci_id ci) x = cart_key u i x.
Proof.
  intros Hk Hsel x Hx. apply find_some in Hsel. destruct Hsel as [Hin Hkey].
  unfold HolyPortal.has_id.
  destruct (cart_key u i x) eqn:Hkx.
  - apply cart_key_pair in Hkey. apply cart_key_pair in Hkx.
    assert (x = ci).
    { apply (same_key_same_row (fun ci => (ci_user_id ci, ci_menu_item_id ci))
               (cart_items st)); auto using keys_cart_unique.
      destruct Hkey as [-> ->], Hkx as [-> ->]. reflexivity. }
    subst. apply Nat.eqb_refl.
  - destruct (Nat.eqb_spec (ci_id x) (ci_id ci)) as [He|]; [|reflexivity].
    assert (x = ci)
      by (apply (same_key_same_row ci_id (cart_items st)); auto using keys_cart_pk).
    subst. congruence.
Qed.

Lemma has_id_cart_owned c u line l :
  NoDup (map ci_id l) -> In line l -> cart_owned c u line = true ->
  forall x, In x l -> HolyPortal.has_id c x = cart_owned c u x.
Proof.
  intros Hnd Hin Hw x Hx. unfold HolyPortal.has_id.
  destruct (cart_owned c u x) eqn:Hwx.
  - apply cart_owned_id in Hwx. destruct Hwx as [-> _]. apply Nat.eqb_refl.
  - destruct (Nat.eqb_spec (ci_id x) c) as [He|]; [|reflexivity].
    assert (x = line).
    { apply (same_key_same_row ci_id l); auto.
      destruct (cart_owned_id _ _ _ Hw) as [Hc _]. congruence. }
    subst x. congruence.
Qed.

Lemma added_kept_timeless now u i q st :
  db_keys st -> timeless (added_kept now u i q st) = timeless (added now u i q st).
Proof.
  intros Hk. unfold added_kept, added.
  destruct (select_into (cart_key u i) (cart_items st)) as [ci|] eqn:Hsel;
    unfold timeless; simpl; f_equal; try apply timeless_restock_kept.
  apply timeless_requantify_kept. apply (has_id_cart_key u i ci st Hk Hsel).
Qed.

Lemma quantity_set_kept_timeless now u c n line st :
  db_keys st -> In line (cart_items st) -> cart_owned c u line = true ->
  timeless (quantity_set_kept c n line st) = timeless (quantity_set now u c n line st).
Proof.
  intros Hk Hin Hw. unfold quantity_set_kept, quantity_set, timeless. simpl. f_equal.
  - apply timeless_restock_kept.
  - apply timeless_requantify_kept.
    apply (has_id_cart_owned c u line _ (keys_cart_pk st Hk) Hin Hw).
Qed.

Lemma removed_kept_timeless now u c line st :
  timeless (removed_kept (cart_owned c u) line st) = timeless (removed now u c line st).
Proof.
  unfold removed_kept, removed, timeless. simpl. f_equal. apply timeless_restock_kept.
Qed.

Lemma removed_by_id c u line st :
  db_keys st -> In line (cart_items st) -> cart_owned c u line = true ->
  removed_kept (HolyPortal.has_id c) line st = removed_kept (cart_owned c u) line st.
Proof.
  intros Hk Hin Hw. unfold removed_kept. f_equal. unfold delete_rows.
  apply filter_ext_in. intros x Hx.
  rewrite (has_id_cart_owned c u line _ (keys_cart_pk st Hk) Hin Hw x Hx). reflexivity.
Qed.

(** A call of the first revision that succeeds does what the later
    revisions do, timestamps aside; one that does not changes nothing. *)
Lemma HolyPortal_run_effect rq st o st' :
  db_keys st -> HolyPortal.run rq st = Some (o, st') ->
  if HolyPortal.hsucceeded o
  then exists st'', effect rq st st'' /\ timeless st' = timeless st''
  else st' = st.
Proof.
  intros Hk. unfold HolyPortal.run, HolyPortal.procedure.
  destruct (rq_op rq) as [u i q|u c n|u c|u] eqn:Hop; simpl; intros H; inversion H as [Hc];
    clear H.
  - apply HolyPortal_add_cases in Hc.
    destruct Hc as [[-> ->]|(-> & a & Ha & Hle & ->)]; [reflexivity|].
    exists (added (rq_now rq) u i q st). split.
    + eapply effect_add; eauto.
    + apply added_kept_timeless. assumption.
  - apply HolyPortal_update_cases in Hc.
    destruct Hc as [[-> ->]|(-> & line & Hin & Hw & Hroom & ->)]; [reflexivity|].
    destruct (Z.leb_spec n 0) as [Hn|Hn].
    + exists (removed (rq_now rq) u c line st). split.
      * eapply effect_set_remove; eauto.
      * rewrite (removed_by_id c u line st Hk Hin Hw). apply removed_kept_timeless.
    + exists (quantity_set (rq_now rq) u c n line st). split.
      * eapply effect_set; eauto.
      * apply quantity_set_kept_timeless; assumption.
  - apply HolyPortal_remove_cases in Hc.
    destruct Hc as [[-> ->]|(-> & line & Hin & Hw & ->)]; [reflexivity|].
    exists (removed (rq_now rq) u c line st). split.
    + eapply effect_remove; eauto.
    + apply removed_kept_timeless.
Qed.

Lemma find_timeless_menu i l :
  option_map mi_quantity_available
    (find (fun mi => Nat.eqb (mi_id mi) i) (map timeless_menu_item l))
  = option_map mi_quantity_available (find (fun mi => Nat.eqb (mi_id mi) i) l).
Proof.
  induction l as [|mi l IH]; simpl; [reflexivity|].
  destruct (Nat.eqb (mi_id mi) i); [reflexivity|assumption].
Qed.

Lemma available_timeless i st : available i (timeless st) = available i st.
Proof. unfold available, select_into. apply find_timeless_menu. Qed.

Lemma reserved_timeless i st : reserved i (timeless st) = reserved i st.
Proof.
  unfold reserved, reserved_in. simpl. f_equal.
  induction (cart_items st) as [|ci l IH]; simpl; [reflexivity|].
  destruct (Nat.eqb (ci_menu_item_id ci) i); simpl; rewrite IH; reflexivity.
Qed.

Lemma sold_timeless i st : sold i (timeless st) = sold i st.
Proof. reflexivity. Qed.

Lemma db_keys_timeless st : db_keys (timeless st) <-> db_keys st.
Proof.
  assert (Hm : map mi_id (map timeless_menu_item (menu_items st)) = map mi_id (menu_items st))
    by (rewrite map_map; reflexivity).
  assert (Hc : map ci_id (map timeless_cart_item (cart_items st)) = map ci_id (cart_items st))
    by (rewrite map_map; reflexivity).
  assert (Hp : map (fun ci => (ci_user_id ci, ci_menu_item_id ci))
                   (map timeless_cart_item (cart_items st))
               = map (fun ci => (ci_user_id ci, ci_menu_item_id ci)) (cart_items st))
    by (rewrite map_map; reflexivity).
  split; intros [H1 H2 H3 H4 H5 H6 H7]; simpl in *.
  - rewrite Hm in H1. rewrite Hc in H2. rewrite Hp in H3.
    rewrite Forall_map in H4. rewrite Forall_map in H7.
    constructor; auto.
    eapply Forall_impl; [|exact H7]. intros ci Hci. simpl in Hci.
    rewrite available_timeless in Hci. exact Hci.
  - constructor; simpl; rewrite ?Hm, ?Hc, ?Hp; auto.
    + rewrite Forall_map. exact H4.
    + rewrite Forall_map. eapply Forall_impl; [|exact H7]. intros ci Hci. simpl.
      rewrite available_timeless. exact Hci.
Qed.

Lemma db_ok_timeless st : db_ok (timeless st) <-> db_ok st.
Proof.
  split; intros [H1 H2 H3 H4].
  - constructor.
    + apply db_keys_timeless. assumption.
    + intros i a Ha. apply (H2 i a). rewrite available_timeless. assumption.
    + simpl in H3. rewrite Forall_map in H3. exact H3.
    + intros i a Ha. rewrite <- (reserved_timeless i st). apply H4.
      rewrite available_timeless. assumption.
  - constructor.
    + apply db_keys_timeless. assumption.
    + intros i a Ha. rewrite available_timeless in Ha. eauto.
    + simpl. rewrite Forall_map. exact H3.
    + intros i a Ha. rewrite available_timeless in Ha. rewrite reserved_timeless. eauto.
Qed.

Lemma HolyPortal_run_db_keys rq st o st' :
  db_keys st -> HolyPortal.run rq st = Some (o, st') -> db_keys st'.
Proof.
  intros Hk Hrun. pose proof (HolyPortal_run_effect rq st o st' Hk Hrun) as H.
  destruct (HolyPortal.hsucceeded o).
  - destruct H as (st'' & He & Ht). apply db_keys_timeless. rewrite Ht.
    apply db_keys_timeless. eapply effect_db_keys; eassumption.
  - subst. assumption.
Qed.

Lemma HolyPortal_run_db_ok rq st o st' :
  valid_input (rq_op rq) = true -> db_ok st ->
  HolyPortal.run rq st = Some (o, st') -> db_ok st'.
Proof.
  intros Hv Hok Hrun.
  pose proof (HolyPortal_run_effect rq st o st' (ok_keys st Hok) Hrun) as H.
  destruct (HolyPortal.hsucceeded o).
  - destruct H as (st'' & He & Ht). apply db_ok_timeless. rewrite Ht.
    apply db_ok_timeless. eapply effect_db_ok; eassumption.
  - subst. assumption.
Qed.

Lemma HolyPortal_run_conserves rq st o st' i a :
  db_keys st -> HolyPortal.run rq st = Some (o, st') ->
  available i st = Some a ->
  exists a', available i st' = Some a'
             /\ a' + reserved i st' + sold i st' = a + reserved i st + sold i st.
Proof.
  intros Hk Hrun Ha. pose proof (HolyPortal_run_effect rq st o st' Hk Hrun) as H.
  destruct (HolyPortal.hsucceeded o).
  - destruct H as (st'' & He & Ht).
    destruct (effect_conserves rq st st'' i a He Hk Ha) as (a' & Ha' & Hsum).
    exists a'.
    rewrite <- (available_timeless i st'), <- (reserved_timeless i st'),
      <- (sold_timeless i st'), Ht, available_timeless, reserved_timeless, sold_timeless.
    auto.
  - subst. eauto.
Qed.

(** ** Calls of the first revision that go through *)

Lemma HolyPortal_add_succeeds now u i q a st :
  db_ok st -> 0 < q -> available i st = Some a -> q <= a ->
  exists j,
    HolyPortal.hcall (HolyPortal.add_to_cart_with_quantity_check now u i q) st
    = (HolyPortal.HReturn j, added_kept now u i q st)
    /\ HolyPortal.hsucceeded (HolyPortal.HReturn j) = true.
Proof.
  intros Hok Hq Ha Hle. pose proof (ok_keys st Hok) as Hk.
  destruct (available_find i st a Ha) as (mi & Hf & Hmi).
  destruct (add_in_range st u i q a Hok Ha Hq Hle) as (Hm & Hc & Hl & Hr).
  unfold HolyPortal.hcall, HolyPortal.add_to_cart_with_quantity_check, HolyPortal.RAISE,
    bind, query, try, ret, lift, added_kept.
  rewrite Hf, Hmi, (proj2 (Z.ltb_ge a q) Hle).
  destruct (select_into (cart_key u i) (cart_items st)) as [ci|] eqn:Hsel.
  - rewrite (kept_UPDATE_cart_items_total _ _ (fun old => old + q)).
    2:{ intros x Hx Hw. rewrite (has_id_cart_key u i ci st Hk Hsel x Hx) in Hw.
        unfold int4pl. apply int4_in_range. apply Hc; auto. }
    apply find_some in Hsel. destruct Hsel as [Hin Hkey].
    unfold int4pl, int4mi. rewrite (int4_in_range _ (Hc ci Hin Hkey)).
    rewrite (kept_UPDATE_menu_items_total i (fun old => old - q) (- q))
      by (auto; intros; lia).
    rewrite (int4_in_range _ Hr).
    eexists. split; reflexivity.
  - unfold HolyPortal.INSERT_INTO_cart_items, int4mi.
    rewrite (kept_UPDATE_menu_items_total i (fun old => old - q) (- q))
      by (auto; intros; lia).
    rewrite (int4_in_range _ Hr).
    eexists. split; reflexivity.
Qed.

Lemma HolyPortal_remove_succeeds now u c line st :
  db_ok st -> In line (cart_items st) -> cart_owned c u line = true ->
  exists j,
    HolyPortal.hcall (HolyPortal.remove_from_cart_with_quantity_restore now u c) st
    = (HolyPortal.HReturn j, removed_kept (cart_owned c u) line st)
    /\ HolyPortal.hsucceeded (HolyPortal.HReturn j) = true.
Proof.
  intros Hok Hin Hw. pose proof (ok_keys st Hok) as Hk.
  destruct (line_available line st Hk Hin) as (mi & Hf & Ha).
  destruct (line_in_range st line _ Hok Hin Ha) as [Hq Hcap].
  pose proof (ok_stock st Hok _ _ Ha) as Ha0. destruct int4_bounds as [Hmin Hmax].
  assert (Hr : int4_min <= mi_quantity_available mi + ci_quantity line <= int4_max) by lia.
  unfold HolyPortal.hcall, HolyPortal.remove_from_cart_with_quantity_restore,
    HolyPortal.RAISE, bind, query, try, ret, lift, removed_kept.
  rewrite (join_owned c u line mi st Hk Hin Hw Hf).
  change (hd_error [(line, mi)]) with (Some (line, mi)). cbv iota beta.
  unfold int4pl.
  rewrite (kept_UPDATE_menu_items_total _ (fun old => old + ci_quantity line)
             (ci_quantity line))
    by (auto; apply (restock_in_range st _ _ _ Hk Ha Hr)).
  unfold DELETE_FROM_cart_items. rewrite (int4_in_range _ Hr).
  eexists. split; reflexivity.
Qed.

Lemma HolyPortal_update_runs now u c n line a st :
  db_ok st -> In line (cart_items st) -> cart_owned c u line = true ->
  0 <= n <= int4_max ->
  available (ci_menu_item_id line) st = Some a ->
  exists o,
    HolyPortal.hcall (HolyPortal.update_cart_quantity_with_stock_check now u c n) st
    = (o, if n <=? 0 then removed_kept (HolyPortal.has_id c) line st
          else if (0 <? n - ci_quantity line) && (a <? n - ci_quantity line) then st
          else quantity_set_kept c n line st)
    /\ HolyPortal.hsucceeded o
       = (n <=? 0) || negb ((0 <? n - ci_quantity line) && (a <? n - ci_quantity line)).
Proof.
  intros Hok Hin Hw Hn Ha'. pose proof (ok_keys st Hok) as Hk.
  destruct (line_available line st Hk Hin) as (mi & Hf & Ha).
  rewrite Ha in Ha'. inversion Ha' as [Hmi]. clear Ha'.
  destruct (select_owned c u line st Hk Hin Hw) as [Hsel _].
  destruct (line_in_range st line _ Hok Hin Ha) as [Hq Hcap].
  pose proof (ok_stock st Hok _ _ Ha) as Ha0. rewrite Hmi in *.
  destruct int4_bounds as [Hmin Hmax].
  assert (Hd : int4_min <= n - ci_quantity line <= int4_max) by lia.
  unfold HolyPortal.hcall, HolyPortal.update_cart_quantity_with_stock_check,
    HolyPortal.RAISE, bind, query, try, ret, lift.
  rewrite Hsel, Hf. cbv zeta. cbn [option_map]. unfold int4mi at 1.
  rewrite (int4_in_range _ Hd), ?Hmi.
  destruct (Z.leb_spec n 0) as [Hn0|Hn0].
  - rewrite (proj2 (Z.ltb_ge 0 (n - ci_quantity line))) by lia. cbn [andb].
    assert (Hr : int4_min <= a + ci_quantity line <= int4_max) by lia.
    unfold int4pl.
    rewrite (kept_UPDATE_menu_items_total _ (fun old => old + ci_quantity line)
               (ci_quantity line))
      by (auto; apply (restock_in_range st _ _ _ Hk Ha Hr)).
    unfold DELETE_FROM_cart_items. cbn [HolyPortal.nullable]. rewrite (int4_in_range _ Hr).
    eexists. split; reflexivity.
  - destruct ((0 <? n - ci_quantity line) && (a <? n - ci_quantity line)) eqn:Hchk.
    + eexists. split; reflexivity.
    + assert (Hr : int4_min <= a + (ci_quantity line - n) <= int4_max).
      { apply andb_false_iff in Hchk. destruct Hchk as [H0|H0]; apply Z.ltb_ge in H0; lia. }
      assert (Hr' : int4_min <= a - (n - ci_quantity line) <= int4_max) by lia.
      rewrite (kept_UPDATE_cart_items_total _ _ (fun _ => n)) by reflexivity.
      unfold int4mi.
      rewrite (kept_UPDATE_menu_items_total _ (fun old => old - (n - ci_quantity line))
                 (ci_quantity line - n))
        by (intros; try lia; apply (restock_in_range st _ _ _ Hk Ha Hr); assumption).
      cbn [HolyPortal.nullable]. rewrite (int4_in_range _ Hr').
      eexists. split; reflexivity.
Qed.

Lemma HolyPortal_no_line now u c st :
  (forall x, In x (cart_items st) -> cart_owned c u x = false) ->
  (forall n, HolyPortal.hcall (HolyPortal.update_cart_quantity_with_stock_check now u c n) st
             = (HolyPortal.HReturn (HolyPortal.hfailure "Cart item not found"), st))
  /\ HolyPortal.hcall (HolyPortal.remove_from_cart_with_quantity_restore now u c) st
     = (HolyPortal.HReturn (HolyPortal.hfailure "Cart item not found"), st).
Proof.
  intros Hno.
  assert (Hsel : select_into (cart_owned c u) (cart_items st) = None)
    by (apply find_no_match; assumption).
  assert (Hjoin : cart_join_menu (cart_owned c u) st = []).
  { unfold cart_join_menu. rewrite (filter_no_match _ _ Hno). reflexivity. }
  split; [intros n|];
    unfold HolyPortal.hcall, HolyPortal.update_cart_quantity_with_stock_check,
      HolyPortal.remove_from_cart_with_quantity_restore, HolyPortal.RAISE,
      bind, query, try, ret, lift; rewrite ?Hsel, ?Hjoin; reflexivity.
Qed.

Lemma HolyPortal_add_refused now u i q st :
  match available i st with
  | Some a => a < q
  | None => True
  end ->
  exists j,
    HolyPortal.hcall (HolyPortal.add_to_cart_with_quantity_check now u i q) st
    = (HolyPortal.HReturn j, st)
    /\ HolyPortal.hsucceeded (HolyPortal.HReturn j) = false.
Proof.
  unfold available, HolyPortal.hcall, HolyPortal.add_to_cart_with_quantity_check,
    HolyPortal.RAISE, bind, query, try, ret, lift.
  destruct (select_into _ (menu_items st)) as [mi|]; simpl; intros H.
  - rewrite (proj2 (Z.ltb_lt _ _) H). eexists. split; reflexivity.
  - eexists. split; reflexivity.
Qed.

(** On ordinary input and a consistent database the first revision takes
    the step the later ones share, timestamps aside. *)
Lemma HolyPortal_reference rq st o st' :
  db_ok st -> ordinary_input (rq_op rq) = true ->
  HolyPortal.run rq st = Some (o, st') ->
  timeless st' = timeless (fst (reference_step rq st))
  /\ HolyPortal.hsucceeded o = snd (reference_step rq st).
Proof.
  intros Hok Hord. pose proof (ok_keys st Hok) as Hk.
  unfold HolyPortal.run, HolyPortal.procedure, reference_step.
  destruct (rq_op rq) as [u i q|u c n|u c|u] eqn:Hop; simpl in Hord |- *;
    intros H; inversion H as [Hc]; clear H.
  - apply Z.ltb_lt in Hord.
    destruct (available i st) as [a|] eqn:Ha.
    + destruct (Z.ltb_spec a q) as [Hlt|Hle].
      * destruct (HolyPortal_add_refused (rq_now rq) u i q st) as (j & Hrun & Hs);
          [rewrite Ha; assumption|].
        rewrite Hrun in Hc. inversion Hc; subst. auto.
      * destruct (HolyPortal_add_succeeds (rq_now rq) u i q a st Hok Hord Ha Hle)
          as (j & Hrun & Hs).
        rewrite Hrun in Hc. inversion Hc; subst. split; [|assumption].
        apply added_kept_timeless. assumption.
    + destruct (HolyPortal_add_refused (rq_now rq) u i q st) as (j & Hrun & Hs);
        [rewrite Ha; exact I|].
      rewrite Hrun in Hc. inversion Hc; subst. auto.
  - apply andb_true_iff in Hord. destruct Hord as [H0 H1].
    apply Z.leb_le in H0. apply Z.leb_le in H1.
    destruct (owned_or_not c u (cart_items st)) as [(line & Hin & Hw)|Hno].
    + destruct (select_owned c u line st Hk Hin Hw) as [Hsel _]. rewrite Hsel.
      destruct (line_available line st Hk Hin) as (mi & Hf & Ha). rewrite Ha.
      destruct (HolyPortal_update_runs (rq_now rq) u c n line _ st Hok Hin Hw
                  (conj H0 H1) Ha) as (o' & Hrun & Hs).
      rewrite Hrun in Hc. inversion Hc; subst o' st'. rewrite Hs.
      destruct (n <=? 0).
      * split; [|reflexivity]. simpl fst.
        rewrite (removed_by_id c u line st Hk Hin Hw). apply removed_kept_timeless.
      * destruct ((0 <? n - ci_quantity line)
                  && (mi_quantity_available mi <? n - ci_quantity line));
          simpl; split; try reflexivity.
        apply quantity_set_kept_timeless; assumption.
    + rewrite (proj1 (HolyPortal_no_line (rq_now rq) u c st Hno) n) in Hc.
      inversion Hc; subst.
      rewrite (find_no_match _ _ Hno : select_into _ _ = None). auto.
  - destruct (owned_or_not c u (cart_items st)) as [(line & Hin & Hw)|Hno].
    + destruct (select_owned c u line st Hk Hin Hw) as [Hsel _]. rewrite Hsel.
      destruct (HolyPortal_remove_succeeds (rq_now rq) u c line st Hok Hin Hw)
        as (j & Hrun & Hs).
      rewrite Hrun in Hc. inversion Hc; subst. split; [|assumption].
      apply removed_kept_timeless.
    + rewrite (proj2 (HolyPortal_no_line (rq_now rq) u c st Hno)) in Hc.
      inversion Hc; subst.
      rewrite (find_no_match _ _ Hno : select_into _ _ = None). auto.
Qed.

(** ** What the first revision guarantees *)

Lemma HolyPortal_run_cases rq st o st' :
  HolyPortal.run rq st = Some (o, st') ->
  (HolyPortal.hsucceeded o = false /\ st' = st)
  \/ (HolyPortal.hsucceeded o = true /\
      ((exists u i q, rq_op rq = addItem u i q /\ st' = added_kept (rq_now rq) u i q st)
       \/ (exists u c line,
             caller rq = u /\ In line (cart_items st) /\ cart_owned c u line = true
             /\ (st' = removed_kept (cart_owned c u) line st
                 \/ st' = removed_kept (HolyPortal.has_id c) line st
                 \/ exists n, st' = quantity_set_kept c n line st)))).
Proof.
  unfold HolyPortal.run, HolyPortal.procedure, caller.
  destruct (rq_op rq) as [u i q|u c n|u c|u] eqn:Hop; simpl; intros H; inversion H as [Hc];
    clear H.
  - apply HolyPortal_add_cases in Hc.
    destruct Hc as [[-> ->]|(-> & a & Ha & Hle & ->)]; [left; auto|].
    right. split; [reflexivity|]. left. exists u, i, q. auto.
  - apply HolyPortal_update_cases in Hc.
    destruct Hc as [[-> ->]|(-> & line & Hin & Hw & Hroom & ->)]; [left; auto|].
    right. split; [reflexivity|]. right. exists u, c, line.
    repeat (split; [auto|]). destruct (n <=? 0); eauto.
  - apply HolyPortal_remove_cases in Hc.
    destruct Hc as [[-> ->]|(-> & line & Hin & Hw & ->)]; [left; auto|].
    right. split; [reflexivity|]. right. exists u, c, line. auto.
Qed.

(** X20. Failure atomicity of the first revision.  A call that does not
    report success, whether it answered with a refusal or raised an error,
    leaves every table as it was. *)
Theorem HolyPortal_failure_atomicity rq st o st' :
  HolyPortal.run rq st = Some (o, st') ->
  HolyPortal.hsucceeded o = false ->
  st' = st.
Proof.
  intros Hrun Hs. apply HolyPortal_run_cases in Hrun.
  destruct Hrun as [[_ ->]|[Hs' _]]; [reflexivity|congruence].
Qed.

Lemma HolyPortal_failure_atomicity_witness :
  snd (HolyPortal.hcall
         (HolyPortal.update_cart_quantity_with_stock_check 9 user_a line_a 9) reserved_by_a)
  = reserved_by_a.
Proof.
  apply (HolyPortal_failure_atomicity
           (mk_request None 9 (setQuantity user_a line_a 9)) reserved_by_a
           (fst (HolyPortal.hcall
                   (HolyPortal.update_cart_quantity_with_stock_check 9 user_a line_a 9)
                   reserved_by_a))).
  - reflexivity.
  - reflexivity.
Defined.

(** X21. Conservation in the first revision.  From a database that respects
    the schema's keys, after any sequence of cart calls the units of an
    item on the shelf, in carts and in non-cancelled orders add up to what
    they added up to before. *)
Theorem HolyPortal_conservation rqs st st' i a :
  db_keys st -> HolyPortal.run_all rqs st = Some st' ->
  available i st = Some a ->
  exists a', available i st' = Some a'
             /\ a' + reserved i st' + sold i st' = a + reserved i st + sold i st.
Proof.
  revert st a. induction rqs as [|rq rqs IH]; simpl; intros st a Hk Hrun Ha.
  - inversion Hrun; subst. eauto.
  - destruct (HolyPortal.run rq st) as [[o st1]|] eqn:H1; [|discriminate].
    destruct (HolyPortal_run_conserves rq st o st1 i a Hk H1 Ha) as (a1 & Ha1 & Hsum).
    destruct (IH st1 a1 (HolyPortal_run_db_keys rq st o st1 Hk H1) Hrun Ha1)
      as (a' & Ha' & Hsum').
    exists a'. split; [assumption|lia].
Qed.

Lemma HolyPortal_conservation_witness :
  exists a', available item_x
               (snd (HolyPortal.hcall
                       (HolyPortal.update_cart_quantity_with_stock_check 9 user_a line_a 4)
                       reserved_by_a)) = Some a'
             /\ a' + reserved item_x
                       (snd (HolyPortal.hcall
                               (HolyPortal.update_cart_quantity_with_stock_check
                                  9 user_a line_a 4) reserved_by_a))
                + sold item_x
                       (snd (HolyPortal.hcall
                               (HolyPortal.update_cart_quantity_with_stock_check
                                  9 user_a line_a 4) reserved_by_a))
                = 2 + reserved item_x reserved_by_a + sold item_x reserved_by_a.
Proof.
  apply (HolyPortal_conservation [mk_request None 9 (setQuantity user_a line_a 4)]
           reserved_by_a).
  - apply db_keysb_sound. reflexivity.
  - reflexivity.
  - reflexivity.
Defined.

(** X22. Consistency in the first revision.  Calls with valid input take a
    consistent database (keys, stock >= 0, cart quantities > 0, room in the
    32-bit counters) to a consistent database: no call drives an item's
    stock below zero or leaves a cart line without a positive quantity. *)
Theorem HolyPortal_consistency_preserved rqs st st' :
  db_ok st -> Forall (fun rq => valid_input (rq_op rq) = true) rqs ->
  HolyPortal.run_all rqs st = Some st' ->
  db_ok st'.
Proof.
  revert st. induction rqs as [|rq rqs IH]; simpl; intros st Hok Hv Hrun.
  - inversion Hrun; subst. assumption.
  - inversion Hv as [|? ? Hv1 Hv2]; subst.
    destruct (HolyPortal.run rq st) as [[o st1]|] eqn:H1; [|discriminate].
    apply (IH st1); [|assumption|assumption].
    apply (HolyPortal_run_db_ok rq st o st1 Hv1 Hok H1).
Qed.

Lemma HolyPortal_consistency_preserved_witness :
  db_ok (snd (HolyPortal.hcall
                (HolyPortal.add_to_cart_with_quantity_check 9 user_b item_x 2)
                reserved_by_a)).
Proof.
  apply (HolyPortal_consistency_preserved [mk_request None 9 (addItem user_b item_x 2)]
           reserved_by_a).
  - apply db_okb_sound. reflexivity.
  - repeat constructor.
  - reflexivity.
Defined.

(** X23. The first revision against the later ones.  On a consistent
    database, for a call with ordinary input made by the user's own session,
    the first revision succeeds exactly when the later revisions do, and
    leaves the same tables, the timestamps aside (the later revisions stamp
    the rows they write, the first does not). *)
Theorem HolyPortal_agrees_with_later_revisions rev rq st o st' :
  db_ok st -> authenticated rq = true -> ordinary_input (rq_op rq) = true ->
  HolyPortal.run rq st = Some (o, st') ->
  timeless st' = timeless (snd (run rev rq st))
  /\ HolyPortal.hsucceeded o = succeeded (fst (run rev rq st)).
Proof.
  intros Hok Hauth Hord Hrun.
  pose proof (run_reference rev rq st Hok Hauth Hord) as Href.
  destruct (HolyPortal_reference rq st o st' Hok Hord Hrun) as [Ht Hs].
  rewrite <- Href in Ht, Hs. exact (conj Ht Hs).
Qed.

Lemma HolyPortal_agrees_with_later_revisions_witness :
  timeless (snd (HolyPortal.hcall
                   (HolyPortal.update_cart_quantity_with_stock_check 9 user_a line_a 4)
                   reserved_by_a))
  = timeless (snd (run Mgmt (mk_request (Some user_a) 9 (setQuantity user_a line_a 4))
                       reserved_by_a))
  /\ HolyPortal.hsucceeded
       (fst (HolyPortal.hcall
               (HolyPortal.update_cart_quantity_with_stock_check 9 user_a line_a 4)
               reserved_by_a))
     = succeeded (fst (run Mgmt (mk_request (Some user_a) 9 (setQuantity user_a line_a 4))
                           reserved_by_a)).
Proof.
  apply (HolyPortal_agrees_with_later_revisions Mgmt
           (mk_request (Some user_a) 9 (setQuantity user_a line_a 4)) reserved_by_a).
  - apply db_okb_sound. reflexivity.
  - reflexivity.
  - reflexivity.
  - reflexivity.
Defined.

Lemma kept_menu_stamps i d l :
  map mi_updated_at (map (restock_kept i d) l) = map mi_updated_at l.
Proof.
  rewrite map_map. apply map_ext. intros mi. unfold restock_kept, restock.
  destruct (Nat.eqb (mi_id mi) i); reflexivity.
Qed.

Lemma kept_rows_map w g l :
  Forall (kept_row l) (map (requantify_kept w g) l).
Proof.
  apply Forall_forall. intros ci' Hin. apply in_map_iff in Hin.
  destruct Hin as (ci & <- & Hin). exists ci. split; [assumption|].
  unfold requantify_kept, requantify. destruct (w ci); auto.
Qed.

Lemma kept_rows_same l : Forall (kept_row l) l.
Proof. apply Forall_forall. intros ci Hin. exists ci. auto. Qed.

Lemma kept_rows_delete w l : Forall (kept_row l) (delete_rows w l).
Proof.
  apply Forall_forall. intros ci Hin. unfold delete_rows in Hin.
  apply filter_In in Hin. exists ci. tauto.
Qed.

(** X24. The first revision writes no timestamp.  Whatever the call and its
    outcome, every menu row keeps its [updated_at], and every cart row
    afterwards is either the one row the call inserted or a row that was
    there before, with the [created_at] it had. *)
Theorem HolyPortal_keeps_timestamps rq st o st' :
  HolyPortal.run rq st = Some (o, st') ->
  map mi_updated_at (menu_items st') = map mi_updated_at (menu_items st)
  /\ Forall (fun ci' => ci_id ci' = next_uuid st \/ kept_row (cart_items st) ci')
            (cart_items st').
Proof.
  intros Hrun. apply HolyPortal_run_cases in Hrun.
  assert (Hor : forall l l' : list cart_item,
             Forall (kept_row l) l' ->
             Forall (fun ci' => ci_id ci' = next_uuid st \/ kept_row l ci') l').
  { intros l l' H. eapply Forall_impl; [|exact H]. auto. }
  destruct Hrun as [[_ ->]|[_ [(u & i & q & _ & ->)|(u & c & line & _ & _ & _ & H)]]].
  - split; [reflexivity|]. apply Hor, kept_rows_same.
  - unfold added_kept.
    destruct (select_into (cart_key u i) (cart_items st)); simpl; split;
      try apply kept_menu_stamps.
    + apply Hor, kept_rows_map.
    + apply Forall_app. split; [apply Hor, kept_rows_same|].
      constructor; [left; reflexivity|constructor].
  - destruct H as [->|[->|[n ->]]]; simpl; split; try apply kept_menu_stamps;
      apply Hor; auto using kept_rows_delete, kept_rows_map.
Qed.

Lemma HolyPortal_keeps_timestamps_witness :
  map mi_updated_at
      (menu_items (snd (HolyPortal.hcall
                          (HolyPortal.add_to_cart_with_quantity_check 9 user_b item_x 2)
                          reserved_by_a)))
  = map mi_updated_at (menu_items reserved_by_a)
  /\ Forall (fun ci' => ci_id ci' = next_uuid reserved_by_a
                        \/ kept_row (cart_items reserved_by_a) ci')
            (cart_items (snd (HolyPortal.hcall
                                (HolyPortal.add_to_cart_with_quantity_check
                                   9 user_b item_x 2) reserved_by_a))).
Proof.
  apply (HolyPortal_keeps_timestamps (mk_request None 9 (addItem user_b item_x 2))
           reserved_by_a
           (fst (HolyPortal.hcall
                   (HolyPortal.add_to_cart_with_quantity_check 9 user_b item_x 2)
                   reserved_by_a))).
  reflexivity.
Defined.

Lemma others_requantify_kept u w g l :
  (forall ci, In ci l -> w ci = true -> ci_user_id ci = u) ->
  filter (of_others u) (map (requantify_kept w g) l) = filter (of_others u) l.
Proof.
  induction l as [|ci l IH]; simpl; intros H; [reflexivity|].
  rewrite IH by (intros; apply H; auto).
  unfold requantify_kept at 1. rewrite of_others_requantify.
  destruct (of_others u ci) eqn:Ho; [|reflexivity].
  f_equal. unfold requantify_kept, requantify.
  destruct (w ci) eqn:Hw; [|reflexivity].
  rewrite (of_others_own u ci) in Ho by (apply H; auto). discriminate.
Qed.

(** X25. Ownership isolation in the first revision.  Given the primary key
    of [cart_items], a call made for user [u] changes, adds or deletes no
    cart line of another user, although two of its statements pick the row
    by [id] alone. *)
Theorem HolyPortal_other_carts_untouched rq st o st' :
  NoDup (map ci_id (cart_items st)) ->
  HolyPortal.run rq st = Some (o, st') ->
  filter (of_others (caller rq)) (cart_items st')
  = filter (of_others (caller rq)) (cart_items st).
Proof.
  intros Hnd Hrun. apply HolyPortal_run_cases in Hrun.
  destruct Hrun as [[_ ->]|[_ [(u & i & q & Hop & ->)|(u & c & line & <- & Hin & Hw & H)]]].
  - reflexivity.
  - unfold caller. rewrite Hop. unfold added_kept.
    destruct (select_into (cart_key u i) (cart_items st)) as [ci|] eqn:Hsel; simpl.
    + apply find_some in Hsel. destruct Hsel as [Hci Hkey].
      apply others_requantify_kept. intros x Hx Hid.
      apply Nat.eqb_eq in Hid.
      rewrite (same_key_same_row ci_id (cart_items st) x ci Hnd Hx Hci Hid).
      apply cart_key_pair in Hkey. apply Hkey.
    + rewrite filter_app. simpl. rewrite of_others_own by reflexivity. apply app_nil_r.
  - assert (Hown : forall x, In x (cart_items st) ->
                             HolyPortal.has_id c x = true -> ci_user_id x = caller rq).
    { intros x Hx Hid.
      rewrite (has_id_cart_owned c _ line _ Hnd Hin Hw x Hx) in Hid.
      apply cart_owned_id in Hid. apply Hid. }
    destruct H as [->|[->|[n ->]]]; simpl.
    + apply others_delete_rows. intros ci Hc. apply cart_owned_id in Hc. apply Hc.
    + replace (delete_rows (HolyPortal.has_id c) (cart_items st))
        with (delete_rows (cart_owned c (caller rq)) (cart_items st)).
      * apply others_delete_rows. intros ci Hc. apply cart_owned_id in Hc. apply Hc.
      * unfold delete_rows. apply filter_ext_in. intros x Hx.
        rewrite (has_id_cart_owned c _ line _ Hnd Hin Hw x Hx). reflexivity.
    + apply others_requantify_kept. assumption.
Qed.

Lemma HolyPortal_other_carts_untouched_witness :
  filter (of_others user_b)
         (cart_items (snd (HolyPortal.hcall
                             (HolyPortal.update_cart_quantity_with_stock_check
                                9 user_b line_a 0) reserved_by_a)))
  = filter (of_others user_b) (cart_items reserved_by_a).
Proof.
  apply (HolyPortal_other_carts_untouched
           (mk_request None 9 (setQuantity user_b line_a 0)) reserved_by_a
           (fst (HolyPortal.hcall
                   (HolyPortal.update_cart_quantity_with_stock_check 9 user_b line_a 0)
                   reserved_by_a))).
  - apply NoDup_cons; [simpl; tauto|apply NoDup_nil].
  - reflexivity.
Defined.
